(** * Redfish interop profiles: requirement merger and inclusion resolver

    A shallow embedding of [redfish_interop_validator/profile.py]:
    [dict_merge] with its three local helpers, [getProfileFromRepo],
    [getProfilesMatchingName], [parseProfileInclude] and [getProfiles].

    The Python program works on mutable dictionaries and lists that are
    shared by reference (a value copied from an imported profile into the
    importing one is the same object in both).  The embedding therefore
    keeps an explicit object store: a [value] is a scalar or a reference,
    and every function is a computation over a [state] holding the store,
    the module-level [profile_cache], the logger's records and the trace of
    the requests made to the outside world.  Exceptions are results.

    Conventions of the model:
    - a character of a [string] stands for the code point of the same
      number (0..255);
    - numbers are integers; documents with fractional numbers are outside
      the model;
    - dictionary keys are strings, as in every document read by [json.load];
    - the recursion limit of the interpreter is the [fuel] of the two
      recursive functions, and exhausting it raises [RecursionError]. *)

From Stdlib Require Import ZArith String Ascii List Bool Lia DecimalString.
From Stdlib Require Import OrderedTypeEx.
From stdpp Require Import base list strings gmap.

Open Scope string_scope.
Open Scope list_scope.

(** ** Values, objects and the store *)

Definition loc := nat.

Inductive value : Type :=
| VNone
| VBool (b : bool)
| VInt (z : Z)
| VStr (s : string)
| VBytes (s : string)
| VRef (l : loc).

Inductive object : Type :=
| ODict (items : list (string * value))
| OList (items : list value).

(** A parsed JSON text, before [json.load] builds objects from it. *)
#[warnings="-register-all"]
Inductive json : Type :=
| JNull
| JBool (b : bool)
| JInt (z : Z)
| JStr (s : string)
| JArr (elems : list json)
| JObj (members : list (string * json)).

Inductive exn : Type :=
| TypeError
| AttributeError
| KeyError
| ValueError
| RuntimeError
| RecursionError
| OSError
| LibraryError
| DanglingReference.

Inductive outcome (A : Type) : Type :=
| Ok (a : A)
| Raise (e : exn).
Arguments Ok {A} a.
Arguments Raise {A} e.

(** ** Logger records and requests to the outside world *)

Inductive level := WARNING | ERROR.

Inductive message : Type :=
| TypeConflict (k : string) (dst_type src_type : string)
| CyclicalImport (chain : value) (profile_name : value)
| VersionBelowMin
| CouldNotAcquire (target_name : string) (repo : value)
| MissingResource (target_name resource_name : string).

Definition log_entry : Type := level * message.

Inductive event : Type :=
| EvUrlopen (url : string)
| EvPrint (e : exn)
| EvGlob (dirname : string)
| EvOpen (path : string).

(** Modelled from the spec: [helper.py], with [splitVersionString] and
    [versionpattern], is not among the sources; the spec makes the result
    of [splitVersionString] an ordered triple, compared as tuples are. *)
Definition version : Type := Z * Z * Z.

Record state : Type := mkState {
  heap : list object;
  profile_cache : gmap string value;
  log : list log_entry;
  trace : list event
}.

(** ** What the module imports: the version codec of [helper], the regular
    expressions built from its [versionpattern], the network, the file
    system, and the built-ins of the interpreter that walk whole container
    objects.  An answer of the outside world may depend on everything that
    was requested before. *)

Record environment : Type := mkEnv {
  splitVersionString : list object -> value -> outcome version;
  py_repr : list object -> loc -> string;
  py_container_eq : list object -> loc -> loc -> bool;
  py_list_lt : list object -> loc -> loc -> outcome bool;
  findall_versioned : string -> string -> outcome (list string);
  filepattern : string -> outcome (string -> bool);
  http_get : list event -> string -> outcome string;
  decode_utf8 : string -> outcome string;
  glob_json : list event -> string -> list string;
  load_json : list event -> string -> outcome json
}.

(** ** The computation monad: state and exceptions *)

Definition M (A : Type) : Type := state -> outcome A * state.

Definition ret {A} (a : A) : M A := fun st => (Ok a, st).

Definition raise {A} (e : exn) : M A := fun st => (Raise e, st).

Definition bind {A B} (m : M A) (f : A -> M B) : M B :=
  fun st =>
    match m st with
    | (Ok a, st') => f a st'
    | (Raise e, st') => (Raise e, st')
    end.

Notation "x <- m ;; k" := (bind m (fun x => k))
  (at level 100, m at next level, right associativity).

Definition try_except {A} (m : M A) (handler : exn -> M A) : M A :=
  fun st =>
    match m st with
    | (Ok a, st') => (Ok a, st')
    | (Raise e, st') => handler e st'
    end.

Definition lift {A} (o : outcome A) : M A := fun st => (o, st).

(** The four ways a computation changes the state. *)
Definition with_heap (h : list object) (st : state) : state :=
  mkState h (profile_cache st) (log st) (trace st).

Definition with_cached (k : string) (v : value) (st : state) : state :=
  mkState (heap st) (<[k:=v]> (profile_cache st)) (log st) (trace st).

Definition with_logged (lv : level) (msg : message) (st : state) : state :=
  mkState (heap st) (profile_cache st) (log st ++ [(lv, msg)]) (trace st).

Definition with_event (ev : event) (st : state) : state :=
  mkState (heap st) (profile_cache st) (log st) (trace st ++ [ev]).

Definition get_heap : M (list object) := fun st => (Ok (heap st), st).

Definition set_heap (h : list object) : M unit := fun st => (Ok tt, with_heap h st).

Definition get_cache : M (gmap string value) :=
  fun st => (Ok (profile_cache st), st).

Definition cache_store (k : string) (v : value) : M unit :=
  fun st => (Ok tt, with_cached k v st).

Definition logger (lv : level) (msg : message) : M unit :=
  fun st => (Ok tt, with_logged lv msg st).

Definition get_trace : M (list event) := fun st => (Ok (trace st), st).

Definition emit (ev : event) : M unit := fun st => (Ok tt, with_event ev st).

(** ** Objects in the store *)

Definition read_obj (l : loc) : M object :=
  h <- get_heap ;;
  match h !! l with
  | Some o => ret o
  | None => raise DanglingReference
  end.

Definition write_obj (l : loc) (o : object) : M unit :=
  h <- get_heap ;; set_heap (<[l:=o]> h).

Definition alloc (o : object) : M value :=
  h <- get_heap ;; _ <- set_heap (h ++ [o]) ;; ret (VRef (length h)).

(** Dictionaries keep insertion order; assigning an existing key keeps its
    place. *)
Fixpoint assoc_get (k : string) (items : list (string * value)) : option value :=
  match items with
  | [] => None
  | (k', v) :: rest => if String.eqb k k' then Some v else assoc_get k rest
  end.

Fixpoint assoc_set (k : string) (v : value) (items : list (string * value))
  : list (string * value) :=
  match items with
  | [] => [(k, v)]
  | (k', v') :: rest =>
      if String.eqb k k' then (k, v) :: rest else (k', v') :: assoc_set k v rest
  end.

(** ** Built-ins of the interpreter *)

Definition num (v : value) : Z :=
  match v with
  | VBool true => 1
  | VInt z => z
  | _ => 0
  end.

(** [a == b] when one side at least is not a container. *)
Definition scalar_eq (a b : value) : bool :=
  match a, b with
  | VNone, VNone => true
  | VStr s, VStr t => String.eqb s t
  | VBytes s, VBytes t => String.eqb s t
  | VBool _, VBool _ | VBool _, VInt _ | VInt _, VBool _ | VInt _, VInt _ =>
      Z.eqb (num a) (num b)
  | _, _ => false
  end.

Section Program.

Variable env : environment.

(** [a is b or a == b], the test of [in] on a list. *)
Definition py_eq (h : list object) (a b : value) : bool :=
  match a, b with
  | VRef l1, VRef l2 => if Nat.eqb l1 l2 then true else py_container_eq env h l1 l2
  | _, _ => scalar_eq a b
  end.

(** [type(v).__name__] *)
Definition type_name (v : value) : M string :=
  match v with
  | VNone => ret "NoneType"
  | VBool _ => ret "bool"
  | VInt _ => ret "int"
  | VStr _ => ret "str"
  | VBytes _ => ret "bytes"
  | VRef l =>
      o <- read_obj l ;;
      match o with ODict _ => ret "dict" | OList _ => ret "list" end
  end.

(** [isinstance(v, dict)]; a [dict] is the only [Mapping] of the program. *)
Definition is_dict (v : value) : M bool :=
  match v with
  | VRef l => o <- read_obj l ;; match o with ODict _ => ret true | OList _ => ret false end
  | _ => ret false
  end.

Definition is_list (v : value) : M bool :=
  match v with
  | VRef l => o <- read_obj l ;; match o with ODict _ => ret false | OList _ => ret true end
  | _ => ret false
  end.

(** [bool(v)] *)
Definition truthy (v : value) : M bool :=
  match v with
  | VNone => ret false
  | VBool b => ret b
  | VInt z => ret (negb (Z.eqb z 0))
  | VStr s | VBytes s => ret (negb (String.eqb s ""))
  | VRef l =>
      o <- read_obj l ;;
      match o with
      | ODict items => ret (negb (Nat.eqb (length items) 0))
      | OList items => ret (negb (Nat.eqb (length items) 0))
      end
  end.

(** [x.get(k, default)]: only a dictionary has the method. *)
Definition py_get (x : value) (k : string) (default : value) : M value :=
  match x with
  | VRef l =>
      o <- read_obj l ;;
      match o with
      | ODict items =>
          match assoc_get k items with Some v => ret v | None => ret default end
      | OList _ => raise AttributeError
      end
  | _ => raise AttributeError
  end.

(** [x.items()], as the view stands at the moment of the call. *)
Definition py_items (x : value) : M (list (string * value)) :=
  match x with
  | VRef l =>
      o <- read_obj l ;;
      match o with
      | ODict items => ret items
      | OList _ => raise AttributeError
      end
  | _ => raise AttributeError
  end.

Fixpoint is_substring (s t : string) : bool :=
  String.prefix s t ||
  match t with
  | EmptyString => false
  | String _ t' => is_substring s t'
  end.

(** [item in x] *)
Definition py_contains (x item : value) : M bool :=
  match x with
  | VRef l =>
      o <- read_obj l ;;
      match o with
      | ODict items =>
          match item with
          | VStr k => ret (match assoc_get k items with Some _ => true | None => false end)
          | VRef _ => raise TypeError
          | _ => ret false
          end
      | OList items =>
          h <- get_heap ;; ret (existsb (fun e => py_eq h e item) items)
      end
  | VStr t =>
      match item with
      | VStr s => ret (is_substring s t)
      | _ => raise TypeError
      end
  | VBytes t =>
      match item with
      | VBytes s => ret (is_substring s t)
      | VInt z =>
          if (Z.leb 0 z && Z.ltb z 256)%bool
          then ret (existsb (fun c => Z.eqb (Z.of_nat (nat_of_ascii c)) z) (list_ascii_of_string t))
          else raise ValueError
      | VBool b =>
          ret (existsb (fun c => Z.eqb (Z.of_nat (nat_of_ascii c)) (num item)) (list_ascii_of_string t))
      | _ => raise TypeError
      end
  | _ => raise TypeError
  end.

(** [x[k]] with a string [k] *)
Definition py_getitem (x : value) (k : string) : M value :=
  match x with
  | VRef l =>
      o <- read_obj l ;;
      match o with
      | ODict items =>
          match assoc_get k items with Some v => ret v | None => raise KeyError end
      | OList _ => raise TypeError
      end
  | _ => raise TypeError
  end.

(** [x[k] = v] with a string [k] *)
Definition py_setitem (x : value) (k : string) (v : value) : M unit :=
  match x with
  | VRef l =>
      o <- read_obj l ;;
      match o with
      | ODict items => write_obj l (ODict (assoc_set k v items))
      | OList _ => raise TypeError
      end
  | _ => raise TypeError
  end.

(** [a < b] *)
Definition py_lt (a b : value) : M bool :=
  match a, b with
  | VBool _, VBool _ | VBool _, VInt _ | VInt _, VBool _ | VInt _, VInt _ =>
      ret (Z.ltb (num a) (num b))
  | VStr s, VStr t => ret (String.ltb s t)
  | VBytes s, VBytes t => ret (String.ltb s t)
  | VRef l1, VRef l2 =>
      la <- is_list a ;; lb <- is_list b ;;
      if (la && lb)%bool
      then h <- get_heap ;; lift (py_list_lt env h l1 l2)
      else raise TypeError
  | _, _ => raise TypeError
  end.

(** [max(a, b)] keeps [a] unless [b > a]; [min(a, b)] keeps [a] unless
    [b < a]. *)
Definition py_max (a b : value) : M value :=
  gt <- py_lt a b ;; ret (if gt then b else a).

Definition py_min (a b : value) : M value :=
  lt <- py_lt b a ;; ret (if lt then b else a).

(** [str(v)] *)
Definition py_str (v : value) : M string :=
  match v with
  | VNone => ret "None"
  | VBool true => ret "True"
  | VBool false => ret "False"
  | VInt z => ret (NilZero.string_of_int (Z.to_int z))
  | VStr s => ret s
  | VBytes s => ret ("b'" +:+ s +:+ "'")  (* printable bytes; none reaches [str] *)
  | VRef l => h <- get_heap ;; ret (py_repr env h l)
  end.

(** ** [json.dumps(item, sort_keys=True)] *)

Definition dquote : string := String (ascii_of_nat 34) EmptyString.
Definition backslash : string := String (ascii_of_nat 92) EmptyString.

Definition hex_digit (n : nat) : string :=
  String (nth n (list_ascii_of_string "0123456789abcdef") "0"%char) EmptyString.

(** The encoder escapes the quote, the backslash and every character
    outside [' '..'~']. *)
Definition escape_char (c : ascii) : string :=
  let n := nat_of_ascii c in
  if Nat.eqb n 34 then backslash +:+ dquote
  else if Nat.eqb n 92 then backslash +:+ backslash
  else if Nat.eqb n 8 then backslash +:+ "b"
  else if Nat.eqb n 12 then backslash +:+ "f"
  else if Nat.eqb n 10 then backslash +:+ "n"
  else if Nat.eqb n 13 then backslash +:+ "r"
  else if Nat.eqb n 9 then backslash +:+ "t"
  else if (Nat.leb 32 n && Nat.leb n 126)%bool then String c EmptyString
  else backslash +:+ "u00" +:+ hex_digit (Nat.div n 16) +:+ hex_digit (Nat.modulo n 16).

Fixpoint escape_string (s : string) : string :=
  match s with
  | EmptyString => EmptyString
  | String c s' => escape_char c +:+ escape_string s'
  end.

Definition encode_str (s : string) : string := dquote +:+ escape_string s +:+ dquote.

Fixpoint join (sep : string) (parts : list string) : string :=
  match parts with
  | [] => EmptyString
  | [p] => p
  | p :: rest => p +:+ sep +:+ join sep rest
  end.

Fixpoint insert_sorted (kv : string * value) (sorted : list (string * value))
  : list (string * value) :=
  match sorted with
  | [] => [kv]
  | kv' :: rest =>
      if String.ltb (fst kv) (fst kv') then kv :: kv' :: rest
      else kv' :: insert_sorted kv rest
  end.

Definition sort_items (items : list (string * value)) : list (string * value) :=
  fold_left (fun acc kv => insert_sorted kv acc) items [].

Fixpoint map_outcome {A B} (f : A -> outcome B) (l : list A) : outcome (list B) :=
  match l with
  | [] => Ok []
  | x :: rest =>
      match f x with
      | Raise e => Raise e
      | Ok y =>
          match map_outcome f rest with
          | Raise e => Raise e
          | Ok ys => Ok (y :: ys)
          end
      end
  end.

(** [markers] are the containers being encoded, for the encoder's check of
    circular references; with it the encoding of a store needs no more
    nesting than the store has objects. *)
Fixpoint dumps (fuel : nat) (h : list object) (markers : list loc) (v : value)
  : outcome string :=
  match v with
  | VNone => Ok "null"
  | VBool true => Ok "true"
  | VBool false => Ok "false"
  | VInt z => Ok (NilZero.string_of_int (Z.to_int z))
  | VStr s => Ok (encode_str s)
  | VBytes _ => Raise TypeError
  | VRef l =>
      if existsb (Nat.eqb l) markers then Raise ValueError
      else
        match fuel with
        | 0 => Raise RecursionError
        | S fuel' =>
            match h !! l with
            | None => Raise DanglingReference
            | Some (OList items) =>
                match map_outcome (dumps fuel' h (l :: markers)) items with
                | Raise e => Raise e
                | Ok parts => Ok ("[" +:+ join ", " parts +:+ "]")
                end
            | Some (ODict items) =>
                match
                  map_outcome
                    (fun kv : string * value =>
                       match dumps fuel' h (l :: markers) (snd kv) with
                       | Raise e => Raise e
                       | Ok s => Ok (encode_str (fst kv) +:+ ": " +:+ s)
                       end)
                    (sort_items items)
                with
                | Raise e => Raise e
                | Ok parts => Ok ("{" +:+ join ", " parts +:+ "}")
                end
            end
        end
  end.

Definition json_dumps (v : value) : M string :=
  h <- get_heap ;; lift (dumps (S (length h)) h [] v).

(** ** The three helpers of [dict_merge] *)

(** [REQUIREMENT_HIERARCHY.get(req, 0)]; a list or a dictionary cannot be
    hashed. *)
Definition REQUIREMENT_HIERARCHY (req : value) : M Z :=
  match req with
  | VNone => ret 4%Z
  | VStr s =>
      ret (if String.eqb s "Mandatory" then 4
           else if String.eqb s "Recommended" then 3
           else if String.eqb s "IfImplemented" then 2
           else if String.eqb s "Supported" then 1
           else 0)%Z
  | VRef _ => raise TypeError
  | _ => ret 0%Z
  end.

Definition get_more_restrictive_requirement
  (req1 req2 : value) (requirement_type : string) : M value :=
  if String.eqb requirement_type "ReadRequirement" then
    h1 <- REQUIREMENT_HIERARCHY req1 ;;
    if Z.eqb h1 4 then ret req1
    else
      h2 <- REQUIREMENT_HIERARCHY req2 ;;
      if Z.eqb h2 4 then ret req2
      else ret (match req1 with VNone => req2 | _ => req1 end)
  else
    h1 <- REQUIREMENT_HIERARCHY req1 ;;
    h2 <- REQUIREMENT_HIERARCHY req2 ;;
    ret (if Z.ltb h2 h1 then req2 else req1).

Definition version_lt (a b : version) : bool :=
  let '(a1, a2, a3) := a in
  let '(b1, b2, b3) := b in
  (Z.ltb a1 b1 || (Z.eqb a1 b1 && (Z.ltb a2 b2 || (Z.eqb a2 b2 && Z.ltb a3 b3))))%bool.

Definition version_eqb (a b : version) : bool :=
  let '(a1, a2, a3) := a in
  let '(b1, b2, b3) := b in
  (Z.eqb a1 b1 && Z.eqb a2 b2 && Z.eqb a3 b3)%bool.

(** [splitVersionString(str(v))] *)
Definition version_key (v : value) : M version :=
  s <- py_str v ;; h <- get_heap ;; lift (splitVersionString env h (VStr s)).

Definition compare_versions (ver1 ver2 : value) (use_max : bool) : M value :=
  match ver1, ver2 with
  | VNone, _ => ret ver2
  | _, VNone => ret ver1
  | _, _ =>
      k1 <- version_key ver1 ;;
      k2 <- version_key ver2 ;;
      if use_max
      then ret (if version_lt k1 k2 then ver2 else ver1)
      else ret (if version_lt k2 k1 then ver2 else ver1)
  end.

Definition list_items (x : value) : M (list value) :=
  match x with
  | VRef l =>
      o <- read_obj l ;;
      match o with
      | OList items => ret items
      | ODict _ => raise TypeError
      end
  | _ => raise TypeError
  end.

(** The key under which [merge_lists] remembers an item. *)
Definition item_key (item : value) : M value :=
  d <- is_dict item ;;
  if d then s <- json_dumps item ;; ret (VStr s) else ret item.

(** Looking a key up in the set [seen] hashes it first. *)
Definition hash_check (k : value) : M unit :=
  match k with
  | VRef _ => raise TypeError
  | _ => ret tt
  end.

Fixpoint merge_loop (items seen merged : list value) : M (list value) :=
  match items with
  | [] => ret merged
  | item :: rest =>
      k <- item_key item ;;
      _ <- hash_check k ;;
      if existsb (scalar_eq k) seen
      then merge_loop rest seen merged
      else merge_loop rest (seen ++ [k]) (merged ++ [item])
  end.

Definition merge_lists (list1 list2 : value) : M value :=
  l1 <- list_items list1 ;;
  l2 <- list_items list2 ;;
  merged <- merge_loop (l1 ++ l2) [] [] ;;
  alloc (OList merged).

(** ** Iterating over the live items of a dictionary

    The iterator remembers the size the dictionary had when the loop
    started and a position; each step first compares the sizes, then reads
    the item at the position from the dictionary as it is now. *)
Fixpoint for_items {A} (rem : nat) (d : value) (n0 i : nat)
  (body : string -> value -> A -> M A) (acc : A) : M A :=
  items <- py_items d ;;
  if negb (Nat.eqb (length items) n0) then raise RuntimeError
  else
    match rem with
    | 0 => ret acc
    | S rem' =>
        match items !! i with
        | Some (k, v) => acc' <- body k v acc ;; for_items rem' d n0 (S i) body acc'
        | None => ret acc
        end
    end.

(** [for k, v in d.items(): acc = body(k, v, acc)] *)
Definition for_each_item {A} (d : value) (body : string -> value -> A -> M A)
  (acc : A) : M A :=
  items <- py_items d ;;
  for_items (length items) d (length items) 0 body acc.

(** ** [dict_merge] *)

(** The body of the loop over [merge_dct.items()]; [self] is the recursive
    call. *)
Definition dict_merge_entry (self : value -> value -> M unit)
  (dct : value) (k : string) (v : value) : M unit :=
  if (String.eqb k "ReadRequirement" || String.eqb k "WriteRequirement")%bool then
    old <- py_get dct k VNone ;;
    r <- get_more_restrictive_requirement old v k ;;
    py_setitem dct k r
  else
    present <- py_contains dct (VStr k) ;;
    if negb present then py_setitem dct k v
    else
      old <- py_getitem dct k ;;
      if String.eqb k "MinVersion" then
        r <- compare_versions old v true ;; py_setitem dct k r
      else if String.eqb k "MaxVersion" then
        r <- compare_versions old v false ;; py_setitem dct k r
      else if String.eqb k "MinCount" then
        r <- py_max old v ;; py_setitem dct k r
      else if String.eqb k "MaxCount" then
        r <- py_min old v ;; py_setitem dct k r
      else
        old_dict <- is_dict old ;;
        v_dict <- is_dict v ;;
        if (old_dict && v_dict)%bool then self old v
        else
          old_list <- is_list old ;;
          v_list <- is_list v ;;
          if (old_list && v_list)%bool then
            r <- merge_lists old v ;; py_setitem dct k r
          else
            t_old <- type_name old ;;
            t_v <- type_name v ;;
            if negb (String.eqb t_old t_v)
            then logger WARNING (TypeConflict k t_old t_v)
            else ret tt.

Fixpoint dict_merge (fuel : nat) (dct merge_dct : value) : M unit :=
  match fuel with
  | 0 => raise RecursionError
  | S fuel' =>
      for_each_item merge_dct
        (fun k v _ => dict_merge_entry (dict_merge fuel') dct k v) tt
  end.

Definition updateWithProfile (fuel : nat) (profile data : value) : M value :=
  _ <- dict_merge fuel data profile ;; ret data.

(** ** [json.load]: building the objects of a parsed text *)

Fixpoint json_build (j : json) : M value :=
  match j with
  | JNull => ret VNone
  | JBool b => ret (VBool b)
  | JInt z => ret (VInt z)
  | JStr s => ret (VStr s)
  | JArr elems =>
      vs <- (fix build_all (l : list json) : M (list value) :=
               match l with
               | [] => ret []
               | x :: rest =>
                   v <- json_build x ;; vs <- build_all rest ;; ret (v :: vs)
               end) elems ;;
      alloc (OList vs)
  | JObj members =>
      items <- (fix build_members (l : list (string * json))
                  (acc : list (string * value)) : M (list (string * value)) :=
                  match l with
                  | [] => ret acc
                  | (k, x) :: rest =>
                      v <- json_build x ;; build_members rest (assoc_set k v acc)
                  end) members [] ;;
      alloc (ODict items)
  end.

(** ** [getProfileFromRepo] *)

Definition defaultrepository : string := "http://redfish.dmtf.org/profiles".

(** [urlopen(url).read()] *)
Definition urlopen_read (url : value) : M string :=
  match url with
  | VStr u =>
      tr <- get_trace ;; _ <- emit (EvUrlopen u) ;; lift (http_get env tr u)
  | _ => raise LibraryError
  end.

(** [s[:-1]] *)
Fixpoint drop_last (s : string) : string :=
  match s with
  | EmptyString => EmptyString
  | String c EmptyString => EmptyString
  | String c s' => String c (drop_last s')
  end.

(** The loop that keeps the greatest file name, by [max] on strings. *)
Definition max_filename (filelist : list string) : option string :=
  fold_left
    (fun profilename filename =>
       let filename := drop_last filename in
       match profilename with
       | None => Some filename
       | Some p => Some (if String.ltb p filename then filename else p)
       end)
    filelist None.

Definition getProfileFromRepo (profilename : string) (repo : value) : M value :=
  try_except
    (let repo := match repo with VNone => VStr defaultrepository | _ => repo end in
     page <- urlopen_read repo ;;
     text <- lift (decode_utf8 env page) ;;
     filelist <- lift (findall_versioned env profilename text) ;;
     match max_filename filelist with
     | None => ret VNone
     | Some name =>
         match repo with
         | VStr r =>
             body <- urlopen_read (VStr (r +:+ "/" +:+ name)) ;; ret (VBytes body)
         | _ => raise TypeError
         end
     end)
    (fun e => _ <- emit (EvPrint e) ;; ret VNone).

(** ** [getProfilesMatchingName] *)

(** [os.path.basename] *)
Fixpoint basename_from (path current : string) : string :=
  match path with
  | EmptyString => current
  | String c rest =>
      if Ascii.eqb c "/"%char then basename_from rest rest
      else basename_from rest current
  end.

Definition basename (path : string) : string := basename_from path path.

Fixpoint glob_matching (matcher : string -> bool) (directories : list string)
  : M (list string) :=
  match directories with
  | [] => ret []
  | dirname :: rest =>
      tr <- get_trace ;;
      _ <- emit (EvGlob dirname) ;;
      found <- glob_matching matcher rest ;;
      ret (List.filter (fun file => matcher (basename file)) (glob_json env tr dirname) ++ found)
  end.

(** The generator, run to its end as [list(...)] does. *)
Definition getProfilesMatchingName (name : string) (directories : list string)
  : M (list string) :=
  matcher <- lift (filepattern env name) ;;
  glob_matching matcher directories.

(** ** [parseProfileInclude] *)

Definition is_none (v : value) : bool :=
  match v with VNone => true | _ => false end.

(** The loop over the candidate files: [json.load] of each, the greatest
    [ProfileVersion] seen and the document that carries it. *)
Fixpoint load_candidates (target_list : list string) (max_version : version)
  (data : value) : M (version * value) :=
  match target_list with
  | [] => ret (max_version, data)
  | path :: rest =>
      tr <- get_trace ;;
      _ <- emit (EvOpen path) ;;
      j <- lift (load_json env tr path) ;;
      my_profile <- json_build j ;;
      pv <- py_get my_profile "ProfileVersion" (VStr "1.0.0") ;;
      h <- get_heap ;;
      my_version <- lift (splitVersionString env h pv) ;;
      let max_version :=
        if version_lt max_version my_version then my_version else max_version in
      let data :=
        if (version_eqb my_version max_version || is_none data)%bool
        then my_profile else data in
      load_candidates rest max_version data
  end.

Definition parseProfileInclude (target_name : string) (target_profile_info : value)
  (directories : list string) (online : bool) : M value :=
  mv <- py_get target_profile_info "MinVersion" (VStr "1.0.0") ;;
  h <- get_heap ;;
  min_version <- lift (splitVersionString env h mv) ;;
  let target_file := target_name +:+ ".json" in
  cache <- get_cache ;;
  match cache !! target_file with
  | Some cached => ret cached
  | None =>
      repo <- py_get target_profile_info "Repository" VNone ;;
      data <- (if online then getProfileFromRepo target_file repo else ret VNone) ;;
      data <- (if is_none data then
                 target_list <- getProfilesMatchingName target_file directories ;;
                 match target_list with
                 | [] =>
                     _ <- logger ERROR (CouldNotAcquire target_name repo) ;;
                     ret VNone
                 | _ :: _ =>
                     r <- load_candidates target_list (1, 0, 0)%Z VNone ;;
                     _ <- (if version_lt (fst r) min_version
                           then logger WARNING VersionBelowMin else ret tt) ;;
                     ret (snd r)
                 end
               else ret data) ;;
      _ <- cache_store target_file data ;;
      ret data
  end.

(** ** [getProfiles] *)

(** [x.get(k, {})]: the empty dictionary is built when the key is missing. *)
Definition py_get_or_empty (x : value) (k : string) : M value :=
  match x with
  | VRef l =>
      o <- read_obj l ;;
      match o with
      | ODict items =>
          match assoc_get k items with
          | Some v => ret v
          | None => alloc (ODict [])
          end
      | OList _ => raise AttributeError
      end
  | _ => raise AttributeError
  end.

(** [x.append(v)] *)
Definition py_append (x v : value) : M unit :=
  match x with
  | VRef l =>
      o <- read_obj l ;;
      match o with
      | OList items => write_obj l (OList (items ++ [v]))
      | ODict _ => raise AttributeError
      end
  | _ => raise AttributeError
  end.

Definition char_strings (s : string) : list value :=
  map (fun c => VStr (String c EmptyString)) (list_ascii_of_string s).

(** The values a [for] loop draws from [x]. *)
Definition py_iter (x : value) : M (list value) :=
  match x with
  | VRef l =>
      o <- read_obj l ;;
      match o with
      | OList items => ret items
      | ODict items => ret (map (fun kv => VStr (fst kv)) items)
      end
  | VStr s => ret (char_strings s)
  | VBytes s => ret (map (fun c => VInt (Z.of_nat (nat_of_ascii c))) (list_ascii_of_string s))
  | _ => raise TypeError
  end.

Fixpoint for_each {A B} (l : list B) (body : B -> A -> M A) (acc : A) : M A :=
  match l with
  | [] => ret acc
  | x :: rest => acc' <- body x acc ;; for_each rest body acc'
  end.

Definition includes : Type := list value * list value.

(** Merging the [Resources] of an included profile, one resource type at a
    time. *)
Definition merge_resource (merge : value -> value -> M unit) (profile : value)
  (resource_type : string) (resource_data : value) : M unit :=
  resources <- py_getitem profile "Resources" ;;
  present <- py_contains resources (VStr resource_type) ;;
  _ <- (if negb present then
          fresh <- alloc (ODict []) ;;
          resources <- py_getitem profile "Resources" ;;
          py_setitem resources resource_type fresh
        else ret tt) ;;
  resources <- py_getitem profile "Resources" ;;
  target <- py_getitem resources resource_type ;;
  merge target resource_data.

(** The body of the loop over [RequiredProfiles]; [self] is [getProfiles]. *)
Definition required_profile_step
  (self : value -> list string -> value -> bool -> M includes)
  (merge : value -> value -> M unit)
  (profile : value) (directories : list string) (chain : value) (online : bool)
  (target_name : string) (target_profile_info : value) (acc : includes)
  : M includes :=
  profile_data <- parseProfileInclude target_name target_profile_info directories online ;;
  found <- truthy profile_data ;;
  if found then
    present <- py_contains profile (VStr "Resources") ;;
    _ <- (if negb present then
            fresh <- alloc (ODict []) ;; py_setitem profile "Resources" fresh
          else ret tt) ;;
    included_resources <- py_get_or_empty profile_data "Resources" ;;
    _ <- for_each_item included_resources
           (fun resource_type resource_data _ =>
              merge_resource merge profile resource_type resource_data) tt ;;
    inner <- self profile_data directories chain false ;;
    ret (fst acc ++ [profile_data] ++ fst inner, snd acc ++ snd inner)
  else ret acc.

(** The body of the loop over one [RequiredResourceProfile]. *)
Definition resource_profile_step (merge : value -> value -> M unit)
  (directories : list string) (online : bool)
  (resource_name : string) (inner_object : value)
  (target_name : string) (target_profile_info : value) (acc : list value)
  : M (list value) :=
  profile_data <- parseProfileInclude target_name target_profile_info directories online ;;
  found <- truthy profile_data ;;
  if found then
    target_resources <- py_get profile_data "Resources" VNone ;;
    present <- py_contains target_resources (VStr resource_name) ;;
    if present then
      block <- py_getitem target_resources resource_name ;;
      _ <- merge inner_object block ;;
      ret (acc ++ [profile_data])
    else
      _ <- logger ERROR (MissingResource target_name resource_name) ;;
      ret acc
  else ret acc.

(** The body of the loop over [Resources]. *)
Definition resource_step (merge : value -> value -> M unit)
  (directories : list string) (online : bool)
  (resource_name : string) (resource : value) (acc : list value)
  : M (list value) :=
  has_cases <- py_contains resource (VStr "UseCases") ;;
  modifying_objects <-
    (if negb has_cases then ret [resource]
     else cases <- py_getitem resource "UseCases" ;; py_iter cases) ;;
  for_each modifying_objects
    (fun inner_object acc =>
       required_profiles <- py_get_or_empty inner_object "RequiredResourceProfile" ;;
       for_each_item required_profiles
         (resource_profile_step merge directories online resource_name inner_object)
         acc)
    acc.

Fixpoint getProfiles (fuel : nat) (profile : value) (directories : list string)
  (chain : value) (online : bool) : M includes :=
  match fuel with
  | 0 => raise RecursionError
  | S fuel' =>
      profile_name <- py_get profile "ProfileName" VNone ;;
      chain <- (if is_none chain then alloc (OList []) else ret chain) ;;
      cyclic <- py_contains chain profile_name ;;
      if cyclic then
        _ <- logger ERROR (CyclicalImport chain profile_name) ;;
        ret ([], [])
      else
        _ <- py_append chain profile_name ;;
        required_profiles <- py_get_or_empty profile "RequiredProfiles" ;;
        acc <- for_each_item required_profiles
                 (required_profile_step (getProfiles fuel') (dict_merge fuel')
                    profile directories chain online)
                 ([], []) ;;
        profile_resources <- py_get_or_empty profile "Resources" ;;
        required_by_resource <-
          for_each_item profile_resources
            (resource_step (dict_merge fuel') directories online)
            (snd acc) ;;
        ret (fst acc, required_by_resource)
  end.

End Program.

(** ** Running a merge or a resolution on documents given as JSON texts *)

Definition empty_state : state := mkState [] ∅ [] [].

(** [dict_merge(dst, src)] on two freshly loaded documents; the result is
    the destination as it stands afterwards. *)
Definition merge_documents (env : environment) (fuel : nat) (dst src : json)
  : M value :=
  d <- json_build dst ;;
  s <- json_build src ;;
  _ <- dict_merge env fuel d s ;;
  ret d.

(** The value found under [k] in the destination after the merge. *)
Definition merged_field (env : environment) (dst src : json) (k : string)
  : outcome value :=
  fst ((d <- merge_documents env 8 dst src ;; py_getitem d k) empty_state).

(** The list found under [k] in the destination after the merge. *)
Definition merged_list (env : environment) (dst src : json) (k : string)
  : outcome (list value) :=
  fst ((d <- merge_documents env 8 dst src ;;
        l <- py_getitem d k ;;
        list_items l) empty_state).

(** [getProfiles(profile, directories)] on a freshly loaded document: what
    the call returns, and the state it leaves. *)
Definition resolve_document (env : environment) (fuel : nat) (profile : json)
  (directories : list string) (online : bool) : outcome includes * state :=
  (p <- json_build profile ;; getProfiles env fuel p directories VNone online)
    empty_state.


(** ** Vocabulary of the statements *)

Definition hashable (v : value) : Prop :=
  match v with VRef _ => False | _ => True end.

(** The table [REQUIREMENT_HIERARCHY] read with [.get(req, 0)], on the values
    that can be hashed. *)
Definition hierarchy_score (req : value) : Z :=
  match req with
  | VNone => 4
  | VStr s =>
      if String.eqb s "Mandatory" then 4
      else if String.eqb s "Recommended" then 3
      else if String.eqb s "IfImplemented" then 2
      else if String.eqb s "Supported" then 1
      else 0
  | _ => 0
  end.

Definition special_key (k : string) : bool :=
  (String.eqb k "ReadRequirement" || String.eqb k "WriteRequirement"
   || String.eqb k "MinVersion" || String.eqb k "MaxVersion"
   || String.eqb k "MinCount" || String.eqb k "MaxCount")%bool.

(** The URL of the index that [getProfileFromRepo] opens for a given
    [Repository] value, when it is one that [urlopen] can open. *)
Definition repository_url (repo : value) : option string :=
  match repo with
  | VNone => Some defaultrepository
  | VStr r => Some r
  | _ => None
  end.

(** [v] is a list object of the store [h]. *)
Definition is_list_in (h : list object) (v : value) : bool :=
  match v with
  | VRef l => match h !! l with Some (OList _) => true | _ => false end
  | _ => false
  end.

(** The union in first-seen order of items that are their own keys, as
    the claim words it: an item is dropped when an equal one came before. *)
Fixpoint union_first_seen (seen items : list value) : list value :=
  match items with
  | [] => []
  | x :: rest =>
      if existsb (scalar_eq x) seen then union_first_seen seen rest
      else x :: union_first_seen (seen ++ [x]) rest
  end.

Definition is_urlopen (ev : event) : bool :=
  match ev with EvUrlopen _ => true | _ => false end.

(** The requests sent to the network so far. *)
Definition urlopens (tr : list event) : list event := List.filter is_urlopen tr.

Definition is_error (entry : log_entry) : bool :=
  match fst entry with ERROR => true | WARNING => false end.

(** The records of level [ERROR] logged so far. *)
Definition errors (l : list log_entry) : list log_entry := List.filter is_error l.

(** The search among the local files, entered when there is no remote
    result. *)
Definition local_search (env : environment) (target_name target_file : string)
  (min_version : version) (repo : value) (directories : list string) : M value :=
  target_list <- getProfilesMatchingName env target_file directories ;;
  match target_list with
  | [] =>
      _ <- logger ERROR (CouldNotAcquire target_name repo) ;;
      ret VNone
  | _ :: _ =>
      r <- load_candidates env target_list (1, 0, 0)%Z VNone ;;
      _ <- (if version_lt (fst r) min_version
            then logger WARNING VersionBelowMin else ret tt) ;;
      ret (snd r)
  end.

(** What [parseProfileInclude] does once the cache has no entry: everything
    between the test of the cache and the write to it. *)
Definition locate_uncached (env : environment) (target_name : string)
  (target_profile_info : value) (min_version : version)
  (directories : list string) (online : bool) : M value :=
  repo <- py_get target_profile_info "Repository" VNone ;;
  data <- (if online then getProfileFromRepo env (target_name +:+ ".json") repo
           else ret VNone) ;;
  if is_none data
  then local_search env target_name (target_name +:+ ".json") min_version repo directories
  else ret data.


(** ** Frames

    A relation between the state before and the state after that every
    step of a computation keeps, whether the computation returns or
    raises. *)

Record frame : Type := mkFrame {
  rel :> state -> state -> Prop;
  rel_refl : forall st, rel st st;
  rel_trans : forall a b c, rel a b -> rel b c -> rel a c
}.

Definition respects {A} (R : frame) (m : M A) : Prop :=
  forall st, R st (snd (m st)).

(** The relation "nothing changed". *)
Definition unchanged : frame :=
  mkFrame (fun a b => b = a) (fun st => eq_refl)
          (fun a b c Hab Hbc => eq_trans Hbc Hab).

(** The cache is the same. *)
Definition same_cache : frame :=
  mkFrame (fun a b => profile_cache b = profile_cache a)
          (fun st => eq_refl) (fun a b c Hab Hbc => eq_trans Hbc Hab).

(** Every entry of the cache is still there, with the same value. *)
Definition cache_grows : frame :=
  mkFrame (fun a b => forall k v, profile_cache a !! k = Some v -> profile_cache b !! k = Some v)
          (fun st k v H => H) (fun a b c Hab Hbc k v H => Hbc k v (Hab k v H)).

(** No request was sent to the network. *)
Definition same_requests : frame :=
  mkFrame (fun a b => urlopens (trace b) = urlopens (trace a))
          (fun st => eq_refl) (fun a b c Hab Hbc => eq_trans Hbc Hab).

(** No record of level [ERROR] was logged. *)
Definition same_errors : frame :=
  mkFrame (fun a b => errors (log b) = errors (log a))
          (fun st => eq_refl) (fun a b c Hab Hbc => eq_trans Hbc Hab).

(** The store has all the objects it had, unchanged, and maybe new ones. *)
Definition store_grows : frame :=
  mkFrame (fun a b => exists new, heap b = heap a ++ new)
          (fun st => ex_intro _ [] (eq_sym (app_nil_r (heap st))))
          (fun a b c Hab Hbc =>
             match Hab, Hbc with
             | ex_intro _ n1 H1, ex_intro _ n2 H2 =>
                 ex_intro _ (n1 ++ n2)
                   (eq_trans H2
                      (eq_trans (f_equal (fun h => h ++ n2) H1)
                                (eq_sym (List.app_assoc (heap a) n1 n2))))
             end).


(** ** A small world to run the program in

    One directory with three profiles, [B], [N] and [S], and a repository
    that serves an index and one file. *)

Definition sample_version (s : string) : version :=
  if String.eqb s "1.0.0" then (1, 0, 0)%Z
  else if String.eqb s "1.2.0" then (1, 2, 0)%Z
  else (0, 0, 0)%Z.

Definition profile_B : json :=
  JObj [("ProfileName", JStr "B");
        ("Resources",
         JObj [("Chassis", JObj [("ReadRequirement", JStr "Recommended")])])].

Definition profile_A : json :=
  JObj [("ProfileName", JStr "A");
        ("RequiredProfiles", JObj [("B", JObj [("MinVersion", JStr "1.0.0")])]);
        ("Resources",
         JObj [("Chassis", JObj [("ReadRequirement", JStr "Mandatory")]);
               ("Fan", JObj [("RequiredResourceProfile", JObj [("B", JObj [])])])])].

(** A profile made of requirements on other profiles only. *)
Definition profile_N : json :=
  JObj [("ProfileName", JStr "N");
        ("RequiredProfiles", JObj [("B", JObj [])])].

(** A profile that asks for the [Fan] of [N]. *)
Definition profile_F : json :=
  JObj [("ProfileName", JStr "F");
        ("Resources",
         JObj [("Fan", JObj [("RequiredResourceProfile", JObj [("N", JObj [])])])])].

(** A profile that requires [N], which requires [B]. *)
Definition profile_T : json :=
  JObj [("ProfileName", JStr "T");
        ("RequiredProfiles", JObj [("N", JObj [])])].

(** A profile that requires itself. *)
Definition profile_S : json :=
  JObj [("ProfileName", JStr "S");
        ("RequiredProfiles", JObj [("S", JObj [])])].

Definition sample_env : environment :=
  mkEnv
    (fun _ v => match v with VStr s => Ok (sample_version s) | _ => Raise TypeError end)
    (fun _ _ => "<object>")
    (fun _ _ _ => false)
    (fun _ _ _ => Raise TypeError)
    (fun name _ => Ok (if String.eqb name "B.json" then ["B.v1_0_0.json"] else []))
    (fun name => Ok (String.eqb name))
    (fun _ url =>
       if String.eqb url "http://redfish.dmtf.org/profiles" then Ok "index"
       else if String.eqb url "http://redfish.dmtf.org/profiles/B.v1_0_0.jso"
            then Ok "{}"
            else Raise LibraryError)
    (fun s => Ok s)
    (fun _ dirname => if String.eqb dirname "profiles"
                      then ["profiles/B.json"; "profiles/N.json"; "profiles/S.json"]
                      else [])
    (fun _ path =>
       if String.eqb path "profiles/B.json" then Ok profile_B
       else if String.eqb path "profiles/N.json" then Ok profile_N
       else if String.eqb path "profiles/S.json" then Ok profile_S
       else Raise OSError).

(** A store with one empty profile reference. *)
Definition reference_state : state := mkState [ODict []] ∅ [] [].

(** States for the instances of the theorems. *)
Definition read_state : state :=
  mkState [ODict [("MinCount", VInt 1)];
           ODict [("ReadRequirement", VStr "Recommended")]] ∅ [] [].

Definition supported_state : state :=
  mkState [ODict [("ReadRequirement", VStr "Supported")]] ∅ [] [].

Definition write_state : state :=
  mkState [ODict [("WriteRequirement", VStr "Mandatory")]] ∅ [] [].

Definition conflict_state : state :=
  mkState [ODict [("Version", VInt 1)]] ∅ [] [].

Definition chain_state : state :=
  mkState [ODict [("ProfileName", VStr "A")]; OList [VStr "A"]] ∅ [] [].

Definition cached_state : state :=
  mkState [ODict []] (<["B.json":=VNone]> ∅) [] [].

Definition nested_state : state :=
  mkState [ODict [("Values", VRef 2)];
           OList [VInt 1]; OList [VRef 1];
           OList [VInt 2]; OList [VRef 3]] ∅ [] [].

(** ** More vocabulary: what a merge or a resolution may do to an object *)

(** Every key of [items] is a key of [items']. *)
Definition keys_kept (items items' : list (string * value)) : Prop :=
  forall k, is_Some (assoc_get k items) -> is_Some (assoc_get k items').

(** The trace of requests is the same. *)
Definition same_trace : frame :=
  mkFrame (fun a b => trace b = trace a)
          (fun st => eq_refl) (fun a b c Hab Hbc => eq_trans Hbc Hab).

(** Every list object is as it was. *)
Definition lists_same : frame :=
  mkFrame (fun a b => forall l items,
             heap a !! l = Some (OList items) -> heap b !! l = Some (OList items))
          (fun st l items H => H)
          (fun a b c Hab Hbc l items H => Hbc l items (Hab l items H)).

(** Every list object has the items it had, in front of the new ones. *)
Definition lists_grow : frame :=
  mkFrame (fun a b => forall l items,
             heap a !! l = Some (OList items) ->
             exists more, heap b !! l = Some (OList (items ++ more)))
          (fun st l items H =>
             ex_intro _ [] (eq_trans H (f_equal (fun x => Some (OList x))
                                         (eq_sym (app_nil_r items)))))
          (fun a b c Hab Hbc l items H =>
             match Hab l items H with
             | ex_intro _ m1 H1 =>
                 match Hbc l (items ++ m1) H1 with
                 | ex_intro _ m2 H2 =>
                     ex_intro _ (m1 ++ m2)
                       (eq_trans H2 (f_equal (fun x => Some (OList x))
                                       (eq_sym (List.app_assoc items m1 m2))))
                 end
             end).

(** Every dictionary object is still a dictionary, with all the keys it
    had. *)
Definition dicts_grow : frame :=
  mkFrame (fun a b => forall l items,
             heap a !! l = Some (ODict items) ->
             exists items', heap b !! l = Some (ODict items') /\ keys_kept items items')
          (fun st l items H => ex_intro _ items (conj H (fun k Hk => Hk)))
          (fun a b c Hab Hbc l items H =>
             match Hab l items H with
             | ex_intro _ i1 (conj H1 K1) =>
                 match Hbc l i1 H1 with
                 | ex_intro _ i2 (conj H2 K2) =>
                     ex_intro _ i2 (conj H2 (fun k Hk => K2 k (K1 k Hk)))
                 end
             end).

(** The keys [ReadRequirement] and [WriteRequirement], merged even when the
    destination lacks them. *)
Definition requirement_key (k : string) : bool :=
  (String.eqb k "ReadRequirement" || String.eqb k "WriteRequirement")%bool.

(** No two items of the list are equal. *)
Fixpoint pairwise_distinct (items : list value) : bool :=
  match items with
  | [] => true
  | x :: rest => negb (existsb (scalar_eq x) rest) && pairwise_distinct rest
  end.

(** Only the trace changed, and only by new requests at its end. *)
Definition only_requests : frame :=
  mkFrame (fun a b => heap b = heap a /\ profile_cache b = profile_cache a
                      /\ log b = log a /\ exists evs, trace b = trace a ++ evs)
          ltac:(intros st; repeat split; exists []; symmetry; apply app_nil_r)
          ltac:(intros a b c (H1 & H2 & H3 & e1 & H4) (G1 & G2 & G3 & e2 & G4);
                repeat split; try congruence;
                exists (e1 ++ e2); rewrite G4, H4; symmetry; apply List.app_assoc).

Definition is_warning (entry : log_entry) : bool :=
  match fst entry with WARNING => true | ERROR => false end.

(** No record of level [WARNING] was logged. *)
Definition same_warnings : frame :=
  mkFrame (fun a b => List.filter is_warning (log b) = List.filter is_warning (log a))
          (fun st => eq_refl) (fun a b c Hab Hbc => eq_trans Hbc Hab).

(** The state with some more requests at the end of the trace. *)
Definition with_events (evs : list event) (st : state) : state :=
  mkState (heap st) (profile_cache st) (log st) (trace st ++ evs).

(** One step of the loop of [max_filename]. *)
Definition keep_greater (profilename : option string) (filename : string)
  : option string :=
  let filename := drop_last filename in
  match profilename with
  | None => Some filename
  | Some p => Some (if String.ltb p filename then filename else p)
  end.

(** The files that [getProfilesMatchingName] yields when the trace is [tr]
    at the start: directory after directory, the listed files whose
    basename matches. *)
Fixpoint matching_files (env : environment) (matcher : string -> bool)
  (tr : list event) (directories : list string) : list string :=
  match directories with
  | [] => []
  | dirname :: rest =>
      List.filter (fun file => matcher (basename file)) (glob_json env tr dirname)
      ++ matching_files env matcher (tr ++ [EvGlob dirname]) rest
  end.

(** ** [hashProfile]

    [md5(json.dumps(profile, sort_keys=True).encode()).hexdigest()]; the
    digest is the library's, a function of the bytes; the text that
    [json.dumps] gives is ASCII, so its encoding has the same characters. *)
Definition hashProfile (md5_hexdigest : string -> string) (profile : value)
  : M string :=
  s <- json_dumps profile ;; ret (md5_hexdigest s).

(** What [getProfiles] does once the name of the profile is in the
    chain: the two loops and the result. *)
Definition resolve_requirements (env : environment) (fuel : nat) (profile : value)
  (directories : list string) (chain : value) (online : bool) : M includes :=
  required_profiles <- py_get_or_empty profile "RequiredProfiles" ;;
  acc <- for_each_item required_profiles
           (required_profile_step env (getProfiles env fuel) (dict_merge env fuel)
              profile directories chain online)
           ([], []) ;;
  profile_resources <- py_get_or_empty profile "Resources" ;;
  required_by_resource <-
    for_each_item profile_resources
      (resource_step env (dict_merge env fuel) directories online)
      (snd acc) ;;
  ret (fst acc, required_by_resource).

(** States for the instances of the further properties. *)

(** A profile whose name is not yet in the chain. *)
Definition fresh_chain_state : state :=
  mkState [ODict [("ProfileName", VStr "A")]; OList []] ∅ [] [].

(** A destination with a list and a source with another list under the
    same key. *)
Definition lists_state : state :=
  mkState [ODict [("Values", VRef 1)]; OList [VInt 1];
           ODict [("Values", VRef 3); ("Extra", VInt 0)]; OList [VInt 2]] ∅ [] [].

(** A destination and a source with keys that the destination lacks. *)
Definition new_keys_state : state :=
  mkState [ODict [("MinCount", VInt 1)];
           ODict [("Purpose", VStr "p"); ("Extra", VInt 0)]] ∅ [] [].

(** Two dictionaries with the same items in two orders. *)
Definition reordered_state : state :=
  mkState [ODict [("a", VInt 1); ("b", VInt 2)];
           ODict [("b", VInt 2); ("a", VInt 1)]] ∅ [] [].

(** A profile whose [Fan] has an import of its own, the one directory
    that holds it, and a resource that imports this [Fan]. *)
Definition profile_B_scoped : json :=
  JObj [("ProfileName", JStr "B");
        ("Resources",
         JObj [("Fan", JObj [("RequiredResourceProfile", JObj [("C", JObj [])])])])].

Definition scoped_env : environment :=
  mkEnv (splitVersionString sample_env) (py_repr sample_env)
        (py_container_eq sample_env) (py_list_lt sample_env)
        (findall_versioned sample_env) (filepattern sample_env)
        (http_get sample_env) (decode_utf8 sample_env)
        (fun _ dirname => if String.eqb dirname "profiles"
                          then ["profiles/B.json"] else [])
        (fun _ path => if String.eqb path "profiles/B.json"
                       then Ok profile_B_scoped else Raise OSError).

Definition scoped_state : state :=
  mkState [ODict [];
           ODict [("B", VRef 0)];
           ODict [("RequiredResourceProfile", VRef 1)]] ∅ [] [].

Definition count_state : state :=
  mkState [ODict [("MinCount", VInt 2); ("MaxCount", VInt 9)]] ∅ [] [].

Definition null_count_state : state :=
  mkState [ODict [("MinCount", VNone)]] ∅ [] [].

Definition version_state : state :=
  mkState [ODict [("MinVersion", VStr "1.0.0"); ("MaxVersion", VStr "1.2.0")]] ∅ [] [].

Definition null_version_state : state :=
  mkState [ODict [("MinVersion", VNone)]] ∅ [] [].

(** * Properties *)

Section Facts.

Variable env : environment.

(** ** Running the primitives *)

Lemma bind_ok {A B} (m : M A) (f : A -> M B) st a st1 :
  m st = (Ok a, st1) -> bind m f st = f a st1.
Proof. intros H. unfold bind. now rewrite H. Qed.

Lemma bind_raise {A B} (m : M A) (f : A -> M B) st e st1 :
  m st = (Raise e, st1) -> bind m f st = (Raise e, st1).
Proof. intros H. unfold bind. now rewrite H. Qed.

Lemma read_obj_ok st l o :
  heap st !! l = Some o -> read_obj l st = (Ok o, st).
Proof. intros H. unfold read_obj, bind, get_heap. now rewrite H. Qed.

Lemma py_get_dict st l items k d :
  heap st !! l = Some (ODict items) ->
  py_get (VRef l) k d st = (Ok (default d (assoc_get k items)), st).
Proof.
  intros H. unfold py_get. rewrite (bind_ok _ _ _ _ _ (read_obj_ok _ _ _ H)).
  now destruct (assoc_get k items).
Qed.

Lemma py_items_dict st l items :
  heap st !! l = Some (ODict items) -> py_items (VRef l) st = (Ok items, st).
Proof.
  intros H. unfold py_items. now rewrite (bind_ok _ _ _ _ _ (read_obj_ok _ _ _ H)).
Qed.

Lemma py_contains_dict st l items k :
  heap st !! l = Some (ODict items) ->
  py_contains env (VRef l) (VStr k) st = (Ok (bool_decide (is_Some (assoc_get k items))), st).
Proof.
  intros H. unfold py_contains. rewrite (bind_ok _ _ _ _ _ (read_obj_ok _ _ _ H)).
  now destruct (assoc_get k items).
Qed.

Lemma py_contains_list st l items item :
  heap st !! l = Some (OList items) ->
  py_contains env (VRef l) item st
  = (Ok (existsb (fun e => py_eq env (heap st) e item) items), st).
Proof.
  intros H. unfold py_contains. now rewrite (bind_ok _ _ _ _ _ (read_obj_ok _ _ _ H)).
Qed.

Lemma py_getitem_dict st l items k v :
  heap st !! l = Some (ODict items) -> assoc_get k items = Some v ->
  py_getitem (VRef l) k st = (Ok v, st).
Proof.
  intros H Hk. unfold py_getitem. rewrite (bind_ok _ _ _ _ _ (read_obj_ok _ _ _ H)).
  now rewrite Hk.
Qed.

Lemma py_setitem_dict st l items k v :
  heap st !! l = Some (ODict items) ->
  py_setitem (VRef l) k v st
  = (Ok tt, with_heap (<[l:=ODict (assoc_set k v items)]> (heap st)) st).
Proof.
  intros H. unfold py_setitem. now rewrite (bind_ok _ _ _ _ _ (read_obj_ok _ _ _ H)).
Qed.

Lemma REQUIREMENT_HIERARCHY_hashable st req :
  hashable req -> REQUIREMENT_HIERARCHY req st = (Ok (hierarchy_score req), st).
Proof. destruct req; simpl; intros H; try reflexivity. destruct H. Qed.

Lemma assoc_get_set_eq k v items : assoc_get k (assoc_set k v items) = Some v.
Proof.
  induction items as [|[k' v'] rest IH]; simpl.
  - now rewrite String.eqb_refl.
  - destruct (String.eqb k k') eqn:E; simpl.
    + now rewrite String.eqb_refl.
    + now rewrite E.
Qed.

Lemma assoc_get_set_ne k k' v items :
  k <> k' -> assoc_get k' (assoc_set k v items) = assoc_get k' items.
Proof.
  intros Hne. induction items as [|[k0 v0] rest IH]; simpl.
  - destruct (String.eqb k' k) eqn:E; auto.
    apply String.eqb_eq in E. congruence.
  - destruct (String.eqb k k0) eqn:E; simpl.
    + apply String.eqb_eq in E. subst k0.
      destruct (String.eqb k' k) eqn:E'; auto.
      apply String.eqb_eq in E'. congruence.
    + now rewrite IH.
Qed.

Lemma assoc_set_fresh k v items :
  assoc_get k items = None -> assoc_set k v items = items ++ [(k, v)].
Proof.
  induction items as [|[k' v'] rest IH]; simpl; auto.
  destruct (String.eqb k k'); [discriminate|]. intros H. now rewrite IH.
Qed.

(** ** The loop over the items of a dictionary *)

Lemma for_items_step {A} rem d n0 i (body : string -> value -> A -> M A) acc st items k v :
  py_items d st = (Ok items, st) ->
  length items = n0 ->
  items !! i = Some (k, v) ->
  for_items (S rem) d n0 i body acc st
  = (acc' <- body k v acc ;; for_items rem d n0 (S i) body acc') st.
Proof.
  intros Hitems Hlen Hi. simpl.
  rewrite (bind_ok _ _ _ _ _ Hitems).
  rewrite Hlen, Nat.eqb_refl. simpl. now rewrite Hi.
Qed.

Lemma for_items_done {A} d n0 i (body : string -> value -> A -> M A) acc st items :
  py_items d st = (Ok items, st) ->
  length items = n0 ->
  for_items 0 d n0 i body acc st = (Ok acc, st).
Proof.
  intros Hitems Hlen. simpl.
  rewrite (bind_ok _ _ _ _ _ Hitems).
  now rewrite Hlen, Nat.eqb_refl.
Qed.

(** A source with a single item: the merge is the body of the loop run
    once, as long as the body leaves the source alone. *)
Lemma dict_merge_singleton fuel dct m k v st st1 :
  heap st !! m = Some (ODict [(k, v)]) ->
  dict_merge_entry env (dict_merge env fuel) dct k v st = (Ok tt, st1) ->
  heap st1 !! m = Some (ODict [(k, v)]) ->
  dict_merge env (S fuel) dct (VRef m) st = (Ok tt, st1).
Proof.
  intros Hm Hbody Hm1. simpl. unfold for_each_item.
  rewrite (bind_ok _ _ _ _ _ (py_items_dict _ _ _ Hm)).
  simpl length.
  erewrite for_items_step; [|apply (py_items_dict _ _ _ Hm)|reflexivity|reflexivity].
  rewrite (bind_ok _ _ _ _ _ Hbody).
  erewrite for_items_done; [reflexivity|apply (py_items_dict _ _ _ Hm1)|reflexivity].
Qed.

(** ** [ReadRequirement] and [WriteRequirement] *)

Lemma dict_merge_entry_read self dct v :
  dict_merge_entry env self dct "ReadRequirement" v
  = (old <- py_get dct "ReadRequirement" VNone ;;
     r <- get_more_restrictive_requirement old v "ReadRequirement" ;;
     py_setitem dct "ReadRequirement" r).
Proof. reflexivity. Qed.

Lemma dict_merge_entry_write self dct v :
  dict_merge_entry env self dct "WriteRequirement" v
  = (old <- py_get dct "WriteRequirement" VNone ;;
     r <- get_more_restrictive_requirement old v "WriteRequirement" ;;
     py_setitem dct "WriteRequirement" r).
Proof. reflexivity. Qed.

Lemma get_more_restrictive_read st req1 req2 :
  hashable req1 -> hashable req2 ->
  get_more_restrictive_requirement req1 req2 "ReadRequirement" st
  = (Ok (if Z.eqb (hierarchy_score req1) 4 then req1
         else if Z.eqb (hierarchy_score req2) 4 then req2
         else req1), st).
Proof.
  intros H1 H2. unfold get_more_restrictive_requirement. simpl.
  rewrite (bind_ok _ _ _ _ _ (REQUIREMENT_HIERARCHY_hashable _ _ H1)).
  destruct (Z.eqb (hierarchy_score req1) 4) eqn:E1; [reflexivity|].
  rewrite (bind_ok _ _ _ _ _ (REQUIREMENT_HIERARCHY_hashable _ _ H2)).
  destruct (Z.eqb (hierarchy_score req2) 4); [reflexivity|].
  destruct req1; try reflexivity. discriminate.
Qed.

(** A destination value of [None] is returned before the source value is
    looked at. *)
Lemma get_more_restrictive_read_none st req2 :
  get_more_restrictive_requirement VNone req2 "ReadRequirement" st = (Ok VNone, st).
Proof. reflexivity. Qed.

Lemma get_more_restrictive_write st req1 req2 :
  hashable req1 -> hashable req2 ->
  get_more_restrictive_requirement req1 req2 "WriteRequirement" st
  = (Ok (if Z.ltb (hierarchy_score req2) (hierarchy_score req1) then req2 else req1), st).
Proof.
  intros H1 H2. unfold get_more_restrictive_requirement. simpl.
  rewrite (bind_ok _ _ _ _ _ (REQUIREMENT_HIERARCHY_hashable _ _ H1)).
  now rewrite (bind_ok _ _ _ _ _ (REQUIREMENT_HIERARCHY_hashable _ _ H2)).
Qed.

(** What the loop body does with a [ReadRequirement] item, for values that
    can be hashed: a value of score 4 wins, the destination's first;
    otherwise the destination's value stays. *)
Lemma read_requirement_entry self st l items v :
  heap st !! l = Some (ODict items) ->
  hashable (default VNone (assoc_get "ReadRequirement" items)) ->
  hashable v ->
  let old := default VNone (assoc_get "ReadRequirement" items) in
  let r := if Z.eqb (hierarchy_score old) 4 then old
           else if Z.eqb (hierarchy_score v) 4 then v else old in
  dict_merge_entry env self (VRef l) "ReadRequirement" v st
  = (Ok tt, with_heap (<[l:=ODict (assoc_set "ReadRequirement" r items)]> (heap st)) st).
Proof.
  intros Hl Hold Hv old r. rewrite dict_merge_entry_read.
  rewrite (bind_ok _ _ _ _ _ (py_get_dict _ _ _ _ _ Hl)).
  rewrite (bind_ok _ _ _ _ _ (get_more_restrictive_read _ _ _ Hold Hv)).
  now rewrite (py_setitem_dict _ _ _ _ _ Hl).
Qed.

Lemma assoc_set_same k v items :
  assoc_get k items = Some v -> assoc_set k v items = items.
Proof.
  induction items as [|[k' v'] rest IH]; simpl; [discriminate|].
  destruct (String.eqb k k') eqn:E.
  - apply String.eqb_eq in E. intros [= ->]. now subst.
  - intros H. now rewrite IH.
Qed.

Lemma with_heap_same st : with_heap (heap st) st = st.
Proof. now destruct st. Qed.

(** C1, where the code and the claim part: when neither the destination's
    [ReadRequirement] nor the source's has score 4, the loop body leaves
    the destination as it is, whichever of the two is the more
    restrictive; so a destination that says [Supported] merged with a
    source that says [Recommended] still says [Supported]. *)
Theorem read_requirement_keeps_destination self st l items old v :
  heap st !! l = Some (ODict items) ->
  assoc_get "ReadRequirement" items = Some old ->
  hashable old -> hashable v ->
  hierarchy_score old <> 4%Z -> hierarchy_score v <> 4%Z ->
  dict_merge_entry env self (VRef l) "ReadRequirement" v st = (Ok tt, st)
  /\ merged_field env (JObj [("ReadRequirement", JStr "Supported")])
                      (JObj [("ReadRequirement", JStr "Recommended")])
                      "ReadRequirement"
     = Ok (VStr "Supported")
  /\ (hierarchy_score (VStr "Supported") < hierarchy_score (VStr "Recommended"))%Z.
Proof.
  intros Hl Hold Hh Hv Ho4 Hv4. split; [|split; reflexivity].
  rewrite dict_merge_entry_read.
  rewrite (bind_ok _ _ _ _ _ (py_get_dict _ _ _ _ _ Hl)).
  rewrite Hold. change (default VNone (Some old)) with old.
  rewrite (bind_ok _ _ _ _ _ (get_more_restrictive_read _ _ _ Hh Hv)).
  apply Z.eqb_neq in Ho4, Hv4. rewrite Ho4, Hv4.
  rewrite (py_setitem_dict _ _ _ _ _ Hl).
  rewrite (assoc_set_same _ _ _ Hold).
  rewrite list_insert_id by exact Hl. now rewrite with_heap_same.
Qed.

(** C9: when the destination has no [ReadRequirement] and the source
    carries one, whatever its value, the loop body adds the key to the
    destination with the value [None]; a merge from a source holding just
    that item does exactly this. *)
Theorem read_requirement_absent_becomes_none fuel self st l m items v :
  heap st !! l = Some (ODict items) ->
  assoc_get "ReadRequirement" items = None ->
  let st' := with_heap (<[l:=ODict (items ++ [("ReadRequirement", VNone)])]> (heap st)) st in
  dict_merge_entry env self (VRef l) "ReadRequirement" v st = (Ok tt, st')
  /\ py_getitem (VRef l) "ReadRequirement" st' = (Ok VNone, st')
  /\ (l <> m -> heap st !! m = Some (ODict [("ReadRequirement", v)]) ->
      dict_merge env (S fuel) (VRef l) (VRef m) st = (Ok tt, st')).
Proof.
  intros Hl Habs st'.
  assert (Hentry : forall self', dict_merge_entry env self' (VRef l) "ReadRequirement" v st = (Ok tt, st')).
  { intros self'. rewrite dict_merge_entry_read.
    rewrite (bind_ok _ _ _ _ _ (py_get_dict _ _ _ _ _ Hl)).
    rewrite Habs.
    change (default VNone None) with VNone.
    rewrite (bind_ok _ _ _ _ _ (get_more_restrictive_read_none st v)).
    rewrite (py_setitem_dict _ _ _ _ _ Hl).
    now rewrite (assoc_set_fresh _ _ _ Habs). }
  assert (Hlen : l < length (heap st)) by (eapply lookup_lt_Some; eauto).
  split; [apply Hentry|]. split.
  - eapply py_getitem_dict.
    + unfold st'. simpl. now apply list_lookup_insert_eq.
    + rewrite <- (assoc_set_fresh _ VNone _ Habs). apply assoc_get_set_eq.
  - intros Hne Hm. apply (dict_merge_singleton fuel (VRef l) m "ReadRequirement" v); auto.
    unfold st'. simpl. now rewrite list_lookup_insert_ne.
Qed.

(** C4: for a [WriteRequirement] item the loop body stores one of the two
    values, the one with the lowest score of the hierarchy, the
    destination's on a tie (a missing key counts as [None], score 4). *)
Theorem write_requirement_least_restrictive self st l items v :
  heap st !! l = Some (ODict items) ->
  hashable (default VNone (assoc_get "WriteRequirement" items)) ->
  hashable v ->
  let old := default VNone (assoc_get "WriteRequirement" items) in
  exists r,
    dict_merge_entry env self (VRef l) "WriteRequirement" v st
    = (Ok tt, with_heap (<[l:=ODict (assoc_set "WriteRequirement" r items)]> (heap st)) st)
    /\ (r = old \/ r = v)
    /\ hierarchy_score r = Z.min (hierarchy_score old) (hierarchy_score v).
Proof.
  intros Hl Hold Hv old.
  exists (if Z.ltb (hierarchy_score v) (hierarchy_score old) then v else old).
  split; [|split].
  - rewrite dict_merge_entry_write.
    rewrite (bind_ok _ _ _ _ _ (py_get_dict _ _ _ _ _ Hl)).
    rewrite (bind_ok _ _ _ _ _ (get_more_restrictive_write _ _ _ Hold Hv)).
    now rewrite (py_setitem_dict _ _ _ _ _ Hl).
  - destruct (Z.ltb _ _); auto.
  - destruct (Z.ltb_spec (hierarchy_score v) (hierarchy_score old)); lia.
Qed.

(** ** Values of different types under an ordinary key *)

Lemma is_dict_type_name st x t :
  type_name x st = (Ok t, st) -> is_dict x st = (Ok (String.eqb t "dict"), st).
Proof.
  unfold type_name, is_dict, read_obj, bind, get_heap, ret, raise.
  destruct x; try (intros H; inversion H; subst; reflexivity).
  destruct (heap st !! l) as [[items|items]|];
    intros H; inversion H; subst; reflexivity.
Qed.

Lemma is_list_type_name st x t :
  type_name x st = (Ok t, st) -> is_list x st = (Ok (String.eqb t "list"), st).
Proof.
  unfold type_name, is_list, read_obj, bind, get_heap, ret, raise.
  destruct x; try (intros H; inversion H; subst; reflexivity).
  destruct (heap st !! l) as [[items|items]|];
    intros H; inversion H; subst; reflexivity.
Qed.

Lemma special_key_false k :
  special_key k = false ->
  String.eqb k "ReadRequirement" = false /\ String.eqb k "WriteRequirement" = false
  /\ String.eqb k "MinVersion" = false /\ String.eqb k "MaxVersion" = false
  /\ String.eqb k "MinCount" = false /\ String.eqb k "MaxCount" = false.
Proof.
  unfold special_key. intros H.
  repeat (apply orb_false_elim in H; destruct H as [H ?]). auto 10.
Qed.

(** The loop body on a key without a rule of its own that the destination
    already has: the part that looks at the two values. *)
Lemma dict_merge_entry_ordinary self st l items k old v :
  heap st !! l = Some (ODict items) ->
  special_key k = false ->
  assoc_get k items = Some old ->
  dict_merge_entry env self (VRef l) k v st
  = (old_dict <- is_dict old ;;
     v_dict <- is_dict v ;;
     if (old_dict && v_dict)%bool then self old v
     else
       old_list <- is_list old ;;
       v_list <- is_list v ;;
       if (old_list && v_list)%bool then
         r <- merge_lists old v ;; py_setitem (VRef l) k r
       else
         t_old <- type_name old ;;
         t_v <- type_name v ;;
         if negb (String.eqb t_old t_v)
         then logger WARNING (TypeConflict k t_old t_v)
         else ret tt) st.
Proof.
  intros Hl Hk Hold.
  destruct (special_key_false _ Hk) as (E1 & E2 & E3 & E4 & E5 & E6).
  unfold dict_merge_entry. rewrite E1, E2. cbn [orb].
  rewrite (bind_ok _ _ _ _ _ (py_contains_dict _ _ _ _ Hl)).
  rewrite Hold. cbn [negb bool_decide]. 
  rewrite bool_decide_eq_true_2 by eauto. cbn [negb].
  rewrite (bind_ok _ _ _ _ _ (py_getitem_dict _ _ _ _ _ Hl Hold)).
  now rewrite E3, E4, E5, E6.
Qed.

(** C7: a key without a rule of its own, present on both sides with values
    of different types: the loop body returns normally, changes nothing in
    the store, and records one warning that names the key and the two
    types; the loop over the source then goes on with the next item. *)
Theorem type_conflict_keeps_destination self st l items k old v t_old t_v :
  heap st !! l = Some (ODict items) ->
  special_key k = false ->
  assoc_get k items = Some old ->
  type_name old st = (Ok t_old, st) ->
  type_name v st = (Ok t_v, st) ->
  t_old <> t_v ->
  let st' := with_logged WARNING (TypeConflict k t_old t_v) st in
  dict_merge_entry env self (VRef l) k v st = (Ok tt, st')
  /\ heap st' = heap st
  /\ forall rem m src i,
       heap st !! m = Some (ODict src) -> src !! i = Some (k, v) ->
       for_items (S rem) (VRef m) (length src) i
         (fun k v _ => dict_merge_entry env self (VRef l) k v) tt st
       = for_items rem (VRef m) (length src) (S i)
           (fun k v _ => dict_merge_entry env self (VRef l) k v) tt st'.
Proof.
  intros Hl Hk Hold Hto Htv Hne st'.
  assert (Hentry : dict_merge_entry env self (VRef l) k v st = (Ok tt, st')).
  { rewrite (dict_merge_entry_ordinary _ _ _ _ _ _ _ Hl Hk Hold).
    rewrite (bind_ok _ _ _ _ _ (is_dict_type_name _ _ _ Hto)).
    rewrite (bind_ok _ _ _ _ _ (is_dict_type_name _ _ _ Htv)).
    destruct (String.eqb t_old "dict" && String.eqb t_v "dict")%bool eqn:Ed.
    { apply andb_true_iff in Ed. destruct Ed as [Ea Eb].
      apply String.eqb_eq in Ea, Eb. congruence. }
    rewrite (bind_ok _ _ _ _ _ (is_list_type_name _ _ _ Hto)).
    rewrite (bind_ok _ _ _ _ _ (is_list_type_name _ _ _ Htv)).
    destruct (String.eqb t_old "list" && String.eqb t_v "list")%bool eqn:El.
    { apply andb_true_iff in El. destruct El as [Ea Eb].
      apply String.eqb_eq in Ea, Eb. congruence. }
    rewrite (bind_ok _ _ _ _ _ Hto).
    rewrite (bind_ok _ _ _ _ _ Htv).
    apply String.eqb_neq in Hne. now rewrite Hne. }
  split; [exact Hentry|]. split; [reflexivity|].
  intros rem m src i Hm Hi.
  erewrite for_items_step; [|apply (py_items_dict _ _ _ Hm)|reflexivity|exact Hi].
  now rewrite (bind_ok _ _ _ _ _ Hentry).
Qed.

End Facts.

(** * Frame properties *)

Lemma respects_run {A} (R : frame) (m : M A) st r st' :
  respects R m -> m st = (r, st') -> R st st'.
Proof. intros Hm E. specialize (Hm st). now rewrite E in Hm. Qed.

Lemma respects_ret {A} (R : frame) (a : A) : respects R (ret a).
Proof. intros st. apply rel_refl. Qed.

Lemma respects_raise {A} (R : frame) e : respects R (@raise A e).
Proof. intros st. apply rel_refl. Qed.

Lemma respects_lift {A} (R : frame) (o : outcome A) : respects R (lift o).
Proof. intros st. apply rel_refl. Qed.

Lemma respects_bind {A B} (R : frame) (m : M A) (f : A -> M B) :
  respects R m -> (forall a, respects R (f a)) -> respects R (bind m f).
Proof.
  intros Hm Hf st. unfold bind. specialize (Hm st).
  destruct (m st) as [[a|e] st1]; simpl in *; auto.
  eapply rel_trans; [exact Hm|apply Hf].
Qed.

Lemma respects_try_except {A} (R : frame) (m : M A) (handler : exn -> M A) :
  respects R m -> (forall e, respects R (handler e)) -> respects R (try_except m handler).
Proof.
  intros Hm Hh st. unfold try_except. specialize (Hm st).
  destruct (m st) as [[a|e] st1]; simpl in *; auto.
  eapply rel_trans; [exact Hm|apply Hh].
Qed.

Lemma respects_get_heap (R : frame) : respects R get_heap.
Proof. intros st. apply rel_refl. Qed.

Lemma respects_get_cache (R : frame) : respects R get_cache.
Proof. intros st. apply rel_refl. Qed.

Lemma respects_get_trace (R : frame) : respects R get_trace.
Proof. intros st. apply rel_refl. Qed.

Create HintDb frame.
#[global] Hint Resolve respects_ret respects_raise respects_lift
  respects_get_heap respects_get_cache respects_get_trace : frame.

(** One step of a proof that a computation respects a relation: through a
    [bind], into the branches of a [match], or by a fact already known. *)
Ltac frame_step :=
  match goal with
  | |- respects _ (bind _ _) => apply respects_bind; [ | intros ? ]
  | |- respects _ (try_except _ _) => apply respects_try_except; [ | intros ? ]
  | |- respects _ (match ?x with _ => _ end) => destruct x
  | |- respects _ (let _ := _ in _) => cbv zeta
  | |- respects _ _ => solve [ auto with frame ]
  end.

Ltac frame := repeat frame_step.

Lemma respects_read_obj (R : frame) l : respects R (read_obj l).
Proof. unfold read_obj. frame. Qed.
#[global] Hint Resolve respects_read_obj : frame.

Lemma respects_type_name (R : frame) v : respects R (type_name v).
Proof. unfold type_name. frame. Qed.

Lemma respects_is_dict (R : frame) v : respects R (is_dict v).
Proof. unfold is_dict. frame. Qed.

Lemma respects_is_list (R : frame) v : respects R (is_list v).
Proof. unfold is_list. frame. Qed.

Lemma respects_truthy (R : frame) v : respects R (truthy v).
Proof. unfold truthy. frame. Qed.

Lemma respects_py_get (R : frame) x k d : respects R (py_get x k d).
Proof. unfold py_get. frame. Qed.

Lemma respects_py_items (R : frame) x : respects R (py_items x).
Proof. unfold py_items. frame. Qed.

Lemma respects_py_contains (R : frame) env x item : respects R (py_contains env x item).
Proof. unfold py_contains. frame. Qed.

Lemma respects_py_getitem (R : frame) x k : respects R (py_getitem x k).
Proof. unfold py_getitem. frame. Qed.

Lemma respects_list_items (R : frame) x : respects R (list_items x).
Proof. unfold list_items. frame. Qed.

Lemma respects_py_iter (R : frame) x : respects R (py_iter x).
Proof. unfold py_iter. frame. Qed.

#[global] Hint Resolve respects_type_name respects_is_dict respects_is_list
  respects_truthy respects_py_get respects_py_items respects_py_contains
  respects_py_getitem respects_list_items respects_py_iter : frame.

Lemma respects_py_lt (R : frame) env a b : respects R (py_lt env a b).
Proof. unfold py_lt. frame. Qed.
#[global] Hint Resolve respects_py_lt : frame.

Lemma respects_py_max (R : frame) env a b : respects R (py_max env a b).
Proof. unfold py_max. frame. Qed.

Lemma respects_py_min (R : frame) env a b : respects R (py_min env a b).
Proof. unfold py_min. frame. Qed.

Lemma respects_py_str (R : frame) env v : respects R (py_str env v).
Proof. unfold py_str. frame. Qed.

Lemma respects_json_dumps (R : frame) v : respects R (json_dumps v).
Proof. unfold json_dumps. frame. Qed.

Lemma respects_REQUIREMENT_HIERARCHY (R : frame) req : respects R (REQUIREMENT_HIERARCHY req).
Proof. unfold REQUIREMENT_HIERARCHY. frame. Qed.

Lemma respects_hash_check (R : frame) k : respects R (hash_check k).
Proof. unfold hash_check. frame. Qed.

#[global] Hint Resolve respects_py_max respects_py_min respects_py_str
  respects_json_dumps respects_REQUIREMENT_HIERARCHY respects_hash_check : frame.

Lemma respects_get_more_restrictive_requirement (R : frame) req1 req2 t :
  respects R (get_more_restrictive_requirement req1 req2 t).
Proof. unfold get_more_restrictive_requirement. frame. Qed.

Lemma respects_version_key (R : frame) env v : respects R (version_key env v).
Proof. unfold version_key. frame. Qed.
#[global] Hint Resolve respects_version_key : frame.

Lemma respects_compare_versions (R : frame) env a b m :
  respects R (compare_versions env a b m).
Proof. unfold compare_versions. frame. Qed.

Lemma respects_item_key (R : frame) item : respects R (item_key item).
Proof. unfold item_key. frame. Qed.

#[global] Hint Resolve respects_get_more_restrictive_requirement
  respects_compare_versions respects_item_key : frame.

Lemma respects_merge_loop (R : frame) items seen merged :
  respects R (merge_loop items seen merged).
Proof.
  revert seen merged. induction items as [|item rest IH]; intros seen merged; simpl.
  - frame.
  - frame.
Qed.
#[global] Hint Resolve respects_merge_loop : frame.

Lemma unchanged_run {A} (m : M A) st :
  respects unchanged m -> exists r, m st = (r, st).
Proof.
  intros H. specialize (H st). simpl in H.
  destruct (m st) as [r st']. simpl in H. subst. now exists r.
Qed.

(** ** Relations that do not look at the store or at the log

    Merging and resolving write to the store and to the log only, apart
    from what [parseProfileInclude] does; a relation that ignores both is
    kept by [dict_merge], and by [getProfiles] as soon as the lookups it
    makes keep it. *)

Section Writes.

Variable env : environment.
Variable R : frame.
Hypothesis R_heap : forall st h, R st (with_heap h st).
Hypothesis R_log : forall st lv msg, R st (with_logged lv msg st).

Lemma respects_set_heap h : respects R (set_heap h).
Proof. intros st. apply R_heap. Qed.

Lemma respects_logger lv msg : respects R (logger lv msg).
Proof. intros st. apply R_log. Qed.

Hint Resolve respects_set_heap respects_logger : frame.

Lemma respects_write_obj l o : respects R (write_obj l o).
Proof. unfold write_obj. frame. Qed.

Lemma respects_alloc o : respects R (alloc o).
Proof. unfold alloc. frame. Qed.

Hint Resolve respects_write_obj respects_alloc : frame.

Lemma respects_py_setitem x k v : respects R (py_setitem x k v).
Proof. unfold py_setitem. frame. Qed.

Lemma respects_py_append x v : respects R (py_append x v).
Proof. unfold py_append. frame. Qed.

Lemma respects_py_get_or_empty x k : respects R (py_get_or_empty x k).
Proof. unfold py_get_or_empty. frame. Qed.

Lemma respects_merge_lists a b : respects R (merge_lists a b).
Proof. unfold merge_lists. frame. Qed.

Hint Resolve respects_py_setitem respects_py_append respects_py_get_or_empty
  respects_merge_lists : frame.

Lemma respects_for_items {A} rem d n0 i (body : string -> value -> A -> M A) acc :
  (forall k v a, respects R (body k v a)) ->
  respects R (for_items rem d n0 i body acc).
Proof.
  intros Hbody. revert i acc.
  induction rem as [|rem IH]; intros i acc; simpl; frame.
Qed.

Lemma respects_for_each_item {A} d (body : string -> value -> A -> M A) acc :
  (forall k v a, respects R (body k v a)) ->
  respects R (for_each_item d body acc).
Proof.
  intros Hbody. unfold for_each_item. frame. now apply respects_for_items.
Qed.

Lemma respects_for_each {A B} (l : list B) (body : B -> A -> M A) acc :
  (forall x a, respects R (body x a)) ->
  respects R (for_each l body acc).
Proof.
  intros Hbody. revert acc.
  induction l as [|x rest IH]; intros acc; simpl; frame.
Qed.

Lemma respects_dict_merge_entry self dct k v :
  (forall a b, respects R (self a b)) ->
  respects R (dict_merge_entry env self dct k v).
Proof. intros Hself. unfold dict_merge_entry. frame. Qed.

Lemma respects_dict_merge fuel dct merge_dct :
  respects R (dict_merge env fuel dct merge_dct).
Proof.
  revert dct merge_dct. induction fuel as [|fuel IH]; intros dct merge_dct; simpl.
  - frame.
  - apply respects_for_each_item. intros k v _.
    now apply respects_dict_merge_entry.
Qed.

Hint Resolve respects_dict_merge : frame.

Ltac frame_loops :=
  repeat first
    [ frame_step
    | apply respects_for_each_item; intros ? ? ?
    | apply respects_for_each; intros ? ?
    | apply respects_dict_merge_entry; intros ? ? ].

Lemma respects_merge_resource merge profile resource_type resource_data :
  (forall a b, respects R (merge a b)) ->
  respects R (merge_resource env merge profile resource_type resource_data).
Proof. intros Hmerge. unfold merge_resource. frame. Qed.

Hint Resolve respects_merge_resource : frame.

(** Once the lookup of a required profile has returned, the rest of the
    loop body keeps the relation as soon as the recursive call with remote
    lookup disabled does. *)
Lemma required_profile_step_after_lookup self merge profile directories chain b
  target_name info acc st profile_data st1 :
  (forall p d c, respects R (self p d c false)) ->
  (forall x y, respects R (merge x y)) ->
  parseProfileInclude env target_name info directories b st = (Ok profile_data, st1) ->
  R st1 (snd (required_profile_step env self merge profile directories chain b
                target_name info acc st)).
Proof.
  intros Hself Hmerge Hparse. unfold required_profile_step.
  rewrite (bind_ok _ _ _ _ _ Hparse).
  match goal with
  | |- rel R st1 (snd (?m st1)) => assert (Hm : respects R m); [|apply Hm]
  end.
  frame_loops.
Qed.

Section Resolver.

Variable online : bool.
Hypothesis parse_offline :
  forall target_name info directories,
    respects R (parseProfileInclude env target_name info directories false).
Hypothesis parse_online :
  forall target_name info directories,
    respects R (parseProfileInclude env target_name info directories online).

Lemma respects_parse_either b target_name info directories :
  b = false \/ b = online ->
  respects R (parseProfileInclude env target_name info directories b).
Proof. intros [->| ->]; auto. Qed.

Hint Resolve respects_parse_either : frame.

Lemma respects_resource_profile_step merge directories b resource_name inner_object
  target_name info acc :
  (b = false \/ b = online) ->
  (forall x y, respects R (merge x y)) ->
  respects R (resource_profile_step env merge directories b resource_name
                inner_object target_name info acc).
Proof. intros Hb Hmerge. unfold resource_profile_step. frame. Qed.

Hint Resolve respects_resource_profile_step : frame.

Lemma respects_resource_step merge directories b resource_name resource acc :
  (b = false \/ b = online) ->
  (forall x y, respects R (merge x y)) ->
  respects R (resource_step env merge directories b resource_name resource acc).
Proof. intros Hb Hmerge. unfold resource_step. frame_loops. Qed.

Lemma respects_required_profile_step self merge profile directories chain b
  target_name info acc :
  (b = false \/ b = online) ->
  (forall p d c, respects R (self p d c false)) ->
  (forall x y, respects R (merge x y)) ->
  respects R (required_profile_step env self merge profile directories chain b
                target_name info acc).
Proof. intros Hb Hself Hmerge. unfold required_profile_step. frame_loops. Qed.

Hint Resolve respects_resource_step respects_required_profile_step : frame.

Lemma respects_getProfiles_at fuel profile directories chain b :
  (b = false \/ b = online) ->
  respects R (getProfiles env fuel profile directories chain b).
Proof.
  revert profile directories chain b.
  induction fuel as [|fuel IH]; intros profile directories chain b Hb; simpl.
  - frame.
  - frame_loops.
Qed.

End Resolver.

End Writes.

(** ** Relations kept by the lookups

    What [parseProfileInclude] does besides reading: it builds new objects,
    asks the outside world, logs, and writes one entry of the cache. *)

Lemma bind_assoc {A B C} (m : M A) (f : A -> M B) (g : B -> M C) st :
  bind (bind m f) g st = bind m (fun x => bind (f x) g) st.
Proof. unfold bind. now destruct (m st) as [[a|e] st1]. Qed.

Lemma bind_ext {A B} (m : M A) (f g : A -> M B) st :
  (forall a st1, f a st1 = g a st1) -> bind m f st = bind m g st.
Proof. intros H. unfold bind. destruct (m st) as [[a|e] st1]; auto. Qed.

Lemma parseProfileInclude_eq env target_name info directories online st :
  parseProfileInclude env target_name info directories online st
  = (mv <- py_get info "MinVersion" (VStr "1.0.0") ;;
     h <- get_heap ;;
     min_version <- lift (splitVersionString env h mv) ;;
     cache <- get_cache ;;
     match cache !! (target_name +:+ ".json") with
     | Some cached => ret cached
     | None =>
         data <- locate_uncached env target_name info min_version directories online ;;
         _ <- cache_store (target_name +:+ ".json") data ;;
         ret data
     end) st.
Proof.
  unfold parseProfileInclude.
  apply bind_ext; intros mv st1.
  apply bind_ext; intros h st2.
  apply bind_ext; intros min_version st3.
  apply bind_ext; intros cache st4.
  destruct (cache !! (target_name +:+ ".json")); [reflexivity|].
  unfold locate_uncached, local_search.
  rewrite !bind_assoc.
  apply bind_ext; intros repo st5.
  rewrite !bind_assoc.
  apply bind_ext; intros data st6.
  destruct (is_none data); [|reflexivity].
  rewrite !bind_assoc.
  apply bind_ext; intros target_list st7.
  destruct target_list; reflexivity.
Qed.

Section Lookup.

Variable env : environment.
Variable R : frame.
Hypothesis R_alloc : forall st o, R st (with_heap (heap st ++ [o]) st).
Hypothesis R_local_event :
  forall st ev, is_urlopen ev = false -> R st (with_event ev st).

Lemma respects_alloc_only o : respects R (alloc o).
Proof.
  intros st. unfold alloc, bind, get_heap, set_heap, ret. simpl. apply R_alloc.
Qed.

Hint Resolve respects_alloc_only : frame.

Lemma respects_json_build : forall j, respects R (json_build j).
Proof.
  fix IH 1. intros [| b | z | s | elems | members]; simpl; try solve [frame].
  - apply respects_bind; [|intros; frame].
    induction elems as [|x rest IHl]; [frame|].
    apply respects_bind; [apply IH|intros v].
    apply respects_bind; [apply IHl|intros; frame].
  - apply respects_bind; [|intros; frame].
    generalize (@nil (string * value)).
    induction members as [|[k x] rest IHl]; intros acc; [frame|].
    apply respects_bind; [apply IH|intros v]. apply IHl.
Qed.

Hint Resolve respects_json_build : frame.

Lemma respects_emit_local ev : is_urlopen ev = false -> respects R (emit ev).
Proof. intros H st. now apply R_local_event. Qed.

Lemma respects_glob_matching matcher directories :
  respects R (glob_matching env matcher directories).
Proof.
  induction directories as [|d rest IH]; simpl; frame.
  now apply respects_emit_local.
Qed.

Hint Resolve respects_glob_matching : frame.

Lemma respects_getProfilesMatchingName name directories :
  respects R (getProfilesMatchingName env name directories).
Proof. unfold getProfilesMatchingName. frame. Qed.

Lemma respects_load_candidates target_list max_version data :
  respects R (load_candidates env target_list max_version data).
Proof.
  revert max_version data.
  induction target_list as [|path rest IH]; intros max_version data; simpl; frame.
  now apply respects_emit_local.
Qed.

Hint Resolve respects_getProfilesMatchingName respects_load_candidates : frame.

Section Logs.

Hypothesis R_log : forall st lv msg, R st (with_logged lv msg st).

Lemma respects_local_search target_name target_file min_version repo directories :
  respects R (local_search env target_name target_file min_version repo directories).
Proof.
  unfold local_search. frame; intros st; apply R_log.
Qed.

Lemma respects_locate_offline target_name info min_version directories :
  respects R (locate_uncached env target_name info min_version directories false).
Proof.
  unfold locate_uncached. frame; apply respects_local_search.
Qed.

Section Remote.

Hypothesis R_event : forall st ev, R st (with_event ev st).

Lemma respects_emit ev : respects R (emit ev).
Proof. intros st. apply R_event. Qed.

Hint Resolve respects_emit : frame.

Lemma respects_urlopen_read url : respects R (urlopen_read env url).
Proof. unfold urlopen_read. frame. Qed.

Hint Resolve respects_urlopen_read : frame.

Lemma respects_getProfileFromRepo profilename repo :
  respects R (getProfileFromRepo env profilename repo).
Proof. unfold getProfileFromRepo. frame. Qed.

Lemma respects_locate_uncached target_name info min_version directories online :
  respects R (locate_uncached env target_name info min_version directories online).
Proof.
  unfold locate_uncached. frame;
    apply respects_local_search || apply respects_getProfileFromRepo.
Qed.

End Remote.

End Logs.

End Lookup.

(** ** The five relations *)

Lemma store_grows_lookup (a b : state) l o :
  store_grows a b -> heap a !! l = Some o -> heap b !! l = Some o.
Proof. intros [new ->] H. now apply lookup_app_l_Some. Qed.

Lemma urlopens_local tr ev : is_urlopen ev = false -> urlopens (tr ++ [ev]) = urlopens tr.
Proof.
  intros H. unfold urlopens. rewrite List.filter_app. simpl.
  rewrite H. apply app_nil_r.
Qed.

Lemma errors_warning l msg : errors (l ++ [(WARNING, msg)]) = errors l.
Proof. unfold errors. rewrite List.filter_app. simpl. apply app_nil_r. Qed.

Lemma errors_error l msg : errors (l ++ [(ERROR, msg)]) = errors l ++ [(ERROR, msg)].
Proof. unfold errors. now rewrite List.filter_app. Qed.

(** ** What a lookup keeps *)

Section LookupFacts.

Variable env : environment.

Lemma respects_cache_store_any (R : frame) k v :
  (forall st, R st (with_cached k v st)) -> respects R (cache_store k v).
Proof. intros H st. apply H. Qed.

(** Between the test of the cache and the write to it, nothing touches the
    cache. *)
Lemma locate_uncached_same_cache target_name info min_version directories online :
  respects same_cache
    (locate_uncached env target_name info min_version directories online).
Proof. apply respects_locate_uncached; intros; reflexivity. Qed.

(** A lookup never removes or changes an entry of the cache. *)
Lemma parseProfileInclude_cache_grows target_name info directories online :
  respects cache_grows (parseProfileInclude env target_name info directories online).
Proof.
  intros st. rewrite parseProfileInclude_eq.
  destruct (unchanged_run (py_get info "MinVersion" (VStr "1.0.0")) st
              (respects_py_get _ _ _ _)) as [[mv|e] E].
  2:{ rewrite (bind_raise _ _ _ _ _ E). apply rel_refl. }
  rewrite (bind_ok _ _ _ _ _ E).
  unfold bind at 1, get_heap at 1. unfold bind at 1, lift at 1.
  destruct (splitVersionString env (heap st) mv) as [min_version|e]; [|apply rel_refl].
  unfold bind at 1, get_cache at 1.
  destruct (profile_cache st !! (target_name +:+ ".json")) eqn:Hmiss; [apply rel_refl|].
  unfold bind at 1.
  destruct (locate_uncached env target_name info min_version directories online st)
    as [[data|e] st2] eqn:Eloc;
    pose proof (respects_run same_cache _ _ _ _
                  (locate_uncached_same_cache _ _ _ _ _) Eloc) as Hsame;
    simpl in Hsame.
  - simpl. intros k v Hk. rewrite Hsame.
    rewrite lookup_insert_ne; [exact Hk|]. intros <-. congruence.
  - simpl. intros k v Hk. now rewrite Hsame.
Qed.

(** A lookup with remote lookup disabled sends nothing to the network. *)
Lemma parseProfileInclude_offline_same_requests target_name info directories :
  respects same_requests (parseProfileInclude env target_name info directories false).
Proof.
  intros st. rewrite parseProfileInclude_eq. revert st.
  change (respects same_requests
    (mv <- py_get info "MinVersion" (VStr "1.0.0") ;;
     h <- get_heap ;;
     min_version <- lift (splitVersionString env h mv) ;;
     cache <- get_cache ;;
     match cache !! (target_name +:+ ".json") with
     | Some cached => ret cached
     | None =>
         data <- locate_uncached env target_name info min_version directories false ;;
         _ <- cache_store (target_name +:+ ".json") data ;;
         ret data
     end)).
  frame.
  - apply respects_locate_offline; intros; try reflexivity.
    simpl. now apply urlopens_local.
  - apply respects_cache_store_any. reflexivity.
Qed.

(** A lookup leaves every object of the store as it is. *)
Lemma parseProfileInclude_store_grows target_name info directories online :
  respects store_grows (parseProfileInclude env target_name info directories online).
Proof.
  intros st. rewrite parseProfileInclude_eq. revert st.
  change (respects store_grows
    (mv <- py_get info "MinVersion" (VStr "1.0.0") ;;
     h <- get_heap ;;
     min_version <- lift (splitVersionString env h mv) ;;
     cache <- get_cache ;;
     match cache !! (target_name +:+ ".json") with
     | Some cached => ret cached
     | None =>
         data <- locate_uncached env target_name info min_version directories online ;;
         _ <- cache_store (target_name +:+ ".json") data ;;
         ret data
     end)).
  frame.
  - apply respects_locate_uncached; intros; simpl;
      try (exists []; symmetry; apply app_nil_r).
    now exists [o].
  - apply respects_cache_store_any. intros st. exists []. symmetry. apply app_nil_r.
Qed.

End LookupFacts.

Lemma bind_ok_inv {A B} (m : M A) (f : A -> M B) st b st' :
  bind m f st = (Ok b, st') ->
  exists a st1, m st = (Ok a, st1) /\ f a st1 = (Ok b, st').
Proof.
  unfold bind. destruct (m st) as [[a|e] st1]; [|discriminate].
  intros H. now exists a, st1.
Qed.

Section FoundFacts.

Variable env : environment.

Lemma local_search_found target_name target_file min_version repo directories st v st' :
  local_search env target_name target_file min_version repo directories st = (Ok v, st') ->
  v <> VNone ->
  errors (log st') = errors (log st).
Proof.
  unfold local_search. intros H Hv.
  apply bind_ok_inv in H. destruct H as (target_list & st1 & Hlist & H).
  assert (E1 : same_errors st st1).
  { apply (respects_run same_errors _ _ _ _
             (respects_getProfilesMatchingName env same_errors
                (fun _ _ _ => eq_refl) _ _) Hlist). }
  simpl in E1. rewrite <- E1.
  destruct target_list as [|path rest].
  - unfold bind, logger, ret in H. inversion H. congruence.
  - apply bind_ok_inv in H. destruct H as (r & st2 & Hload & H).
    assert (E2 : same_errors st1 st2).
    { apply (respects_run same_errors _ _ _ _
               (respects_load_candidates env same_errors
                  (fun _ _ => eq_refl) (fun _ _ _ => eq_refl) _ _ _) Hload). }
    simpl in E2. rewrite <- E2.
    destruct (version_lt (fst r) min_version); unfold bind, logger, ret in H;
      inversion H; subst; simpl; [apply errors_warning|reflexivity].
Qed.

Lemma locate_uncached_found target_name info min_version directories online st v st' :
  locate_uncached env target_name info min_version directories online st = (Ok v, st') ->
  v <> VNone ->
  errors (log st') = errors (log st).
Proof.
  unfold locate_uncached. intros H Hv.
  apply bind_ok_inv in H. destruct H as (repo & st1 & Hrepo & H).
  destruct (unchanged_run (py_get info "Repository" VNone) st
              (respects_py_get _ _ _ _)) as [r E].
  rewrite E in Hrepo. inversion Hrepo; subst r st1. clear Hrepo E.
  apply bind_ok_inv in H. destruct H as (data & st2 & Hdata & H).
  assert (E2 : same_errors st st2).
  { destruct online.
    - apply (respects_run same_errors _ _ _ _
               (respects_getProfileFromRepo env same_errors
                  (fun _ _ => eq_refl) _ _) Hdata).
    - unfold ret in Hdata. inversion Hdata. reflexivity. }
  simpl in E2. rewrite <- E2.
  destruct (is_none data).
  - eapply local_search_found; eauto.
  - unfold ret in H. inversion H. reflexivity.
Qed.

(** A lookup that returns something else than [None] has logged no
    record of level [ERROR]. *)
Lemma parseProfileInclude_found target_name info directories online st v st' :
  parseProfileInclude env target_name info directories online st = (Ok v, st') ->
  v <> VNone ->
  errors (log st') = errors (log st).
Proof.
  rewrite parseProfileInclude_eq. intros H Hv.
  apply bind_ok_inv in H. destruct H as (mv & st1 & Hmv & H).
  destruct (unchanged_run (py_get info "MinVersion" (VStr "1.0.0")) st
              (respects_py_get _ _ _ _)) as [r E].
  rewrite E in Hmv. inversion Hmv; subst r st1. clear Hmv E.
  unfold bind at 1, get_heap at 1 in H. unfold bind at 1, lift at 1 in H.
  destruct (splitVersionString env (heap st) mv) as [min_version|e]; [|discriminate].
  unfold bind at 1, get_cache at 1 in H.
  destruct (profile_cache st !! (target_name +:+ ".json")).
  - unfold ret in H. inversion H. reflexivity.
  - apply bind_ok_inv in H. destruct H as (data & st2 & Hloc & H).
    unfold bind, cache_store, ret in H. inversion H. subst. simpl.
    eapply locate_uncached_found; eauto.
Qed.

End FoundFacts.

(** * The resolver *)

Section Resolution.

Variable env : environment.

Lemma truthy_nonempty_dict st l items :
  heap st !! l = Some (ODict items) -> items <> [] ->
  truthy (VRef l) st = (Ok true, st).
Proof.
  intros H Hne. unfold truthy. rewrite (bind_ok _ _ _ _ _ (read_obj_ok _ _ _ H)).
  destruct items; [congruence|reflexivity].
Qed.

(** C5: when the [ProfileName] of the profile is already in the chain
    given to the resolver, the call logs the cyclical-import error and
    returns two empty lists; it needs no further call of the resolver
    (one unit of fuel is enough) and the store, the cache and the requests
    to the outside world stay as they were. *)
Theorem cyclical_import_returns_at_once fuel st lp pitems lc citems directories online :
  heap st !! lp = Some (ODict pitems) ->
  heap st !! lc = Some (OList citems) ->
  let profile_name := default VNone (assoc_get "ProfileName" pitems) in
  existsb (fun e => py_eq env (heap st) e profile_name) citems = true ->
  let st' := with_logged ERROR (CyclicalImport (VRef lc) profile_name) st in
  getProfiles env (S fuel) (VRef lp) directories (VRef lc) online st = (Ok ([], []), st')
  /\ heap st' = heap st
  /\ profile_cache st' = profile_cache st
  /\ trace st' = trace st.
Proof.
  intros Hp Hc profile_name Hin st'.
  split; [|repeat split].
  cbn [getProfiles].
  rewrite (bind_ok _ _ _ _ _ (py_get_dict _ _ _ _ _ Hp)).
  cbn [is_none].
  rewrite (bind_ok _ _ _ (VRef lc) st eq_refl).
  rewrite (bind_ok _ _ _ _ _ (py_contains_list env _ _ _ _ Hc)).
  fold profile_name. rewrite Hin. reflexivity.
Qed.

(** A resource-scoped import whose profile was found, with a
    [Resources] dictionary that lacks the resource: the loop body returns
    normally without calling the merge and without recording the profile,
    every object of the store is as it was before the lookup, exactly one
    record of level [ERROR] is added to the log, and the loop over the
    [RequiredResourceProfile] goes on with the next item. *)
Theorem missing_resource_is_logged_and_skipped
  merge directories online resource_name inner_object target_name info acc
  st lp st1 pitems lr ritems :
  parseProfileInclude env target_name info directories online st = (Ok (VRef lp), st1) ->
  heap st1 !! lp = Some (ODict pitems) ->
  assoc_get "Resources" pitems = Some (VRef lr) ->
  heap st1 !! lr = Some (ODict ritems) ->
  assoc_get resource_name ritems = None ->
  let body := resource_profile_step env merge directories online resource_name inner_object in
  let st2 := with_logged ERROR (MissingResource target_name resource_name) st1 in
  body target_name info acc st = (Ok acc, st2)
  /\ (forall l o, heap st !! l = Some o -> heap st2 !! l = Some o)
  /\ errors (log st2) = errors (log st) ++ [(ERROR, MissingResource target_name resource_name)]
  /\ forall rem q items i,
       heap st !! q = Some (ODict items) -> items !! i = Some (target_name, info) ->
       for_items (S rem) (VRef q) (length items) i body acc st
       = for_items rem (VRef q) (length items) (S i) body acc st2.
Proof.
  intros Hparse Hp Hres Hr Habs body st2.
  assert (Hbody : body target_name info acc st = (Ok acc, st2)).
  { unfold body, resource_profile_step.
    rewrite (bind_ok _ _ _ _ _ Hparse).
    assert (Hne : pitems <> []) by (intros ->; discriminate).
    rewrite (bind_ok _ _ _ _ _ (truthy_nonempty_dict _ _ _ Hp Hne)).
    rewrite (bind_ok _ _ _ _ _ (py_get_dict _ _ _ _ _ Hp)).
    rewrite Hres. cbn [default].
    rewrite (bind_ok _ _ _ _ _ (py_contains_dict env _ _ _ _ Hr)).
    rewrite Habs.
    rewrite bool_decide_eq_false_2 by (intros [? ?]; discriminate).
    reflexivity. }
  split; [exact Hbody|]. split; [|split].
  - intros l o Hl. unfold st2. simpl.
    eapply store_grows_lookup; [|exact Hl].
    apply (respects_run store_grows _ _ _ _
             (parseProfileInclude_store_grows env _ _ _ _) Hparse).
  - unfold st2. simpl. rewrite errors_error. f_equal.
    eapply parseProfileInclude_found; [exact Hparse|discriminate].
  - intros rem q items i Hq Hi.
    erewrite for_items_step; [|apply (py_items_dict _ _ _ Hq)|reflexivity|exact Hi].
    now rewrite (bind_ok _ _ _ _ _ Hbody).
Qed.

(** C3, where the code and the claim part: a resource-scoped import whose
    profile was found but has no [Resources] member, or has [None] there,
    lacks the requested resource like any other, yet nothing is logged and
    nothing is skipped: [profile_data.get('Resources')] is [None], the
    test [resource_name in target_resources] raises [TypeError], and the
    loop over the [RequiredResourceProfile] ends with that exception, so
    the resolution is aborted.  The loop over [RequiredProfiles] reads the
    same member with [{}] as the default: for the same profile, when the
    member is absent, it gets an empty dictionary and goes on. *)
Theorem scoped_import_without_resources_raises
  merge directories online resource_name inner_object target_name info acc
  st lp st1 pitems :
  parseProfileInclude env target_name info directories online st = (Ok (VRef lp), st1) ->
  heap st1 !! lp = Some (ODict pitems) ->
  pitems <> [] ->
  default VNone (assoc_get "Resources" pitems) = VNone ->
  let body := resource_profile_step env merge directories online resource_name inner_object in
  body target_name info acc st = (Raise TypeError, st1)
  /\ errors (log st1) = errors (log st)
  /\ (forall rem q items i,
        heap st !! q = Some (ODict items) -> items !! i = Some (target_name, info) ->
        for_items (S rem) (VRef q) (length items) i body acc st
        = (Raise TypeError, st1))
  /\ (assoc_get "Resources" pitems = None ->
      py_get_or_empty (VRef lp) "Resources" st1
      = (Ok (VRef (length (heap st1))), with_heap (heap st1 ++ [ODict []]) st1)).
Proof.
  intros Hparse Hp Hne Hres body.
  assert (Hbody : body target_name info acc st = (Raise TypeError, st1)).
  { unfold body, resource_profile_step.
    rewrite (bind_ok _ _ _ _ _ Hparse).
    rewrite (bind_ok _ _ _ _ _ (truthy_nonempty_dict _ _ _ Hp Hne)).
    rewrite (bind_ok _ _ _ _ _ (py_get_dict _ _ _ _ _ Hp)).
    rewrite Hres. reflexivity. }
  split; [exact Hbody|]. split; [|split].
  - eapply parseProfileInclude_found; [exact Hparse|discriminate].
  - intros rem q items i Hq Hi.
    erewrite for_items_step; [|apply (py_items_dict _ _ _ Hq)|reflexivity|exact Hi].
    now rewrite (bind_raise _ _ _ _ _ Hbody).
  - intros Habs. unfold py_get_or_empty.
    rewrite (bind_ok _ _ _ _ _ (read_obj_ok _ _ _ Hp)).
    rewrite Habs. reflexivity.
Qed.

(** The resolver with remote lookup disabled sends nothing to the
    network. *)
Lemma getProfiles_offline_same_requests fuel profile directories chain :
  respects same_requests (getProfiles env fuel profile directories chain false).
Proof.
  apply (respects_getProfiles_at env same_requests) with (online := false);
    try (intros; reflexivity); auto;
    intros; apply parseProfileInclude_offline_same_requests.
Qed.

(** C10: in the loop over [RequiredProfiles], whatever the flag of the
    call, all the requests to the network made by the loop body are those
    of the lookup of the required profile itself: the recursive call for
    the profile found, where the profiles it requires in turn are looked
    up, sends none; and a call of the resolver with the flag off sends
    none at all. *)
Theorem transitive_dependencies_resolved_offline
  fuel profile directories chain online target_name info acc st :
  urlopens (trace (snd (required_profile_step env (getProfiles env fuel)
                          (dict_merge env fuel) profile directories chain online
                          target_name info acc st)))
  = urlopens (trace (snd (parseProfileInclude env target_name info directories online st)))
  /\ forall dependency,
       urlopens (trace (snd (getProfiles env fuel dependency directories chain false st)))
       = urlopens (trace st).
Proof.
  split.
  - destruct (parseProfileInclude env target_name info directories online st)
      as [[profile_data|e] st1] eqn:Hparse.
    + eapply (required_profile_step_after_lookup env same_requests);
        [ .. | exact Hparse ];
        first [ solve [intros; apply getProfiles_offline_same_requests]
              | solve [intros; apply respects_dict_merge; intros; reflexivity]
              | solve [intros; simpl; reflexivity] ].
    + unfold required_profile_step. now rewrite (bind_raise _ _ _ _ _ Hparse).
  - intros dependency. apply getProfiles_offline_same_requests.
Qed.

(** The resolver never removes or changes an entry of the cache. *)
Lemma getProfiles_cache_grows fuel profile directories chain online :
  respects cache_grows (getProfiles env fuel profile directories chain online).
Proof.
  apply (respects_getProfiles_at env cache_grows) with (online := online);
    first [ solve [intros; apply parseProfileInclude_cache_grows]
          | solve [intros st ? k v H; exact H]
          | solve [intros st ? ? k v H; exact H]
          | solve [auto] ].
Qed.

End Resolution.

(** * The locator and its cache *)

Section Locator.

Variable env : environment.

(** A lookup whose reference is a dictionary with a [MinVersion] that the
    codec accepts, for a name that is in the cache: the cached value is
    returned and nothing else happens. *)
Lemma parseProfileInclude_hit target_name li iitems directories online st min_version cached :
  heap st !! li = Some (ODict iitems) ->
  splitVersionString env (heap st) (default (VStr "1.0.0") (assoc_get "MinVersion" iitems))
  = Ok min_version ->
  profile_cache st !! (target_name +:+ ".json") = Some cached ->
  parseProfileInclude env target_name (VRef li) directories online st = (Ok cached, st).
Proof.
  intros Hi Hv Hc. rewrite parseProfileInclude_eq.
  rewrite (bind_ok _ _ _ _ _ (py_get_dict _ _ _ _ _ Hi)).
  unfold bind at 1, get_heap at 1. unfold bind at 1, lift at 1. rewrite Hv.
  unfold bind at 1, get_cache at 1. now rewrite Hc.
Qed.

(** Whatever a lookup returns is in the cache afterwards, under the name
    with the [.json] suffix. *)
Lemma parseProfileInclude_stores target_name info directories online st v st' :
  parseProfileInclude env target_name info directories online st = (Ok v, st') ->
  profile_cache st' !! (target_name +:+ ".json") = Some v.
Proof.
  rewrite parseProfileInclude_eq. intros H.
  apply bind_ok_inv in H. destruct H as (mv & st1 & Hmv & H).
  destruct (unchanged_run (py_get info "MinVersion" (VStr "1.0.0")) st
              (respects_py_get _ _ _ _)) as [r E].
  rewrite E in Hmv. inversion Hmv; subst r st1. clear Hmv E.
  unfold bind at 1, get_heap at 1 in H. unfold bind at 1, lift at 1 in H.
  destruct (splitVersionString env (heap st) mv) as [min_version|e]; [|discriminate].
  unfold bind at 1, get_cache at 1 in H.
  destruct (profile_cache st !! (target_name +:+ ".json")) eqn:Hc.
  - unfold ret in H. inversion H. now subst.
  - apply bind_ok_inv in H. destruct H as (data & st2 & Hloc & H).
    unfold bind, cache_store, ret in H. inversion H. subst. simpl.
    apply lookup_insert_eq.
Qed.

(** C6: the locator answers from the cache, keyed by the name with the
    [.json] suffix, without any other effect (so without reading a file or
    sending a request), also when the cached value is [None]; every value
    it returns is in the cache when it returns; hence once a name has been
    looked up, every later lookup of it, from any state whose cache still
    has the entries, returns the same value and does nothing; and neither
    a lookup nor a run of the resolver ever drops or changes an entry. *)
Theorem lookup_is_cached target_name directories online st :
  (forall li iitems min_version cached,
      heap st !! li = Some (ODict iitems) ->
      splitVersionString env (heap st)
        (default (VStr "1.0.0") (assoc_get "MinVersion" iitems)) = Ok min_version ->
      profile_cache st !! (target_name +:+ ".json") = Some cached ->
      parseProfileInclude env target_name (VRef li) directories online st = (Ok cached, st))
  /\ (forall info v st1,
        parseProfileInclude env target_name info directories online st = (Ok v, st1) ->
        profile_cache st1 !! (target_name +:+ ".json") = Some v
        /\ forall st2 li iitems min_version directories' online',
             cache_grows st1 st2 ->
             heap st2 !! li = Some (ODict iitems) ->
             splitVersionString env (heap st2)
               (default (VStr "1.0.0") (assoc_get "MinVersion" iitems)) = Ok min_version ->
             parseProfileInclude env target_name (VRef li) directories' online' st2
             = (Ok v, st2))
  /\ (forall other info,
        cache_grows st (snd (parseProfileInclude env other info directories online st)))
  /\ (forall fuel profile chain,
        cache_grows st (snd (getProfiles env fuel profile directories chain online st))).
Proof.
  split; [|split; [|split]].
  - intros. eapply parseProfileInclude_hit; eauto.
  - intros info v st1 H.
    pose proof (parseProfileInclude_stores _ _ _ _ _ _ _ H) as Hs.
    split; [exact Hs|].
    intros st2 li iitems min_version directories' online' Hgrow Hi Hv.
    eapply parseProfileInclude_hit; eauto.
  - intros. apply parseProfileInclude_cache_grows.
  - intros. apply getProfiles_cache_grows.
Qed.

Lemma urlopen_read_ok st u body :
  http_get env (trace st) u = Ok body ->
  urlopen_read env (VStr u) st = (Ok body, with_event (EvUrlopen u) st).
Proof.
  intros H. unfold urlopen_read, bind, get_trace, emit, lift. now rewrite H.
Qed.

(** A remote fetch that succeeds returns what the second request
    answered, as it came. *)
Lemma getProfileFromRepo_ok profilename repo st url page text filelist name body :
  repository_url repo = Some url ->
  http_get env (trace st) url = Ok page ->
  decode_utf8 env page = Ok text ->
  findall_versioned env profilename text = Ok filelist ->
  max_filename filelist = Some name ->
  http_get env (trace st ++ [EvUrlopen url]) (url +:+ "/" +:+ name) = Ok body ->
  getProfileFromRepo env profilename repo st
  = (Ok (VBytes body),
     with_event (EvUrlopen (url +:+ "/" +:+ name)) (with_event (EvUrlopen url) st)).
Proof.
  intros Hurl Hpage Htext Hlist Hmax Hbody.
  assert (Hrepo : match repo with VNone => VStr defaultrepository | _ => repo end = VStr url).
  { destruct repo; simpl in Hurl; try discriminate; now inversion Hurl. }
  unfold getProfileFromRepo, try_except. rewrite Hrepo.
  rewrite (bind_ok _ _ _ _ _ (urlopen_read_ok _ _ _ Hpage)).
  unfold bind at 1, lift at 1. rewrite Htext.
  unfold bind at 1, lift at 1. rewrite Hlist. rewrite Hmax.
  rewrite (bind_ok _ _ _ _ _
             (urlopen_read_ok (with_event (EvUrlopen url) st) _ _ Hbody)).
  reflexivity.
Qed.

(** C2, where the code and the claim part: with remote lookup allowed, a
    name that is not in the cache and a remote fetch that succeeds, the
    locator returns and caches the bytes of the answer, not a document
    built from them: the value is not a dictionary and has no [get]. *)
Theorem remote_profile_is_raw_bytes
  target_name li iitems directories st min_version url page text filelist name body :
  heap st !! li = Some (ODict iitems) ->
  splitVersionString env (heap st) (default (VStr "1.0.0") (assoc_get "MinVersion" iitems))
  = Ok min_version ->
  profile_cache st !! (target_name +:+ ".json") = None ->
  repository_url (default VNone (assoc_get "Repository" iitems)) = Some url ->
  http_get env (trace st) url = Ok page ->
  decode_utf8 env page = Ok text ->
  findall_versioned env (target_name +:+ ".json") text = Ok filelist ->
  max_filename filelist = Some name ->
  http_get env (trace st ++ [EvUrlopen url]) (url +:+ "/" +:+ name) = Ok body ->
  let st' :=
    with_cached (target_name +:+ ".json") (VBytes body)
      (with_event (EvUrlopen (url +:+ "/" +:+ name)) (with_event (EvUrlopen url) st)) in
  parseProfileInclude env target_name (VRef li) directories true st = (Ok (VBytes body), st')
  /\ is_dict (VBytes body) st' = (Ok false, st')
  /\ forall k d, py_get (VBytes body) k d st' = (Raise AttributeError, st').
Proof.
  intros Hi Hv Hc Hurl Hpage Htext Hlist Hmax Hbody st'.
  split; [|split; reflexivity].
  rewrite parseProfileInclude_eq.
  rewrite (bind_ok _ _ _ _ _ (py_get_dict _ _ _ _ _ Hi)).
  unfold bind at 1, get_heap at 1. unfold bind at 1, lift at 1. rewrite Hv.
  unfold bind at 1, get_cache at 1. rewrite Hc.
  unfold locate_uncached.
  rewrite bind_assoc.
  rewrite (bind_ok _ _ _ _ _ (py_get_dict _ _ _ _ _ Hi)).
  rewrite bind_assoc.
  rewrite (bind_ok _ _ _ _ _
             (getProfileFromRepo_ok _ _ _ _ _ _ _ _ _ Hurl Hpage Htext Hlist Hmax Hbody)).
  reflexivity.
Qed.

(** The file name kept among the matches is the greatest as a string, cut
    by one character: version 1.9.0 wins over version 1.10.0. *)
Example max_filename_is_lexicographic :
  max_filename ["B.v1_9_0.json"; "B.v1_10_0.json"] = Some "B.v1_9_0.jso".
Proof. reflexivity. Qed.

End Locator.

(** * Merging two lists *)

Section MergeLists.

Variable env : environment.

Lemma is_list_ok st l items :
  heap st !! l = Some (OList items) -> is_list (VRef l) st = (Ok true, st).
Proof.
  intros H. unfold is_list. now rewrite (bind_ok _ _ _ _ _ (read_obj_ok _ _ _ H)).
Qed.

Lemma is_dict_of_list st l items :
  heap st !! l = Some (OList items) -> is_dict (VRef l) st = (Ok false, st).
Proof.
  intros H. unfold is_dict. now rewrite (bind_ok _ _ _ _ _ (read_obj_ok _ _ _ H)).
Qed.

Lemma item_key_scalar st item :
  hashable item -> item_key item st = (Ok item, st).
Proof. destruct item; simpl; intros H; try reflexivity. destruct H. Qed.

(** On items that are not containers the loop of [merge_lists] computes
    the union in first-seen order. *)
Lemma merge_loop_scalars st items seen merged :
  Forall hashable items ->
  merge_loop items seen merged st = (Ok (merged ++ union_first_seen seen items), st).
Proof.
  intros H. revert seen merged.
  induction H as [|item rest Hitem Hrest IH]; intros seen merged; simpl.
  - unfold ret. now rewrite app_nil_r.
  - rewrite (bind_ok _ _ _ _ _ (item_key_scalar st item Hitem)).
    assert (Hh : hash_check item st = (Ok tt, st)) by (destruct item; auto; destruct Hitem).
    rewrite (bind_ok _ _ _ _ _ Hh).
    destruct (existsb (scalar_eq item) seen); rewrite IH; [reflexivity|].
    now rewrite <- app_assoc.
Qed.

Lemma item_key_of_list st l items :
  heap st !! l = Some (OList items) -> item_key (VRef l) st = (Ok (VRef l), st).
Proof.
  intros H. unfold item_key. now rewrite (bind_ok _ _ _ _ _ (is_dict_of_list _ _ _ H)).
Qed.

(** An item that is itself a list stops the loop with an exception. *)
Lemma merge_loop_nested_list st items seen merged :
  existsb (is_list_in (heap st)) items = true ->
  exists e, merge_loop items seen merged st = (Raise e, st).
Proof.
  revert seen merged.
  induction items as [|item rest IH]; intros seen merged H; simpl in *; [discriminate|].
  destruct (is_list_in (heap st) item) eqn:Hl.
  - destruct item; simpl in Hl; try discriminate.
    destruct (heap st !! l) as [[its|its]|] eqn:Hobj; try discriminate.
    rewrite (bind_ok _ _ _ _ _ (item_key_of_list _ _ _ Hobj)).
    exists TypeError. reflexivity.
  - simpl in H.
    destruct (unchanged_run (item_key item) st (respects_item_key _ _)) as [[k|e] E].
    2:{ exists e. now rewrite (bind_raise _ _ _ _ _ E). }
    rewrite (bind_ok _ _ _ _ _ E).
    destruct (unchanged_run (hash_check k) st (respects_hash_check _ _)) as [[[]|e] E2].
    2:{ exists e. now rewrite (bind_raise _ _ _ _ _ E2). }
    rewrite (bind_ok _ _ _ _ _ E2).
    destruct (existsb (scalar_eq k) seen); apply IH; exact H.
Qed.

Lemma merge_lists_nested_list st l1 l2 items1 items2 :
  heap st !! l1 = Some (OList items1) ->
  heap st !! l2 = Some (OList items2) ->
  existsb (is_list_in (heap st)) (items1 ++ items2) = true ->
  exists e, merge_lists (VRef l1) (VRef l2) st = (Raise e, st).
Proof.
  intros H1 H2 Hex. unfold merge_lists.
  assert (E1 : list_items (VRef l1) st = (Ok items1, st)).
  { unfold list_items. now rewrite (bind_ok _ _ _ _ _ (read_obj_ok _ _ _ H1)). }
  assert (E2 : list_items (VRef l2) st = (Ok items2, st)).
  { unfold list_items. now rewrite (bind_ok _ _ _ _ _ (read_obj_ok _ _ _ H2)). }
  rewrite (bind_ok _ _ _ _ _ E1), (bind_ok _ _ _ _ _ E2).
  destruct (merge_loop_nested_list st (items1 ++ items2) [] [] Hex) as [e E].
  exists e. now rewrite (bind_raise _ _ _ _ _ E).
Qed.

(** C8, where the code and the claim part: under a key without a rule of
    its own, two lists of which one holds a list as an item are not merged;
    the loop body raises and the destination keeps its own list. *)
Theorem nested_list_merge_raises self st l items k l1 l2 items1 items2 :
  heap st !! l = Some (ODict items) ->
  special_key k = false ->
  assoc_get k items = Some (VRef l1) ->
  heap st !! l1 = Some (OList items1) ->
  heap st !! l2 = Some (OList items2) ->
  existsb (is_list_in (heap st)) (items1 ++ items2) = true ->
  exists e, dict_merge_entry env self (VRef l) k (VRef l2) st = (Raise e, st).
Proof.
  intros Hl Hk Hold H1 H2 Hex.
  rewrite (dict_merge_entry_ordinary env _ _ _ _ _ _ _ Hl Hk Hold).
  rewrite (bind_ok _ _ _ _ _ (is_dict_of_list _ _ _ H1)).
  rewrite (bind_ok _ _ _ _ _ (is_dict_of_list _ _ _ H2)).
  cbn [andb].
  rewrite (bind_ok _ _ _ _ _ (is_list_ok _ _ _ H1)).
  rewrite (bind_ok _ _ _ _ _ (is_list_ok _ _ _ H2)).
  cbn [andb].
  destruct (merge_lists_nested_list st l1 l2 items1 items2 H1 H2 Hex) as [e E].
  exists e. now rewrite (bind_raise _ _ _ _ _ E).
Qed.

End MergeLists.

(** * Instances *)

Section Instances.

Variable env : environment.

(** The examples of the specification for the two requirement keys. *)
Example write_mandatory_supported :
  merged_field env (JObj [("WriteRequirement", JStr "Mandatory")])
                   (JObj [("WriteRequirement", JStr "Supported")])
                   "WriteRequirement"
  = Ok (VStr "Supported").
Proof. reflexivity. Qed.

Example read_mandatory_wins :
  merged_field env (JObj [("ReadRequirement", JStr "Recommended")])
                   (JObj [("ReadRequirement", JStr "Mandatory")])
                   "ReadRequirement"
  = Ok (VStr "Mandatory").
Proof. reflexivity. Qed.

Example read_absent_recommended :
  merged_field env (JObj []) (JObj [("ReadRequirement", JStr "Recommended")])
                   "ReadRequirement"
  = Ok VNone.
Proof. reflexivity. Qed.

(** The example of the specification for lists: [A, B] with [B, C]. *)
Example union_of_strings :
  merged_list env (JObj [("Values", JArr [JStr "A"; JStr "B"])])
                  (JObj [("Values", JArr [JStr "B"; JStr "C"])]) "Values"
  = Ok [VStr "A"; VStr "B"; VStr "C"].
Proof. reflexivity. Qed.

(** Two dictionaries with the same members in another order are one
    item. *)
Example union_of_dictionaries :
  merged_list env
    (JObj [("Values", JArr [JObj [("a", JInt 1); ("b", JInt 2)]])])
    (JObj [("Values", JArr [JObj [("b", JInt 2); ("a", JInt 1)]])]) "Values"
  = Ok [VRef 0].
Proof. reflexivity. Qed.

(** A list inside the lists. *)
Example union_of_nested_lists :
  merged_list env (JObj [("Values", JArr [JArr [JInt 1]])])
                  (JObj [("Values", JArr [JArr [JInt 2]])]) "Values"
  = Raise TypeError.
Proof. reflexivity. Qed.

(** A string that reads like the text of a dictionary counts as that
    dictionary. *)
Example union_of_dictionary_and_its_text :
  merged_list env
    (JObj [("Values", JArr [JObj [("a", JInt 1)]])])
    (JObj [("Values", JArr [JStr ("{" +:+ dquote +:+ "a" +:+ dquote +:+ ": 1}")])])
    "Values"
  = Ok [VRef 0].
Proof. reflexivity. Qed.

End Instances.

(** The scenario of the specification: [A] requires [B], both say
    something on [Chassis], and [A] asks for the [Fan] of [B], which [B]
    does not have.  The resolution returns, with one error logged. *)
Example resolve_A :
  let r := resolve_document sample_env 3 profile_A ["profiles"] false in
  fst r = Ok ([VRef 11], [])
  /\ log (snd r) = [(ERROR, MissingResource "B" "Fan")]
  /\ trace (snd r) = [EvGlob "profiles"; EvOpen "profiles/B.json"]
  /\ (chassis <- (resources <- py_getitem (VRef 7) "Resources" ;;
                  py_getitem resources "Chassis") ;;
      py_getitem chassis "ReadRequirement") (snd r)
     = (Ok (VStr "Mandatory"), snd r).
Proof. vm_compute. repeat split; reflexivity. Qed.

(** A profile that requires itself is resolved, with the cyclical-import
    error logged. *)
Example resolve_self_import :
  let r := resolve_document sample_env 2 profile_S ["profiles"] false in
  fst r = Ok ([VRef 6], [])
  /\ log (snd r) = [(ERROR, CyclicalImport (VRef 3) (VStr "S"))].
Proof. vm_compute. split; reflexivity. Qed.

(** The same request addressed to a profile that has no [Resources] at
    all ends the resolution: the missing dictionary is read as [None], on
    which [in] raises. *)
Example resolve_F :
  fst (resolve_document sample_env 3 profile_F ["profiles"] false) = Raise TypeError.
Proof. vm_compute. reflexivity. Qed.

(** With remote lookup allowed, [T] requires [N], which the repository
    does not list, and [N] requires [B], which it does: the index is asked
    once, for [N]; [B] is read from the directory. *)
Example resolve_T_online :
  let r := resolve_document sample_env 4 profile_T ["profiles"] true in
  fst r = Ok ([VRef 6; VRef 11], [])
  /\ trace (snd r)
     = [EvUrlopen "http://redfish.dmtf.org/profiles";
        EvGlob "profiles"; EvOpen "profiles/N.json";
        EvGlob "profiles"; EvOpen "profiles/B.json"].
Proof. vm_compute. split; reflexivity. Qed.

(** With remote lookup allowed and a repository that answers, the
    resolution of [A] stops on the bytes it got for [B]. *)
Example resolve_A_online :
  fst (resolve_document sample_env 3 profile_A ["profiles"] true) = Raise AttributeError.
Proof. vm_compute. reflexivity. Qed.

Lemma read_requirement_keeps_witness :
  heap supported_state !! 0 = Some (ODict [("ReadRequirement", VStr "Supported")])
  /\ (hierarchy_score (VStr "Supported") <> 4 /\ hierarchy_score (VStr "Recommended") <> 4)%Z
  /\ dict_merge_entry sample_env (dict_merge sample_env 0) (VRef 0)
       "ReadRequirement" (VStr "Recommended") supported_state
     = (Ok tt, supported_state).
Proof.
  split; [reflexivity|]. split; [split; discriminate|].
  apply (read_requirement_keeps_destination sample_env (dict_merge sample_env 0)
           supported_state 0 [("ReadRequirement", VStr "Supported")]
           (VStr "Supported") (VStr "Recommended") eq_refl eq_refl I I);
    discriminate.
Defined.

Lemma read_requirement_absent_witness :
  heap read_state !! 0 = Some (ODict [("MinCount", VInt 1)])
  /\ assoc_get "ReadRequirement" [("MinCount", VInt 1)] = None
  /\ dict_merge sample_env 1 (VRef 0) (VRef 1) read_state
     = (Ok tt,
        with_heap (<[0:=ODict ([("MinCount", VInt 1)] ++ [("ReadRequirement", VNone)])]>
                     (heap read_state)) read_state).
Proof.
  split; [reflexivity|]. split; [reflexivity|].
  apply (read_requirement_absent_becomes_none sample_env 0 (dict_merge sample_env 0)
           read_state 0 1 [("MinCount", VInt 1)] (VStr "Recommended")
           eq_refl eq_refl).
  - discriminate.
  - reflexivity.
Defined.

Lemma write_requirement_witness :
  heap write_state !! 0 = Some (ODict [("WriteRequirement", VStr "Mandatory")])
  /\ hashable (VStr "Mandatory") /\ hashable (VStr "Supported")
  /\ exists r,
       dict_merge_entry sample_env (dict_merge sample_env 0) (VRef 0)
         "WriteRequirement" (VStr "Supported") write_state
       = (Ok tt,
          with_heap (<[0:=ODict (assoc_set "WriteRequirement" r
                                   [("WriteRequirement", VStr "Mandatory")])]>
                       (heap write_state)) write_state)
       /\ (r = VStr "Mandatory" \/ r = VStr "Supported")
       /\ hierarchy_score r = Z.min 4 1.
Proof.
  split; [reflexivity|]. split; [exact I|]. split; [exact I|].
  exact (write_requirement_least_restrictive sample_env (dict_merge sample_env 0)
           write_state 0 [("WriteRequirement", VStr "Mandatory")] (VStr "Supported")
           eq_refl I I).
Defined.

Lemma type_conflict_witness :
  heap conflict_state !! 0 = Some (ODict [("Version", VInt 1)])
  /\ special_key "Version" = false
  /\ assoc_get "Version" [("Version", VInt 1)] = Some (VInt 1)
  /\ type_name (VInt 1) conflict_state = (Ok "int", conflict_state)
  /\ type_name (VStr "1") conflict_state = (Ok "str", conflict_state)
  /\ "int" <> "str"
  /\ dict_merge_entry sample_env (dict_merge sample_env 0) (VRef 0)
       "Version" (VStr "1") conflict_state
     = (Ok tt, with_logged WARNING (TypeConflict "Version" "int" "str") conflict_state).
Proof.
  repeat (split; [first [reflexivity | discriminate]|]).
  apply (type_conflict_keeps_destination sample_env (dict_merge sample_env 0)
           conflict_state 0 [("Version", VInt 1)] "Version" (VInt 1) (VStr "1")
           "int" "str" eq_refl eq_refl eq_refl eq_refl eq_refl).
  discriminate.
Defined.

Lemma cyclical_import_witness :
  heap chain_state !! 0 = Some (ODict [("ProfileName", VStr "A")])
  /\ heap chain_state !! 1 = Some (OList [VStr "A"])
  /\ existsb (fun e => py_eq sample_env (heap chain_state) e (VStr "A")) [VStr "A"] = true
  /\ getProfiles sample_env 1 (VRef 0) ["profiles"] (VRef 1) true chain_state
     = (Ok ([], []), with_logged ERROR (CyclicalImport (VRef 1) (VStr "A")) chain_state).
Proof.
  repeat (split; [reflexivity|]).
  apply (cyclical_import_returns_at_once sample_env 0 chain_state 0
           [("ProfileName", VStr "A")] 1 [VStr "A"] ["profiles"] true
           eq_refl eq_refl eq_refl).
Defined.

Lemma missing_resource_witness :
  let found := parseProfileInclude sample_env "B" (VRef 0) ["profiles"] false reference_state in
  found = (Ok (VRef 3), snd found)
  /\ heap (snd found) !! 3 = Some (ODict [("ProfileName", VStr "B"); ("Resources", VRef 2)])
  /\ heap (snd found) !! 2 = Some (ODict [("Chassis", VRef 1)])
  /\ assoc_get "Fan" [("Chassis", VRef 1)] = None
  /\ resource_profile_step sample_env (dict_merge sample_env 0) ["profiles"] false
       "Fan" (VRef 0) "B" (VRef 0) [] reference_state
     = (Ok [], with_logged ERROR (MissingResource "B" "Fan") (snd found)).
Proof.
  intros found.
  assert (H1 : found = (Ok (VRef 3), snd found)) by (vm_compute; reflexivity).
  assert (H2 : heap (snd found) !! 3
               = Some (ODict [("ProfileName", VStr "B"); ("Resources", VRef 2)]))
    by (vm_compute; reflexivity).
  assert (H3 : heap (snd found) !! 2 = Some (ODict [("Chassis", VRef 1)]))
    by (vm_compute; reflexivity).
  repeat (split; [first [exact H1 | exact H2 | exact H3 | reflexivity]|]).
  apply (missing_resource_is_logged_and_skipped sample_env (dict_merge sample_env 0)
           ["profiles"] false "Fan" (VRef 0) "B" (VRef 0) [] reference_state
           3 (snd found) [("ProfileName", VStr "B"); ("Resources", VRef 2)]
           2 [("Chassis", VRef 1)] H1 H2 eq_refl H3 eq_refl).
Defined.

Lemma scoped_import_witness :
  let found := parseProfileInclude sample_env "N" (VRef 0) ["profiles"] false reference_state in
  found = (Ok (VRef 3), snd found)
  /\ heap (snd found) !! 3
     = Some (ODict [("ProfileName", VStr "N"); ("RequiredProfiles", VRef 2)])
  /\ assoc_get "Resources" [("ProfileName", VStr "N"); ("RequiredProfiles", VRef 2)] = None
  /\ resource_profile_step sample_env (dict_merge sample_env 0) ["profiles"] false
       "Fan" (VRef 0) "N" (VRef 0) [] reference_state
     = (Raise TypeError, snd found)
  /\ log (snd found) = [].
Proof.
  intros found.
  assert (H1 : found = (Ok (VRef 3), snd found)) by (vm_compute; reflexivity).
  assert (H2 : heap (snd found) !! 3
               = Some (ODict [("ProfileName", VStr "N"); ("RequiredProfiles", VRef 2)]))
    by (vm_compute; reflexivity).
  split; [exact H1|]. split; [exact H2|]. split; [reflexivity|].
  split; [|vm_compute; reflexivity].
  apply (scoped_import_without_resources_raises sample_env (dict_merge sample_env 0)
           ["profiles"] false "Fan" (VRef 0) "N" (VRef 0) [] reference_state
           3 (snd found) [("ProfileName", VStr "N"); ("RequiredProfiles", VRef 2)]
           H1 H2 ltac:(discriminate) eq_refl).
Defined.

Lemma lookup_is_cached_witness :
  heap cached_state !! 0 = Some (ODict [])
  /\ splitVersionString sample_env (heap cached_state) (VStr "1.0.0") = Ok (1, 0, 0)%Z
  /\ profile_cache cached_state !! "B.json" = Some VNone
  /\ parseProfileInclude sample_env "B" (VRef 0) ["profiles"] true cached_state
     = (Ok VNone, cached_state).
Proof.
  repeat (split; [vm_compute; reflexivity|]).
  apply (proj1 (lookup_is_cached sample_env "B" ["profiles"] true cached_state)
           0 [] (1, 0, 0)%Z VNone); vm_compute; reflexivity.
Defined.

Lemma remote_profile_witness :
  heap reference_state !! 0 = Some (ODict [])
  /\ profile_cache reference_state !! "B.json" = None
  /\ http_get sample_env [] "http://redfish.dmtf.org/profiles" = Ok "index"
  /\ http_get sample_env [EvUrlopen "http://redfish.dmtf.org/profiles"]
       "http://redfish.dmtf.org/profiles/B.v1_0_0.jso" = Ok "{}"
  /\ fst (parseProfileInclude sample_env "B" (VRef 0) ["profiles"] true reference_state)
     = Ok (VBytes "{}").
Proof.
  repeat (split; [vm_compute; reflexivity|]).
  rewrite (proj1 (remote_profile_is_raw_bytes sample_env "B" 0 [] ["profiles"]
                    reference_state (1, 0, 0)%Z "http://redfish.dmtf.org/profiles"
                    "index" "index" ["B.v1_0_0.json"] "B.v1_0_0.jso" "{}"
                    eq_refl eq_refl eq_refl eq_refl eq_refl eq_refl eq_refl eq_refl
                    eq_refl)).
  reflexivity.
Defined.

Lemma nested_list_witness :
  heap nested_state !! 0 = Some (ODict [("Values", VRef 2)])
  /\ heap nested_state !! 2 = Some (OList [VRef 1])
  /\ heap nested_state !! 4 = Some (OList [VRef 3])
  /\ existsb (is_list_in (heap nested_state)) ([VRef 1] ++ [VRef 3]) = true
  /\ exists e,
       dict_merge_entry sample_env (dict_merge sample_env 0) (VRef 0)
         "Values" (VRef 4) nested_state = (Raise e, nested_state).
Proof.
  repeat (split; [reflexivity|]).
  exact (nested_list_merge_raises sample_env (dict_merge sample_env 0) nested_state
           0 [("Values", VRef 2)] "Values" 2 4 [VRef 1] [VRef 3]
           eq_refl eq_refl eq_refl eq_refl eq_refl eq_refl).
Defined.

(** * Further properties of the merge *)

Section MergeEntries.

Variable env : environment.

Lemma requirement_key_false k :
  requirement_key k = false ->
  String.eqb k "ReadRequirement" = false /\ String.eqb k "WriteRequirement" = false.
Proof. unfold requirement_key. intros H. now apply orb_false_elim in H. Qed.

(** The loop body on one of the four keys with a comparison rule, when the
    destination already has the key. *)
Lemma dict_merge_entry_present self st l items k old v :
  heap st !! l = Some (ODict items) ->
  In k ["MinVersion"; "MaxVersion"; "MinCount"; "MaxCount"] ->
  assoc_get k items = Some old ->
  dict_merge_entry env self (VRef l) k v st
  = (r <- (if String.eqb k "MinVersion" then compare_versions env old v true
           else if String.eqb k "MaxVersion" then compare_versions env old v false
           else if String.eqb k "MinCount" then py_max env old v
           else py_min env old v) ;;
     py_setitem (VRef l) k r) st.
Proof.
  intros Hl Hk Hold.
  assert (E : dict_merge_entry env self (VRef l) k v
              = (present <- py_contains env (VRef l) (VStr k) ;;
                 if negb present then py_setitem (VRef l) k v
                 else
                   old <- py_getitem (VRef l) k ;;
                   r <- (if String.eqb k "MinVersion" then compare_versions env old v true
                         else if String.eqb k "MaxVersion" then compare_versions env old v false
                         else if String.eqb k "MinCount" then py_max env old v
                         else py_min env old v) ;;
                   py_setitem (VRef l) k r)).
  { simpl in Hk. destruct Hk as [<-|[<-|[<-|[<-|[]]]]]; reflexivity. }
  rewrite E.
  rewrite (bind_ok _ _ _ _ _ (py_contains_dict env _ _ _ _ Hl)).
  rewrite Hold. rewrite bool_decide_eq_true_2 by eauto. cbn [negb].
  now rewrite (bind_ok _ _ _ _ _ (py_getitem_dict _ _ _ _ _ Hl Hold)).
Qed.

(** X1: a key other than [ReadRequirement] and [WriteRequirement] that the
    destination lacks is added at the end of the destination with the
    source's value itself (for a container, the same object, not a copy),
    whatever the key and the value: no comparison is made and the codec
    is not called. *)
Theorem absent_key_is_copied self st l items k v :
  heap st !! l = Some (ODict items) ->
  requirement_key k = false ->
  assoc_get k items = None ->
  let st' := with_heap (<[l:=ODict (items ++ [(k, v)])]> (heap st)) st in
  dict_merge_entry env self (VRef l) k v st = (Ok tt, st')
  /\ py_getitem (VRef l) k st' = (Ok v, st')
  /\ forall k' v', assoc_get k' items = Some v' ->
       py_getitem (VRef l) k' st' = (Ok v', st').
Proof.
  intros Hl Hk Habs st'.
  destruct (requirement_key_false _ Hk) as [E1 E2].
  assert (Hlen : l < length (heap st)) by (eapply lookup_lt_Some; eauto).
  assert (Hl' : heap st' !! l = Some (ODict (items ++ [(k, v)]))).
  { unfold st'. simpl. now apply list_lookup_insert_eq. }
  split; [|split].
  - unfold dict_merge_entry. rewrite E1, E2. cbn [orb].
    rewrite (bind_ok _ _ _ _ _ (py_contains_dict env _ _ _ _ Hl)).
    rewrite Habs. rewrite bool_decide_eq_false_2 by (intros [? ?]; discriminate).
    cbn [negb]. rewrite (py_setitem_dict _ _ _ _ _ Hl).
    now rewrite (assoc_set_fresh _ _ _ Habs).
  - eapply py_getitem_dict; [exact Hl'|].
    rewrite <- (assoc_set_fresh _ v _ Habs). apply assoc_get_set_eq.
  - intros k' v' Hk'. eapply py_getitem_dict; [exact Hl'|].
    rewrite <- (assoc_set_fresh _ v _ Habs).
    rewrite assoc_get_set_ne; [exact Hk'|]. intros <-. congruence.
Qed.

(** X2: for two integer counts the destination gets the greater one under
    [MinCount] and the smaller one under [MaxCount]. *)
Theorem counts_keep_most_restrictive self st l items a b :
  heap st !! l = Some (ODict items) ->
  (assoc_get "MinCount" items = Some (VInt a) ->
   dict_merge_entry env self (VRef l) "MinCount" (VInt b) st
   = (Ok tt, with_heap (<[l:=ODict (assoc_set "MinCount" (VInt (Z.max a b)) items)]>
                          (heap st)) st))
  /\ (assoc_get "MaxCount" items = Some (VInt a) ->
      dict_merge_entry env self (VRef l) "MaxCount" (VInt b) st
      = (Ok tt, with_heap (<[l:=ODict (assoc_set "MaxCount" (VInt (Z.min a b)) items)]>
                             (heap st)) st)).
Proof.
  intros Hl. split; intros Hold.
  - rewrite (dict_merge_entry_present self _ _ _ _ _ _ Hl (or_intror (or_intror (or_introl eq_refl))) Hold).
    change (String.eqb "MinCount" "MinVersion") with false.
    change (String.eqb "MinCount" "MaxVersion") with false.
    change (String.eqb "MinCount" "MinCount") with true. cbv iota.
    unfold py_max, py_lt. cbn [num].
    rewrite (bind_ok _ _ _ (if Z.ltb a b then VInt b else VInt a) st).
    + rewrite (py_setitem_dict _ _ _ _ _ Hl).
      destruct (Z.ltb_spec a b); [rewrite Z.max_r by lia|rewrite Z.max_l by lia]; reflexivity.
    + reflexivity.
  - rewrite (dict_merge_entry_present self _ _ _ _ _ _ Hl (or_intror (or_intror (or_intror (or_introl eq_refl)))) Hold).
    change (String.eqb "MaxCount" "MinVersion") with false.
    change (String.eqb "MaxCount" "MaxVersion") with false.
    change (String.eqb "MaxCount" "MinCount") with false. cbv iota.
    unfold py_min, py_lt. cbn [num].
    rewrite (bind_ok _ _ _ (if Z.ltb b a then VInt b else VInt a) st).
    + rewrite (py_setitem_dict _ _ _ _ _ Hl).
      destruct (Z.ltb_spec b a); [rewrite Z.min_r by lia|rewrite Z.min_l by lia]; reflexivity.
    + reflexivity.
Qed.

(** X3: a count that is [None] on either side, under a count key that the
    destination has, makes the loop body raise [TypeError]; the destination
    is not changed. *)
Theorem null_count_raises self st l items k old v :
  heap st !! l = Some (ODict items) ->
  k = "MinCount" \/ k = "MaxCount" ->
  assoc_get k items = Some old ->
  old = VNone \/ v = VNone ->
  dict_merge_entry env self (VRef l) k v st = (Raise TypeError, st).
Proof.
  intros Hl Hk Hold Hnone.
  assert (Hlt : forall x y, x = VNone \/ y = VNone -> py_lt env x y st = (Raise TypeError, st)).
  { intros x y [-> | ->]; [now destruct y|now destruct x]. }
  destruct Hk as [-> | ->].
  - rewrite (dict_merge_entry_present self _ _ _ _ _ _ Hl (or_intror (or_intror (or_introl eq_refl))) Hold).
    change (String.eqb "MinCount" "MinVersion") with false.
    change (String.eqb "MinCount" "MaxVersion") with false.
    change (String.eqb "MinCount" "MinCount") with true. cbv iota.
    assert (Hmax : py_max env old v st = (Raise TypeError, st)).
    { unfold py_max. now rewrite (bind_raise _ _ _ _ _ (Hlt old v Hnone)). }
    now rewrite (bind_raise _ _ _ _ _ Hmax).
  - rewrite (dict_merge_entry_present self _ _ _ _ _ _ Hl (or_intror (or_intror (or_intror (or_introl eq_refl)))) Hold).
    change (String.eqb "MaxCount" "MinVersion") with false.
    change (String.eqb "MaxCount" "MaxVersion") with false.
    change (String.eqb "MaxCount" "MinCount") with false. cbv iota.
    assert (Hnone' : v = VNone \/ old = VNone) by tauto.
    assert (Hmin : py_min env old v st = (Raise TypeError, st)).
    { unfold py_min. now rewrite (bind_raise _ _ _ _ _ (Hlt v old Hnone')). }
    now rewrite (bind_raise _ _ _ _ _ Hmin).
Qed.

Lemma version_lt_spec a b :
  version_lt a b = true <->
  (a.1.1 < b.1.1
   \/ (a.1.1 = b.1.1 /\ (a.1.2 < b.1.2 \/ (a.1.2 = b.1.2 /\ a.2 < b.2))))%Z.
Proof.
  destruct a as [[a1 a2] a3], b as [[b1 b2] b3]. unfold version_lt. simpl.
  rewrite !orb_true_iff, !andb_true_iff, !orb_true_iff, !andb_true_iff.
  rewrite !Z.ltb_lt, !Z.eqb_eq. tauto.
Qed.

Lemma version_lt_false a b :
  version_lt a b = false <->
  ~ (a.1.1 < b.1.1
     \/ (a.1.1 = b.1.1 /\ (a.1.2 < b.1.2 \/ (a.1.2 = b.1.2 /\ a.2 < b.2))))%Z.
Proof.
  rewrite <- version_lt_spec. destruct (version_lt a b); split; congruence.
Qed.

Lemma version_lt_irrefl a : version_lt a a = false.
Proof. apply version_lt_false. lia. Qed.

Lemma version_lt_asym a b : version_lt a b = true -> version_lt b a = false.
Proof. rewrite version_lt_spec, version_lt_false. lia. Qed.

Lemma version_lt_trans a b c :
  version_lt a b = true -> version_lt b c = true -> version_lt a c = true.
Proof. rewrite !version_lt_spec. lia. Qed.

Lemma compare_versions_some old v use_max :
  old <> VNone -> v <> VNone ->
  compare_versions env old v use_max
  = (k1 <- version_key env old ;;
     k2 <- version_key env v ;;
     if use_max
     then ret (if version_lt k1 k2 then v else old)
     else ret (if version_lt k2 k1 then v else old)).
Proof.
  intros Ho Hv. destruct old; try congruence; destruct v; try congruence; reflexivity.
Qed.

(** X4: under [MinVersion] the destination gets one of the two versions,
    one that the codec does not rank below either of them; under
    [MaxVersion], one that it does not rank above either of them; on a tie
    the destination's stays. *)
Theorem versions_keep_most_restrictive self st l items old v k1 k2 :
  heap st !! l = Some (ODict items) ->
  old <> VNone -> v <> VNone ->
  version_key env old st = (Ok k1, st) ->
  version_key env v st = (Ok k2, st) ->
  (assoc_get "MinVersion" items = Some old ->
   exists r kr,
     dict_merge_entry env self (VRef l) "MinVersion" v st
     = (Ok tt, with_heap (<[l:=ODict (assoc_set "MinVersion" r items)]> (heap st)) st)
     /\ (r = old \/ r = v)
     /\ version_key env r st = (Ok kr, st)
     /\ version_lt kr k1 = false /\ version_lt kr k2 = false)
  /\ (assoc_get "MaxVersion" items = Some old ->
      exists r kr,
        dict_merge_entry env self (VRef l) "MaxVersion" v st
        = (Ok tt, with_heap (<[l:=ODict (assoc_set "MaxVersion" r items)]> (heap st)) st)
        /\ (r = old \/ r = v)
        /\ version_key env r st = (Ok kr, st)
        /\ version_lt k1 kr = false /\ version_lt k2 kr = false).
Proof.
  intros Hl Ho Hv Hk1 Hk2. split; intros Hold.
  - exists (if version_lt k1 k2 then v else old), (if version_lt k1 k2 then k2 else k1).
    split; [|split; [|split; [|split]]].
    + rewrite (dict_merge_entry_present self _ _ _ _ _ _ Hl (or_introl eq_refl) Hold).
      change (String.eqb "MinVersion" "MinVersion") with true. cbv iota.
      assert (Hc : compare_versions env old v true st
                   = (Ok (if version_lt k1 k2 then v else old), st)).
      { rewrite (compare_versions_some _ _ _ Ho Hv).
        rewrite (bind_ok _ _ _ _ _ Hk1). now rewrite (bind_ok _ _ _ _ _ Hk2). }
      rewrite (bind_ok _ _ _ _ _ Hc). now rewrite (py_setitem_dict _ _ _ _ _ Hl).
    + destruct (version_lt k1 k2); auto.
    + destruct (version_lt k1 k2); auto.
    + destruct (version_lt k1 k2) eqn:E; [now apply version_lt_asym|apply version_lt_irrefl].
    + destruct (version_lt k1 k2) eqn:E; [apply version_lt_irrefl|exact E].
  - exists (if version_lt k2 k1 then v else old), (if version_lt k2 k1 then k2 else k1).
    split; [|split; [|split; [|split]]].
    + rewrite (dict_merge_entry_present self _ _ _ _ _ _ Hl
                 (or_intror (or_introl eq_refl)) Hold).
      change (String.eqb "MaxVersion" "MinVersion") with false.
      change (String.eqb "MaxVersion" "MaxVersion") with true. cbv iota.
      assert (Hc : compare_versions env old v false st
                   = (Ok (if version_lt k2 k1 then v else old), st)).
      { rewrite (compare_versions_some _ _ _ Ho Hv).
        rewrite (bind_ok _ _ _ _ _ Hk1). now rewrite (bind_ok _ _ _ _ _ Hk2). }
      rewrite (bind_ok _ _ _ _ _ Hc). now rewrite (py_setitem_dict _ _ _ _ _ Hl).
    + destruct (version_lt k2 k1); auto.
    + destruct (version_lt k2 k1); auto.
    + destruct (version_lt k2 k1) eqn:E; [now apply version_lt_asym|apply version_lt_irrefl].
    + destruct (version_lt k2 k1) eqn:E; [apply version_lt_irrefl|exact E].
Qed.

(** X5: a version that is [None] gives way to the other one without the
    codec being called: when the destination's is [None] the source's is
    stored as it is, and when the source's is [None] the destination is
    left as it is. *)
Theorem null_version_gives_way self st l items k old v :
  heap st !! l = Some (ODict items) ->
  k = "MinVersion" \/ k = "MaxVersion" ->
  assoc_get k items = Some old ->
  (old = VNone ->
   dict_merge_entry env self (VRef l) k v st
   = (Ok tt, with_heap (<[l:=ODict (assoc_set k v items)]> (heap st)) st))
  /\ (v = VNone -> dict_merge_entry env self (VRef l) k v st = (Ok tt, st)).
Proof.
  intros Hl Hk Hold.
  assert (Hin : In k ["MinVersion"; "MaxVersion"; "MinCount"; "MaxCount"])
    by (destruct Hk as [-> | ->]; simpl; auto).
  assert (Hrule : forall r,
             (forall m, compare_versions env old v m st = (Ok r, st)) ->
             dict_merge_entry env self (VRef l) k v st
             = (Ok tt, with_heap (<[l:=ODict (assoc_set k r items)]> (heap st)) st)).
  { intros r Hr. rewrite (dict_merge_entry_present self _ _ _ _ _ _ Hl Hin Hold).
    destruct Hk as [-> | ->].
    - change (String.eqb "MinVersion" "MinVersion") with true. cbv iota.
      rewrite (bind_ok _ _ _ _ _ (Hr true)). now rewrite (py_setitem_dict _ _ _ _ _ Hl).
    - change (String.eqb "MaxVersion" "MinVersion") with false.
      change (String.eqb "MaxVersion" "MaxVersion") with true. cbv iota.
      rewrite (bind_ok _ _ _ _ _ (Hr false)). now rewrite (py_setitem_dict _ _ _ _ _ Hl). }
  split.
  - intros ->. apply Hrule. reflexivity.
  - intros ->. rewrite (Hrule old).
    + rewrite (assoc_set_same _ _ _ Hold).
      rewrite list_insert_id by exact Hl. now rewrite with_heap_same.
    + intros m. now destruct old.
Qed.

End MergeEntries.

(** * Further properties of the merge of lists *)

Section MergeListsMore.

Lemma scalar_eq_sym a b : scalar_eq a b = scalar_eq b a.
Proof.
  destruct a, b; simpl; try reflexivity;
    try apply Z.eqb_sym; try apply String.eqb_sym;
    try (destruct b, b0; reflexivity);
    try (destruct b; apply Z.eqb_sym).
Qed.

Lemma scalar_eq_refl a : hashable a -> scalar_eq a a = true.
Proof.
  destruct a; simpl; intros H; try reflexivity.
  - apply Z.eqb_refl.
  - apply Z.eqb_refl.
  - apply String.eqb_refl.
  - apply String.eqb_refl.
  - destruct H.
Qed.

Lemma union_first_seen_fresh seen items y :
  In y (union_first_seen seen items) ->
  In y items /\ existsb (scalar_eq y) seen = false.
Proof.
  revert seen. induction items as [|x rest IH]; intros seen H; simpl in *; [tauto|].
  destruct (existsb (scalar_eq x) seen) eqn:E.
  - destruct (IH _ H). auto.
  - destruct H as [<- | H]; [auto|].
    destruct (IH _ H) as [Hin Hex]. split; [auto|].
    rewrite existsb_app in Hex. now apply orb_false_elim in Hex.
Qed.

Lemma union_first_seen_distinct seen items :
  pairwise_distinct (union_first_seen seen items) = true.
Proof.
  revert seen. induction items as [|x rest IH]; intros seen; simpl; [reflexivity|].
  destruct (existsb (scalar_eq x) seen) eqn:E; [apply IH|].
  simpl. rewrite IH, andb_true_r. apply negb_true_iff.
  destruct (existsb (scalar_eq x) (union_first_seen (seen ++ [x]) rest)) eqn:Ex;
    [|reflexivity].
  apply existsb_exists in Ex. destruct Ex as (y & Hy & Hxy).
  apply union_first_seen_fresh in Hy. destruct Hy as [_ Hy].
  rewrite existsb_app in Hy. apply orb_false_elim in Hy. destruct Hy as [_ Hy].
  simpl in Hy. rewrite orb_false_r in Hy. rewrite scalar_eq_sym in Hy. congruence.
Qed.

Lemma union_first_seen_covers seen items x :
  Forall hashable items -> In x items ->
  existsb (scalar_eq x) seen = true
  \/ existsb (scalar_eq x) (union_first_seen seen items) = true.
Proof.
  intros Hh. revert seen. induction Hh as [|y rest Hy Hrest IH]; intros seen Hin;
    simpl in *; [tauto|].
  destruct (existsb (scalar_eq y) seen) eqn:E.
  - destruct Hin as [<- | Hin]; [auto|]. now apply IH.
  - destruct Hin as [<- | Hin].
    + right. simpl. now rewrite scalar_eq_refl.
    + destruct (IH (seen ++ [y]) Hin) as [H | H].
      * rewrite existsb_app in H. apply orb_true_iff in H. destruct H as [H | H]; [auto|].
        right. simpl in *. rewrite orb_false_r in H. now rewrite H.
      * right. simpl. rewrite H. apply orb_true_r.
Qed.

Lemma union_first_seen_prefix seen items1 items2 :
  pairwise_distinct items1 = true ->
  (forall y, In y items1 -> existsb (scalar_eq y) seen = false) ->
  union_first_seen seen (items1 ++ items2)
  = items1 ++ union_first_seen (seen ++ items1) items2.
Proof.
  revert seen. induction items1 as [|x rest IH]; intros seen Hd Hs; simpl.
  - now rewrite app_nil_r.
  - simpl in Hd. apply andb_true_iff in Hd. destruct Hd as [Hx Hd].
    apply negb_true_iff in Hx.
    rewrite (Hs x) by (now left). f_equal.
    rewrite (IH (seen ++ [x]) Hd).
    + now rewrite <- app_assoc.
    + intros y Hy. rewrite existsb_app. rewrite (Hs y) by (now right). simpl.
      rewrite orb_false_r.
      destruct (scalar_eq y x) eqn:E; [|reflexivity].
      rewrite scalar_eq_sym in E.
      assert (existsb (scalar_eq x) rest = true)
        by (apply existsb_exists; eauto).
      congruence.
Qed.

Lemma union_first_seen_all_seen seen items :
  (forall y, In y items -> existsb (scalar_eq y) seen = true) ->
  union_first_seen seen items = [].
Proof.
  induction items as [|x rest IH]; intros H; simpl; [reflexivity|].
  rewrite (H x) by (now left). apply IH. intros y Hy. apply H. now right.
Qed.

Lemma merge_lists_scalars st l1 l2 items1 items2 :
  heap st !! l1 = Some (OList items1) ->
  heap st !! l2 = Some (OList items2) ->
  Forall hashable (items1 ++ items2) ->
  merge_lists (VRef l1) (VRef l2) st
  = (Ok (VRef (length (heap st))),
     with_heap (heap st ++ [OList (union_first_seen [] (items1 ++ items2))]) st).
Proof.
  intros H1 H2 Hh. unfold merge_lists.
  assert (E1 : list_items (VRef l1) st = (Ok items1, st)).
  { unfold list_items. now rewrite (bind_ok _ _ _ _ _ (read_obj_ok _ _ _ H1)). }
  assert (E2 : list_items (VRef l2) st = (Ok items2, st)).
  { unfold list_items. now rewrite (bind_ok _ _ _ _ _ (read_obj_ok _ _ _ H2)). }
  rewrite (bind_ok _ _ _ _ _ E1), (bind_ok _ _ _ _ _ E2).
  rewrite (bind_ok _ _ _ _ _ (merge_loop_scalars st _ [] [] Hh)).
  reflexivity.
Qed.

(** X6: two lists whose items are scalars are merged into a new list
    object; the two lists themselves are left as they are; the new list
    has no two equal items, and every item of either list has an equal in
    it. *)
Theorem merge_lists_is_a_union st l1 l2 items1 items2 :
  heap st !! l1 = Some (OList items1) ->
  heap st !! l2 = Some (OList items2) ->
  Forall hashable (items1 ++ items2) ->
  exists merged st',
    merge_lists (VRef l1) (VRef l2) st = (Ok (VRef (length (heap st))), st')
    /\ heap st' = heap st ++ [OList merged]
    /\ pairwise_distinct merged = true
    /\ (forall x, In x merged -> In x (items1 ++ items2))
    /\ (forall x, In x (items1 ++ items2) -> existsb (scalar_eq x) merged = true).
Proof.
  intros H1 H2 Hh.
  exists (union_first_seen [] (items1 ++ items2)).
  eexists. split; [apply (merge_lists_scalars st l1 l2 items1 items2 H1 H2 Hh)|].
  split; [reflexivity|]. split; [apply union_first_seen_distinct|]. split.
  - intros x Hx. now apply union_first_seen_fresh in Hx.
  - intros x Hx.
    destruct (union_first_seen_covers [] _ x Hh Hx) as [H | H]; [discriminate|exact H].
Qed.

(** X7: when the first list has no two equal items, the merged list
    starts with the first list as it is, followed by the items of the
    second list that are new; so merging with a list that brings nothing
    new, the list itself for one, gives a list with the same items in the
    same order. *)
Theorem merge_lists_keeps_first_list st l1 l2 items1 items2 :
  heap st !! l1 = Some (OList items1) ->
  heap st !! l2 = Some (OList items2) ->
  Forall hashable (items1 ++ items2) ->
  pairwise_distinct items1 = true ->
  exists added,
    merge_lists (VRef l1) (VRef l2) st
    = (Ok (VRef (length (heap st))),
       with_heap (heap st ++ [OList (items1 ++ added)]) st)
    /\ (forall x, In x added -> In x items2 /\ existsb (scalar_eq x) items1 = false)
    /\ ((forall y, In y items2 -> existsb (scalar_eq y) items1 = true) -> added = []).
Proof.
  intros H1 H2 Hh Hd.
  exists (union_first_seen items1 items2). split; [|split].
  - rewrite (merge_lists_scalars st l1 l2 items1 items2 H1 H2 Hh).
    now rewrite (union_first_seen_prefix [] items1 items2 Hd) by reflexivity.
  - intros x Hx. now apply union_first_seen_fresh in Hx.
  - apply union_first_seen_all_seen.
Qed.

End MergeListsMore.

(** * Further properties of the remote fetch and of the local search *)

Section RepoAndFiles.

Variable env : environment.

Lemma ltb_lt s t : String.ltb s t = true <-> String_as_OT.lt s t.
Proof.
  unfold String.ltb. rewrite <- String_as_OT.cmp_lt. unfold String_as_OT.cmp.
  destruct (String.compare s t); split; congruence.
Qed.

Lemma ltb_trans s t u :
  String.ltb s t = true -> String.ltb t u = true -> String.ltb s u = true.
Proof. rewrite !ltb_lt. apply String_as_OT.lt_trans. Qed.

(** If [g] is not above [p] and [p] is below [f], then [g] is not above
    [f]. *)
Lemma ltb_not_above p f g :
  String.ltb p g = false -> String.ltb p f = true -> String.ltb f g = false.
Proof.
  intros Hg Hf. destruct (String.ltb f g) eqn:E; [|reflexivity].
  rewrite (ltb_trans _ _ _ Hf E) in Hg. discriminate.
Qed.

Lemma ltb_irrefl s : String.ltb s s = false.
Proof.
  destruct (String.ltb s s) eqn:E; [|reflexivity].
  apply ltb_lt in E. exfalso. now apply (String_as_OT.lt_not_eq _ _ E).
Qed.

Lemma max_filename_from p filelist :
  exists m,
    fold_left keep_greater filelist (Some p) = Some m
    /\ (m = p \/ In m (map drop_last filelist))
    /\ String.ltb m p = false
    /\ forall f, In f filelist -> String.ltb m (drop_last f) = false.
Proof.
  revert p. induction filelist as [|f rest IH]; intros p; simpl.
  - exists p. repeat split; auto using ltb_irrefl. intros f [].
  - destruct (String.ltb p (drop_last f)) eqn:E.
    + destruct (IH (drop_last f)) as (m & Hm & Hin & Hge & Hall).
      exists m. split; [exact Hm|]. split; [destruct Hin; auto|]. split.
      * destruct (String.ltb m p) eqn:E'; [|reflexivity].
        rewrite (ltb_trans _ _ _ E' E) in Hge. discriminate.
      * intros g [<- | Hg]; auto.
    + destruct (IH p) as (m & Hm & Hin & Hge & Hall).
      exists m. split; [exact Hm|]. split; [destruct Hin; auto|]. split; [exact Hge|].
      intros g [<- | Hg]; auto.
      destruct (String.ltb m (drop_last f)) eqn:E'; [|reflexivity].
      destruct (String.ltb m p) eqn:E2; [discriminate|].
      destruct (String.ltb p m) eqn:E3.
      * rewrite (ltb_trans _ _ _ E3 E') in E. discriminate.
      * assert (m = p).
        { unfold String.ltb in E2, E3.
          destruct (String.compare m p) eqn:C; try discriminate.
          - now apply String.compare_eq_iff.
          - rewrite String.compare_antisym, C in E3. discriminate. }
        subst. congruence.
Qed.

(** X8: the file name kept by the loop of [getProfileFromRepo]: none when
    the index has no match; otherwise one of the matches without its last
    character, and no other match, cut the same way, is greater as a
    string. *)
Theorem max_filename_is_the_greatest_cut filelist :
  (max_filename filelist = None <-> filelist = [])
  /\ forall m, max_filename filelist = Some m ->
       In m (map drop_last filelist)
       /\ forall f, In f filelist -> String.ltb m (drop_last f) = false.
Proof.
  unfold max_filename. fold keep_greater.
  destruct filelist as [|f rest]; simpl.
  - split; [tauto|]. intros m H. discriminate.
  - destruct (max_filename_from (drop_last f) rest) as (m & Hm & Hin & Hge & Hall).
    rewrite Hm. split; [split; discriminate|].
    intros m' [= <-]. split; [destruct Hin; auto|].
    intros g [<- | Hg]; auto.
Qed.

Lemma getProfileFromRepo_value profilename repo st v st' :
  getProfileFromRepo env profilename repo st = (Ok v, st') ->
  v = VNone \/ exists body, v = VBytes body.
Proof.
  unfold getProfileFromRepo, try_except.
  set (r := match repo with VNone => VStr defaultrepository | _ => repo end).
  match goal with |- context [match ?m st with _ => _ end] => destruct (m st) as [[a|e] st1] eqn:E end.
  - intros [= <- <-].
    apply bind_ok_inv in E. destruct E as (page & s1 & _ & E).
    apply bind_ok_inv in E. destruct E as (text & s2 & _ & E).
    apply bind_ok_inv in E. destruct E as (filelist & s3 & _ & E).
    destruct (max_filename filelist); [|inversion E; auto].
    destruct r; try discriminate.
    apply bind_ok_inv in E. destruct E as (body & s4 & _ & E).
    inversion E. eauto.
  - unfold bind, emit, ret. intros [= <- <-]. auto.
Qed.

(** X9: the remote fetch never raises: whatever the repository and the
    network do, it returns [None] or the bytes of an answer, and it changes
    nothing but the trace, to which it only adds. *)
Theorem getProfileFromRepo_never_raises profilename repo st :
  exists v st',
    getProfileFromRepo env profilename repo st = (Ok v, st')
    /\ (v = VNone \/ exists body, v = VBytes body)
    /\ heap st' = heap st /\ profile_cache st' = profile_cache st
    /\ log st' = log st /\ exists evs, trace st' = trace st ++ evs.
Proof.
  destruct (getProfileFromRepo env profilename repo st) as [[v|e] st'] eqn:E.
  - exists v, st'. split; [reflexivity|]. split; [eapply getProfileFromRepo_value; eauto|].
    apply (respects_run only_requests _ _ _ _
             (respects_getProfileFromRepo env only_requests
                ltac:(intros s ev; simpl; repeat split; eauto) _ _) E).
  - exfalso. unfold getProfileFromRepo, try_except in E.
    match type of E with
    | context [match ?m st with _ => _ end] => destruct (m st) as [[a|e'] st1]
    end; discriminate.
Qed.

(** X10: what the remote fetch does when something is missing.  When the
    request for the index fails, the exception is printed and no other
    request is made; when the index has no match, [None] is returned after
    that one request, without a print; when the request for the file
    fails, the exception is printed. *)
Theorem getProfileFromRepo_gives_up profilename repo st url :
  repository_url repo = Some url ->
  (forall e, http_get env (trace st) url = Raise e ->
     getProfileFromRepo env profilename repo st
     = (Ok VNone, with_events [EvUrlopen url; EvPrint e] st))
  /\ (forall page text,
        http_get env (trace st) url = Ok page ->
        decode_utf8 env page = Ok text ->
        findall_versioned env profilename text = Ok [] ->
        getProfileFromRepo env profilename repo st
        = (Ok VNone, with_events [EvUrlopen url] st))
  /\ (forall page text filelist name e,
        http_get env (trace st) url = Ok page ->
        decode_utf8 env page = Ok text ->
        findall_versioned env profilename text = Ok filelist ->
        max_filename filelist = Some name ->
        http_get env (trace st ++ [EvUrlopen url]) (url +:+ "/" +:+ name) = Raise e ->
        getProfileFromRepo env profilename repo st
        = (Ok VNone,
           with_events [EvUrlopen url; EvUrlopen (url +:+ "/" +:+ name); EvPrint e] st)).
Proof.
  intros Hurl.
  assert (Hrepo : match repo with VNone => VStr defaultrepository | _ => repo end = VStr url).
  { destruct repo; simpl in Hurl; try discriminate; now inversion Hurl. }
  assert (Hfail : forall s u e, http_get env (trace s) u = Raise e ->
            urlopen_read env (VStr u) s = (Raise e, with_event (EvUrlopen u) s)).
  { intros s u e H. unfold urlopen_read, bind, get_trace, emit, lift. now rewrite H. }
  split; [|split].
  - intros e He. unfold getProfileFromRepo, try_except. rewrite Hrepo.
    rewrite (bind_raise _ _ _ _ _ (Hfail _ _ _ He)).
    unfold bind, emit, ret, with_event, with_events. simpl.
    now rewrite <- app_assoc.
  - intros page text Hpage Htext Hlist.
    unfold getProfileFromRepo, try_except. rewrite Hrepo.
    rewrite (bind_ok _ _ _ _ _ (urlopen_read_ok env _ _ _ Hpage)).
    unfold bind at 1, lift at 1. rewrite Htext.
    unfold bind at 1, lift at 1. rewrite Hlist. reflexivity.
  - intros page text filelist name e Hpage Htext Hlist Hmax He.
    unfold getProfileFromRepo, try_except. rewrite Hrepo.
    rewrite (bind_ok _ _ _ _ _ (urlopen_read_ok env _ _ _ Hpage)).
    unfold bind at 1, lift at 1. rewrite Htext.
    unfold bind at 1, lift at 1. rewrite Hlist. rewrite Hmax.
    rewrite (bind_raise _ _ _ _ _ (Hfail (with_event (EvUrlopen url) st) _ _ He)).
    unfold bind, emit, ret, with_event, with_events. simpl.
    now rewrite <- !app_assoc.
Qed.

Lemma with_events_nil st : with_events [] st = st.
Proof. destruct st. unfold with_events. simpl. now rewrite app_nil_r. Qed.

Lemma with_events_cons ev evs st :
  with_events (ev :: evs) st = with_events evs (with_event ev st).
Proof. unfold with_events, with_event. simpl. now rewrite <- app_assoc. Qed.

Lemma glob_matching_run matcher directories st :
  glob_matching env matcher directories st
  = (Ok (matching_files env matcher (trace st) directories),
     with_events (map EvGlob directories) st).
Proof.
  revert st. induction directories as [|d rest IH]; intros st; simpl.
  - unfold ret. now rewrite with_events_nil.
  - unfold bind at 1, get_trace at 1. unfold bind at 1, emit at 1.
    rewrite (bind_ok _ _ _ _ _ (IH (with_event (EvGlob d) st))).
    unfold ret. now rewrite with_events_cons.
Qed.

Lemma matching_files_sound matcher tr directories f :
  In f (matching_files env matcher tr directories) ->
  matcher (basename f) = true
  /\ exists dirname tr', In dirname directories /\ In f (glob_json env tr' dirname).
Proof.
  revert tr. induction directories as [|d rest IH]; intros tr H; simpl in *; [tauto|].
  apply in_app_or in H. destruct H as [H | H].
  - apply List.filter_In in H. destruct H as [Hin Hm]. split; [exact Hm|].
    exists d, tr. auto.
  - destruct (IH _ H) as (Hm & d' & tr' & Hd & Hf). split; [exact Hm|].
    exists d', tr'. auto.
Qed.

Lemma matching_files_steady matcher ls tr directories :
  (forall tr' d, glob_json env tr' d = ls d) ->
  matching_files env matcher tr directories
  = flat_map (fun d => List.filter (fun file => matcher (basename file)) (ls d))
      directories.
Proof.
  intros Hls. revert tr. induction directories as [|d rest IH]; intros tr; simpl;
    [reflexivity|].
  now rewrite Hls, IH.
Qed.

(** X11: the local search for files.  A pattern that does not compile
    raises before any directory is listed.  Otherwise every directory is
    listed once, in order, and nothing else happens; every file returned
    has a basename that matches and was listed in one of the directories;
    and when the listings do not depend on what was asked before, the
    result is exactly the matching files, directory after directory. *)
Theorem getProfilesMatchingName_lists_matches name directories st :
  (forall e, filepattern env name = Raise e ->
     getProfilesMatchingName env name directories st = (Raise e, st))
  /\ forall matcher, filepattern env name = Ok matcher ->
       exists files,
         getProfilesMatchingName env name directories st
         = (Ok files, with_events (map EvGlob directories) st)
         /\ (forall f, In f files ->
               matcher (basename f) = true
               /\ exists dirname tr, In dirname directories
                                     /\ In f (glob_json env tr dirname))
         /\ forall ls, (forall tr d, glob_json env tr d = ls d) ->
              files = flat_map
                        (fun d => List.filter (fun file => matcher (basename file)) (ls d))
                        directories.
Proof.
  split.
  - intros e He. unfold getProfilesMatchingName, bind, lift. now rewrite He.
  - intros matcher Hm.
    exists (matching_files env matcher (trace st) directories). split; [|split].
    + unfold getProfilesMatchingName. unfold bind at 1, lift at 1. rewrite Hm.
      apply glob_matching_run.
    + intros f Hf. eapply matching_files_sound; eauto.
    + intros ls Hls. now apply matching_files_steady.
Qed.

End RepoAndFiles.

(** * Further properties of the locator *)

Section LocatorMore.

Variable env : environment.

Lemma only_requests_event st ev : only_requests st (with_event ev st).
Proof. simpl. repeat split. now exists [ev]. Qed.

Lemma getProfilesMatchingName_only_requests name directories :
  respects only_requests (getProfilesMatchingName env name directories).
Proof.
  apply respects_getProfilesMatchingName. intros st ev _. apply only_requests_event.
Qed.

Lemma remote_attempt_only_requests (online : bool) file repo :
  respects only_requests
    (if online then getProfileFromRepo env file repo else ret VNone).
Proof.
  destruct online; [|apply respects_ret].
  apply respects_getProfileFromRepo. intros st ev. apply only_requests_event.
Qed.

(** X12: a profile that is found neither remotely nor in the directories:
    the locator returns [None], logs one record of level [ERROR] that names
    the profile and its repository, and caches the [None]; asked again,
    for any directories and with any flag, it returns [None] and does
    nothing, so the error is reported once. *)
Theorem unresolved_profile_is_reported_once
  target_name li iitems directories (online : bool) st min_version st0 st1 :
  heap st !! li = Some (ODict iitems) ->
  splitVersionString env (heap st) (default (VStr "1.0.0") (assoc_get "MinVersion" iitems))
  = Ok min_version ->
  profile_cache st !! (target_name +:+ ".json") = None ->
  let repo := default VNone (assoc_get "Repository" iitems) in
  (if online return M value
   then getProfileFromRepo env (target_name +:+ ".json") repo else ret VNone) st
  = (Ok VNone, st0) ->
  getProfilesMatchingName env (target_name +:+ ".json") directories st0 = (Ok [], st1) ->
  let st' := with_cached (target_name +:+ ".json") VNone
               (with_logged ERROR (CouldNotAcquire target_name repo) st1) in
  parseProfileInclude env target_name (VRef li) directories online st = (Ok VNone, st')
  /\ log st' = log st ++ [(ERROR, CouldNotAcquire target_name repo)]
  /\ forall directories' online',
       parseProfileInclude env target_name (VRef li) directories' online' st'
       = (Ok VNone, st').
Proof.
  intros Hi Hv Hc repo Hremote Hlocal st'.
  pose proof (respects_run only_requests _ _ _ _
                (remote_attempt_only_requests online _ _) Hremote) as (F1 & F2 & F3 & _).
  pose proof (respects_run only_requests _ _ _ _
                (getProfilesMatchingName_only_requests _ _) Hlocal) as (G1 & G2 & G3 & _).
  split; [|split].
  - rewrite parseProfileInclude_eq.
    rewrite (bind_ok _ _ _ _ _ (py_get_dict _ _ _ _ _ Hi)).
    unfold bind at 1, get_heap at 1. unfold bind at 1, lift at 1. rewrite Hv.
    unfold bind at 1, get_cache at 1. rewrite Hc.
    unfold locate_uncached. rewrite bind_assoc.
    rewrite (bind_ok _ _ _ _ _ (py_get_dict _ _ _ _ _ Hi)). fold repo.
    rewrite bind_assoc. rewrite (bind_ok _ _ _ _ _ Hremote). cbn [is_none].
    unfold local_search. rewrite bind_assoc. rewrite (bind_ok _ _ _ _ _ Hlocal).
    reflexivity.
  - unfold st'. simpl. now rewrite G3, F3.
  - intros directories' online'.
    apply parseProfileInclude_hit with (iitems := iitems) (min_version := min_version).
    + unfold st'. simpl. now rewrite G1, F1.
    + unfold st'. simpl. now rewrite G1, F1.
    + unfold st'. simpl. apply lookup_insert_eq.
Qed.

Lemma load_candidates_max target_list max_version data st r st' :
  load_candidates env target_list max_version data st = (Ok r, st') ->
  version_lt (fst r) max_version = false.
Proof.
  revert max_version data st.
  induction target_list as [|path rest IH]; intros max_version data st H; simpl in H.
  - inversion H. simpl. apply version_lt_irrefl.
  - apply bind_ok_inv in H. destruct H as (tr & s1 & _ & H).
    apply bind_ok_inv in H. destruct H as (u & s2 & _ & H).
    apply bind_ok_inv in H. destruct H as (j & s3 & _ & H).
    apply bind_ok_inv in H. destruct H as (doc & s4 & _ & H).
    apply bind_ok_inv in H. destruct H as (pv & s5 & _ & H).
    apply bind_ok_inv in H. destruct H as (h & s6 & _ & H).
    apply bind_ok_inv in H. destruct H as (my_version & s7 & _ & H).
    apply IH in H.
    destruct (version_lt max_version my_version) eqn:E; [|exact H].
    apply version_lt_false in H. apply version_lt_spec in E. apply version_lt_false.
    lia.
Qed.

Lemma same_warnings_error st msg : same_warnings st (with_logged ERROR msg st).
Proof. simpl. rewrite List.filter_app. simpl. apply app_nil_r. Qed.

(** X13: a reference whose [MinVersion] is not above 1.0.0 (the default,
    for one) never gets the version warning, whatever the versions of the
    files found: the greatest version starts at 1.0.0. *)
Theorem default_min_version_never_warns
  target_name li iitems directories online st min_version :
  heap st !! li = Some (ODict iitems) ->
  splitVersionString env (heap st) (default (VStr "1.0.0") (assoc_get "MinVersion" iitems))
  = Ok min_version ->
  version_lt (1, 0, 0)%Z min_version = false ->
  same_warnings st
    (snd (parseProfileInclude env target_name (VRef li) directories online st)).
Proof.
  intros Hi Hv Hmin. rewrite parseProfileInclude_eq.
  rewrite (bind_ok _ _ _ _ _ (py_get_dict _ _ _ _ _ Hi)).
  unfold bind at 1, get_heap at 1. unfold bind at 1, lift at 1. rewrite Hv.
  unfold bind at 1, get_cache at 1.
  destruct (profile_cache st !! (target_name +:+ ".json")); [reflexivity|].
  match goal with
  | |- rel same_warnings st (snd (?m st)) => assert (Hm : respects same_warnings m); [|apply Hm]
  end.
  apply respects_bind; [|intros data; apply respects_bind; [|intros; apply respects_ret]].
  2:{ apply respects_cache_store_any. reflexivity. }
  assert (Hlocal : forall repo,
            respects same_warnings
              (local_search env target_name (target_name +:+ ".json")
                 min_version repo directories)).
  { intros repo. unfold local_search.
    apply respects_bind;
      [apply respects_getProfilesMatchingName; reflexivity|intros target_list].
    destruct target_list as [|path rest].
    - apply respects_bind; [|intros; apply respects_ret].
      intros s. apply same_warnings_error.
    - intros s. unfold bind at 1.
      destruct (load_candidates env (path :: rest) (1, 0, 0)%Z VNone s)
        as [[r|e] s1] eqn:E.
      + pose proof (respects_run same_warnings _ _ _ _
                      (respects_load_candidates env same_warnings
                         ltac:(reflexivity) ltac:(reflexivity) _ _ _) E) as Hs.
        pose proof (load_candidates_max _ _ _ _ _ _ E) as Hr.
        assert (Hno : version_lt (fst r) min_version = false).
        { apply version_lt_false in Hr, Hmin. apply version_lt_false. lia. }
        rewrite Hno. exact Hs.
      + apply (respects_run same_warnings _ _ _ _
                 (respects_load_candidates env same_warnings
                    ltac:(reflexivity) ltac:(reflexivity) _ _ _) E). }
  unfold locate_uncached.
  apply respects_bind; [apply respects_py_get|intros repo].
  apply respects_bind.
  - destruct online; [|apply respects_ret].
    apply respects_getProfileFromRepo. reflexivity.
  - intros data. destruct (is_none data); [apply Hlocal|apply respects_ret].
Qed.

(** X14: when there is no remote result and exactly one file matches, the
    locator returns and caches the document of that file whatever its
    version; the version warning is logged just when both 1.0.0 and the
    [ProfileVersion] of the file are below the [MinVersion] asked for. *)
Theorem single_candidate_is_returned
  target_name li iitems directories (online : bool) st min_version st0 st1
  path j doc st2 pv file_version :
  heap st !! li = Some (ODict iitems) ->
  splitVersionString env (heap st) (default (VStr "1.0.0") (assoc_get "MinVersion" iitems))
  = Ok min_version ->
  profile_cache st !! (target_name +:+ ".json") = None ->
  (if online return M value
   then getProfileFromRepo env (target_name +:+ ".json")
          (default VNone (assoc_get "Repository" iitems))
   else ret VNone) st = (Ok VNone, st0) ->
  getProfilesMatchingName env (target_name +:+ ".json") directories st0
  = (Ok [path], st1) ->
  load_json env (trace st1) path = Ok j ->
  json_build j (with_event (EvOpen path) st1) = (Ok doc, st2) ->
  py_get doc "ProfileVersion" (VStr "1.0.0") st2 = (Ok pv, st2) ->
  splitVersionString env (heap st2) pv = Ok file_version ->
  let stale := (version_lt (1, 0, 0)%Z min_version
                && version_lt file_version min_version)%bool in
  let st3 := if stale then with_logged WARNING VersionBelowMin st2 else st2 in
  parseProfileInclude env target_name (VRef li) directories online st
  = (Ok doc, with_cached (target_name +:+ ".json") doc st3).
Proof.
  intros Hi Hv Hc Hremote Hlocal Hload Hbuild Hpv Hfv stale st3.
  rewrite parseProfileInclude_eq.
  rewrite (bind_ok _ _ _ _ _ (py_get_dict _ _ _ _ _ Hi)).
  unfold bind at 1, get_heap at 1. unfold bind at 1, lift at 1. rewrite Hv.
  unfold bind at 1, get_cache at 1. rewrite Hc.
  assert (Hloc : locate_uncached env target_name (VRef li) min_version directories online st
                 = (Ok doc, st3)).
  { unfold locate_uncached.
    rewrite (bind_ok _ _ _ _ _ (py_get_dict _ _ _ _ _ Hi)).
    rewrite (bind_ok _ _ _ _ _ Hremote). cbn [is_none].
    unfold local_search. rewrite (bind_ok _ _ _ _ _ Hlocal).
    assert (Hcand : load_candidates env [path] (1, 0, 0)%Z VNone st1
                    = (Ok (if version_lt (1, 0, 0)%Z file_version
                           then file_version else (1, 0, 0)%Z, doc), st2)).
    { cbn [load_candidates].
      unfold bind at 1, get_trace at 1. unfold bind at 1, emit at 1.
      unfold bind at 1, lift at 1. change (trace st1) with (trace st1). rewrite Hload.
      rewrite (bind_ok _ _ _ _ _ Hbuild).
      rewrite (bind_ok _ _ _ _ _ Hpv).
      unfold bind at 1, get_heap at 1. unfold bind at 1, lift at 1. rewrite Hfv.
      cbn [is_none]. rewrite orb_true_r. reflexivity. }
    rewrite (bind_ok _ _ _ _ _ Hcand). cbn [fst snd].
    unfold st3, stale.
    destruct (version_lt (1, 0, 0)%Z file_version) eqn:E1.
    - destruct (version_lt (1, 0, 0)%Z min_version) eqn:E2;
        destruct (version_lt file_version min_version) eqn:E3; try reflexivity.
      apply version_lt_spec in E1. apply version_lt_false in E2.
      apply version_lt_spec in E3. exfalso. lia.
    - destruct (version_lt (1, 0, 0)%Z min_version) eqn:E2;
        destruct (version_lt file_version min_version) eqn:E3; try reflexivity.
      apply version_lt_false in E1. apply version_lt_spec in E2.
      apply version_lt_false in E3. exfalso. lia. }
  rewrite (bind_ok _ _ _ _ _ Hloc). reflexivity.
Qed.

End LocatorMore.

(** * What the merge and the resolver never do

    Relations that look at the store: they are kept as soon as they are
    kept by the three ways the program writes to it (a new object, an
    assignment to a key of a dictionary, an item appended to a list). *)

Section Mutations.

Variable env : environment.
Variable R : frame.
Hypothesis R_alloc : forall st o, R st (with_heap (heap st ++ [o]) st).
Hypothesis R_setitem :
  forall st l items k v,
    heap st !! l = Some (ODict items) ->
    R st (with_heap (<[l:=ODict (assoc_set k v items)]> (heap st)) st).
Hypothesis R_warning : forall st msg, R st (with_logged WARNING msg st).

Lemma keeps_alloc o : respects R (alloc o).
Proof. now apply respects_alloc_only. Qed.

Lemma keeps_py_setitem x k v : respects R (py_setitem x k v).
Proof.
  intros st. unfold py_setitem.
  destruct x; try apply rel_refl.
  unfold bind, read_obj, bind, get_heap.
  destruct (heap st !! l) as [[items|items]|] eqn:E; simpl; try apply rel_refl.
  now apply R_setitem.
Qed.

Lemma keeps_warning msg : respects R (logger WARNING msg).
Proof. intros st. apply R_warning. Qed.

Hint Resolve keeps_alloc keeps_py_setitem keeps_warning : frame.

Lemma keeps_merge_lists a b : respects R (merge_lists a b).
Proof. unfold merge_lists. frame. Qed.

Lemma keeps_py_get_or_empty x k : respects R (py_get_or_empty x k).
Proof. unfold py_get_or_empty. frame. Qed.

Hint Resolve keeps_merge_lists keeps_py_get_or_empty : frame.

Lemma keeps_dict_merge_entry self dct k v :
  (forall a b, respects R (self a b)) ->
  respects R (dict_merge_entry env self dct k v).
Proof. intros Hself. unfold dict_merge_entry. frame. Qed.

Lemma keeps_dict_merge fuel dct merge_dct :
  respects R (dict_merge env fuel dct merge_dct).
Proof.
  revert dct merge_dct. induction fuel as [|fuel IH]; intros dct merge_dct; simpl.
  - frame.
  - apply respects_for_each_item. intros k v _.
    now apply keeps_dict_merge_entry.
Qed.

Hint Resolve keeps_dict_merge : frame.

Lemma keeps_merge_resource merge profile resource_type resource_data :
  (forall a b, respects R (merge a b)) ->
  respects R (merge_resource env merge profile resource_type resource_data).
Proof. intros Hmerge. unfold merge_resource. frame. Qed.

Hint Resolve keeps_merge_resource : frame.

Section ResolverMutations.

Hypothesis R_append :
  forall st l items v,
    heap st !! l = Some (OList items) ->
    R st (with_heap (<[l:=OList (items ++ [v])]> (heap st)) st).
Hypothesis R_error : forall st msg, R st (with_logged ERROR msg st).
Hypothesis R_parse :
  forall target_name info directories online,
    respects R (parseProfileInclude env target_name info directories online).

Lemma keeps_py_append x v : respects R (py_append x v).
Proof.
  intros st. unfold py_append.
  destruct x; try apply rel_refl.
  unfold bind, read_obj, bind, get_heap.
  destruct (heap st !! l) as [[items|items]|] eqn:E; simpl; try apply rel_refl.
  now apply R_append.
Qed.

Lemma keeps_error msg : respects R (logger ERROR msg).
Proof. intros st. apply R_error. Qed.

Hint Resolve keeps_py_append keeps_error R_parse : frame.

Ltac keeps_loops :=
  repeat first
    [ frame_step
    | apply respects_for_each_item; intros ? ? ?
    | apply respects_for_each; intros ? ? ].

Lemma keeps_resource_profile_step merge directories online resource_name
  inner_object target_name info acc :
  (forall x y, respects R (merge x y)) ->
  respects R (resource_profile_step env merge directories online resource_name
                inner_object target_name info acc).
Proof. intros Hmerge. unfold resource_profile_step. frame. Qed.

Hint Resolve keeps_resource_profile_step : frame.

Lemma keeps_resource_step merge directories online resource_name resource acc :
  (forall x y, respects R (merge x y)) ->
  respects R (resource_step env merge directories online resource_name resource acc).
Proof. intros Hmerge. unfold resource_step. keeps_loops. Qed.

Lemma keeps_required_profile_step self merge profile directories chain online
  target_name info acc :
  (forall p d c b, respects R (self p d c b)) ->
  (forall x y, respects R (merge x y)) ->
  respects R (required_profile_step env self merge profile directories chain online
                target_name info acc).
Proof. intros Hself Hmerge. unfold required_profile_step. keeps_loops. Qed.

Hint Resolve keeps_resource_step keeps_required_profile_step : frame.

Lemma keeps_getProfiles fuel profile directories chain online :
  respects R (getProfiles env fuel profile directories chain online).
Proof.
  revert profile directories chain online.
  induction fuel as [|fuel IH]; intros profile directories chain online; simpl.
  - frame.
  - keeps_loops.
Qed.

Lemma keeps_resolve_requirements fuel profile directories chain online :
  respects R (resolve_requirements env fuel profile directories chain online).
Proof.
  unfold resolve_requirements. pose proof (keeps_getProfiles fuel) as Hself.
  keeps_loops.
Qed.

End ResolverMutations.

End Mutations.

(** ** The relations on objects are kept by the writes of the program *)

Lemma lists_same_alloc st o : lists_same st (with_heap (heap st ++ [o]) st).
Proof. intros l items H. simpl. now apply lookup_app_l_Some. Qed.

Lemma lists_same_setitem st l items k v :
  heap st !! l = Some (ODict items) ->
  lists_same st (with_heap (<[l:=ODict (assoc_set k v items)]> (heap st)) st).
Proof.
  intros H l0 items0 H0. simpl.
  destruct (decide (l = l0)) as [->|Hne]; [congruence|].
  now rewrite list_lookup_insert_ne.
Qed.

Lemma keys_kept_set k v items : keys_kept items (assoc_set k v items).
Proof.
  intros k0 Hk0.
  destruct (String.eqb_spec k k0) as [->|Hne].
  - rewrite assoc_get_set_eq. now eexists.
  - now rewrite assoc_get_set_ne.
Qed.

Lemma keys_kept_refl items : keys_kept items items.
Proof. intros k Hk. exact Hk. Qed.

Lemma dicts_grow_alloc st o : dicts_grow st (with_heap (heap st ++ [o]) st).
Proof.
  intros l items H. exists items. split; [|apply keys_kept_refl].
  simpl. now apply lookup_app_l_Some.
Qed.

Lemma dicts_grow_setitem st l items k v :
  heap st !! l = Some (ODict items) ->
  dicts_grow st (with_heap (<[l:=ODict (assoc_set k v items)]> (heap st)) st).
Proof.
  intros H l0 items0 H0. simpl.
  destruct (decide (l = l0)) as [->|Hne].
  - exists (assoc_set k v items). split.
    + apply list_lookup_insert_eq. eapply lookup_lt_Some; eauto.
    + assert (items0 = items) as -> by congruence. apply keys_kept_set.
  - exists items0. split; [|apply keys_kept_refl].
    now rewrite list_lookup_insert_ne.
Qed.

Lemma dicts_grow_append st l items v :
  heap st !! l = Some (OList items) ->
  dicts_grow st (with_heap (<[l:=OList (items ++ [v])]> (heap st)) st).
Proof.
  intros H l0 items0 H0. simpl.
  destruct (decide (l = l0)) as [->|Hne]; [congruence|].
  exists items0. split; [|apply keys_kept_refl].
  now rewrite list_lookup_insert_ne.
Qed.

Lemma lists_grow_of_same a b : lists_same a b -> lists_grow a b.
Proof.
  intros H l items Hl. exists []. rewrite app_nil_r. now apply H.
Qed.

Lemma lists_grow_append st l items v :
  heap st !! l = Some (OList items) ->
  lists_grow st (with_heap (<[l:=OList (items ++ [v])]> (heap st)) st).
Proof.
  intros H l0 items0 H0. simpl.
  destruct (decide (l = l0)) as [->|Hne].
  - exists [v]. assert (items0 = items) as -> by congruence.
    apply list_lookup_insert_eq. eapply lookup_lt_Some; eauto.
  - exists []. rewrite app_nil_r. now rewrite list_lookup_insert_ne.
Qed.

Lemma lists_grow_of_store a b : store_grows a b -> lists_grow a b.
Proof.
  intros H l items Hl. exists []. rewrite app_nil_r.
  eapply store_grows_lookup; eauto.
Qed.

Lemma dicts_grow_of_store a b : store_grows a b -> dicts_grow a b.
Proof.
  intros H l items Hl. exists items. split; [|apply keys_kept_refl].
  eapply store_grows_lookup; eauto.
Qed.

Lemma lists_grow_logged st lv msg : lists_grow st (with_logged lv msg st).
Proof. intros l items H. exists []. rewrite app_nil_r. exact H. Qed.

Lemma dicts_grow_logged st lv msg : dicts_grow st (with_logged lv msg st).
Proof. intros l items H. exists items. split; [exact H|apply keys_kept_refl]. Qed.

Lemma py_append_list st l items v :
  heap st !! l = Some (OList items) ->
  py_append (VRef l) v st
  = (Ok tt, with_heap (<[l:=OList (items ++ [v])]> (heap st)) st).
Proof.
  intros H. unfold py_append.
  now rewrite (bind_ok _ _ _ _ _ (read_obj_ok _ _ _ H)).
Qed.

Section Never.

Variable env : environment.

(** X15: a merge writes to the store and may log warnings, and that is
    all: it logs no record of level [ERROR], and the cache of profiles and
    the trace of requests are as they were, whether the merge returns or
    raises and whatever the two arguments are. *)
Theorem dict_merge_only_adds_warnings fuel dct merge_dct st :
  let st' := snd (dict_merge env fuel dct merge_dct st) in
  errors (log st') = errors (log st)
  /\ profile_cache st' = profile_cache st
  /\ trace st' = trace st.
Proof.
  intros st'. split; [|split].
  - apply (keeps_dict_merge env same_errors); try reflexivity.
    intros st0 msg. simpl. apply errors_warning.
  - apply (keeps_dict_merge env same_cache); reflexivity.
  - apply (keeps_dict_merge env same_trace); reflexivity.
Qed.

(** X16: a merge never removes a key: every dictionary of the store,
    the destination and the source included, is a dictionary afterwards
    and has every key it had, whether the merge returns or raises. *)
Theorem dict_merge_never_removes_a_key fuel dct merge_dct st l items :
  heap st !! l = Some (ODict items) ->
  exists items',
    heap (snd (dict_merge env fuel dct merge_dct st)) !! l = Some (ODict items')
    /\ forall k, is_Some (assoc_get k items) -> is_Some (assoc_get k items').
Proof.
  intros H.
  apply (keeps_dict_merge env dicts_grow); [..|exact H].
  - apply dicts_grow_alloc.
  - apply dicts_grow_setitem.
  - intros st0 msg l0 items0 H0. exists items0. split; [exact H0|apply keys_kept_refl].
Qed.

(** X17: a merge never changes a list in place: every list of the store
    has the same items afterwards; the union of two lists is a new
    object, so a list shared with another document is not altered. *)
Theorem dict_merge_leaves_lists_as_they_were fuel dct merge_dct st l items :
  heap st !! l = Some (OList items) ->
  heap (snd (dict_merge env fuel dct merge_dct st)) !! l = Some (OList items).
Proof.
  intros H.
  apply (keeps_dict_merge env lists_same); [..|exact H].
  - apply lists_same_alloc.
  - apply lists_same_setitem.
  - intros st0 msg l0 items0 H0. exact H0.
Qed.

Lemma getProfiles_lists_grow fuel profile directories chain online :
  respects lists_grow (getProfiles env fuel profile directories chain online).
Proof.
  apply keeps_getProfiles.
  - intros st o. apply lists_grow_of_same, lists_same_alloc.
  - intros st l items k v H. now apply lists_grow_of_same, lists_same_setitem.
  - intros st msg. apply lists_grow_logged.
  - apply lists_grow_append.
  - intros st msg. apply lists_grow_logged.
  - intros target_name info dirs b st.
    apply lists_grow_of_store, parseProfileInclude_store_grows.
Qed.

Lemma resolve_requirements_lists_grow fuel profile directories chain online :
  respects lists_grow (resolve_requirements env fuel profile directories chain online).
Proof.
  apply keeps_resolve_requirements.
  - intros st o. apply lists_grow_of_same, lists_same_alloc.
  - intros st l items k v H. now apply lists_grow_of_same, lists_same_setitem.
  - intros st msg. apply lists_grow_logged.
  - apply lists_grow_append.
  - intros st msg. apply lists_grow_logged.
  - intros target_name info dirs b st.
    apply lists_grow_of_store, parseProfileInclude_store_grows.
Qed.

(** X18: a resolution only appends to lists: every list of the store,
    the chain included, has afterwards the items it had, in the same
    order, in front of the new ones; nothing is ever taken off the
    chain. *)
Theorem resolution_only_appends_to_lists fuel profile directories chain online st l items :
  heap st !! l = Some (OList items) ->
  exists more,
    heap (snd (getProfiles env fuel profile directories chain online st)) !! l
    = Some (OList (items ++ more)).
Proof.
  intros H.
  pose proof (getProfiles_lists_grow fuel profile directories chain online st) as Hgrow.
  exact (Hgrow l items H).
Qed.

(** X19: a resolution never removes a key: every dictionary of the
    store is a dictionary afterwards and has every key it had, whether
    the resolution returns or raises. *)
Theorem resolution_never_removes_a_key fuel profile directories chain online st l items :
  heap st !! l = Some (ODict items) ->
  exists items',
    heap (snd (getProfiles env fuel profile directories chain online st)) !! l
    = Some (ODict items')
    /\ forall k, is_Some (assoc_get k items) -> is_Some (assoc_get k items').
Proof.
  intros H.
  apply (keeps_getProfiles env dicts_grow); [..|exact H].
  - apply dicts_grow_alloc.
  - apply dicts_grow_setitem.
  - intros st0 msg. apply dicts_grow_logged.
  - apply dicts_grow_append.
  - intros st0 msg. apply dicts_grow_logged.
  - intros target_name info dirs b st0.
    apply dicts_grow_of_store, parseProfileInclude_store_grows.
Qed.

Lemma getProfiles_pushes fuel st lp pitems lc citems directories online :
  heap st !! lp = Some (ODict pitems) ->
  heap st !! lc = Some (OList citems) ->
  let profile_name := default VNone (assoc_get "ProfileName" pitems) in
  existsb (fun e => py_eq env (heap st) e profile_name) citems = false ->
  getProfiles env (S fuel) (VRef lp) directories (VRef lc) online st
  = resolve_requirements env fuel (VRef lp) directories (VRef lc) online
      (with_heap (<[lc:=OList (citems ++ [profile_name])]> (heap st)) st).
Proof.
  intros Hp Hc profile_name Hin.
  cbn [getProfiles].
  rewrite (bind_ok _ _ _ _ _ (py_get_dict _ _ _ _ _ Hp)).
  cbn [is_none].
  rewrite (bind_ok _ _ _ (VRef lc) st eq_refl).
  rewrite (bind_ok _ _ _ _ _ (py_contains_list env _ _ _ _ Hc)).
  fold profile_name. rewrite Hin.
  rewrite (bind_ok _ _ _ _ _ (py_append_list _ _ _ _ Hc)).
  reflexivity.
Qed.

(** X20: the name of the profile stays in the chain: when the name is
    not in the chain at the call, it is there after the call, right
    behind the items the chain had, whether the two loops return or
    raise; the call does not take it off at its end. *)
Theorem name_stays_in_the_chain fuel st lp pitems lc citems directories online :
  heap st !! lp = Some (ODict pitems) ->
  heap st !! lc = Some (OList citems) ->
  let profile_name := default VNone (assoc_get "ProfileName" pitems) in
  existsb (fun e => py_eq env (heap st) e profile_name) citems = false ->
  exists more,
    heap (snd (getProfiles env (S fuel) (VRef lp) directories (VRef lc) online st)) !! lc
    = Some (OList (citems ++ profile_name :: more)).
Proof.
  intros Hp Hc profile_name Hin.
  rewrite (getProfiles_pushes fuel st lp pitems lc citems directories online Hp Hc Hin).
  fold profile_name.
  set (st1 := with_heap (<[lc:=OList (citems ++ [profile_name])]> (heap st)) st).
  assert (H1 : heap st1 !! lc = Some (OList (citems ++ [profile_name]))).
  { unfold st1. simpl. apply list_lookup_insert_eq. eapply lookup_lt_Some; eauto. }
  destruct (resolve_requirements_lists_grow fuel (VRef lp) directories (VRef lc) online
              st1 lc _ H1) as [more Hmore].
  exists more. rewrite <- app_assoc in Hmore. exact Hmore.
Qed.

Lemma py_eq_str h e n : py_eq env h e (VStr n) = scalar_eq e (VStr n).
Proof. now destruct e. Qed.

Lemma existsb_py_eq_str h n items :
  existsb (fun e => py_eq env h e (VStr n)) items
  = existsb (fun e => scalar_eq e (VStr n)) items.
Proof.
  induction items as [|e rest IH]; simpl; [reflexivity|].
  now rewrite py_eq_str, IH.
Qed.

(** X21: a profile that was resolved once with a chain is taken for a
    cyclical import when it comes again with the same chain, also when the
    first resolution is over (two profiles that require the same third
    one, for instance): the second call logs the error and returns two
    empty lists. *)
Theorem finished_profile_is_taken_for_a_cycle
  fuel fuel' st lp pitems lc citems n directories online lq qitems directories' online' :
  heap st !! lp = Some (ODict pitems) ->
  heap st !! lc = Some (OList citems) ->
  assoc_get "ProfileName" pitems = Some (VStr n) ->
  let st' := snd (getProfiles env (S fuel) (VRef lp) directories (VRef lc) online st) in
  heap st' !! lq = Some (ODict qitems) ->
  assoc_get "ProfileName" qitems = Some (VStr n) ->
  getProfiles env (S fuel') (VRef lq) directories' (VRef lc) online' st'
  = (Ok ([], []), with_logged ERROR (CyclicalImport (VRef lc) (VStr n)) st').
Proof.
  intros Hp Hc Hn st' Hq Hqn.
  assert (Hchain : exists items', heap st' !! lc = Some (OList items')
                     /\ existsb (fun e => scalar_eq e (VStr n)) items' = true).
  { destruct (existsb (fun e => py_eq env (heap st) e (VStr n)) citems) eqn:Hin.
    - destruct (getProfiles_lists_grow (S fuel) (VRef lp) directories (VRef lc) online
                  st lc citems Hc) as [more Hmore].
      exists (citems ++ more). split; [exact Hmore|].
      rewrite existsb_app.
      rewrite existsb_py_eq_str in Hin.
      now rewrite Hin.
    - unfold st'.
      rewrite (getProfiles_pushes fuel st lp pitems lc citems directories online Hp Hc).
      2:{ rewrite Hn. exact Hin. }
      rewrite Hn. cbn [default].
      set (st1 := with_heap (<[lc:=OList (citems ++ [VStr n])]> (heap st)) st).
      assert (H1 : heap st1 !! lc = Some (OList (citems ++ [VStr n]))).
      { unfold st1. simpl. apply list_lookup_insert_eq. eapply lookup_lt_Some; eauto. }
      destruct (resolve_requirements_lists_grow fuel (VRef lp) directories (VRef lc) online
                  st1 lc _ H1) as [more Hmore].
      exists ((citems ++ [VStr n]) ++ more). split; [exact Hmore|].
      rewrite !existsb_app. simpl. rewrite String.eqb_refl.
      now rewrite !orb_true_r. }
  destruct Hchain as (items' & Hc' & Hin').
  cbn [getProfiles].
  rewrite (bind_ok _ _ _ _ _ (py_get_dict _ _ _ _ _ Hq)).
  rewrite Hqn. cbn [default is_none].
  rewrite (bind_ok _ _ _ (VRef lc) st' eq_refl).
  rewrite (bind_ok _ _ _ _ _ (py_contains_list env _ _ _ _ Hc')).
  unfold id. rewrite existsb_py_eq_str.
  rewrite Hin'. reflexivity.
Qed.

End Never.

(** * Whole merges *)

Lemma assoc_get_app k items more :
  assoc_get k (items ++ more)
  = match assoc_get k items with Some v => Some v | None => assoc_get k more end.
Proof.
  induction items as [|[k' v'] rest IH]; simpl; [reflexivity|].
  now destruct (String.eqb k k').
Qed.

Lemma assoc_get_absent k items : ~ In k (map fst items) -> assoc_get k items = None.
Proof.
  induction items as [|[k' v'] rest IH]; simpl; [reflexivity|].
  intros H. destruct (String.eqb_spec k k') as [->|Hne]; [tauto|].
  apply IH. tauto.
Qed.

Lemma lookup_In {A} (items : list A) i x : items !! i = Some x -> In x items.
Proof.
  revert i. induction items as [|y rest IH]; intros [|i] H; simpl in *;
    try discriminate.
  - left. congruence.
  - right. eauto.
Qed.

Lemma keys_before_differ (items : list (string * value)) i k v :
  List.NoDup (map fst items) -> items !! i = Some (k, v) ->
  ~ In k (map fst (take i items)).
Proof.
  intros Hnd Hi Hin.
  rewrite <- (take_drop_middle _ _ _ Hi) in Hnd.
  rewrite map_app in Hnd. simpl in Hnd.
  apply NoDup_remove_2 in Hnd. apply Hnd.
  apply in_or_app. now left.
Qed.

Section WholeMerges.

Variable env : environment.

(** X22: a key without a rule of its own, present on both sides with two
    values of the same type that are neither two dictionaries nor two
    lists (two strings, two numbers): the destination keeps its value and
    the source's value is dropped without a record in the log; nothing
    changes at all. *)
Theorem same_type_scalars_keep_destination self st l items k old v t :
  heap st !! l = Some (ODict items) ->
  special_key k = false ->
  assoc_get k items = Some old ->
  type_name old st = (Ok t, st) ->
  type_name v st = (Ok t, st) ->
  t <> "dict" -> t <> "list" ->
  dict_merge_entry env self (VRef l) k v st = (Ok tt, st).
Proof.
  intros Hl Hk Hold Hto Htv Hd Hli.
  rewrite (dict_merge_entry_ordinary env _ _ _ _ _ _ _ Hl Hk Hold).
  rewrite (bind_ok _ _ _ _ _ (is_dict_type_name _ _ _ Hto)).
  rewrite (bind_ok _ _ _ _ _ (is_dict_type_name _ _ _ Htv)).
  apply String.eqb_neq in Hd, Hli. rewrite Hd. cbn [andb].
  rewrite (bind_ok _ _ _ _ _ (is_list_type_name _ _ _ Hto)).
  rewrite (bind_ok _ _ _ _ _ (is_list_type_name _ _ _ Htv)).
  rewrite Hli. cbn [andb].
  rewrite (bind_ok _ _ _ _ _ Hto).
  rewrite (bind_ok _ _ _ _ _ Htv).
  now rewrite String.eqb_refl.
Qed.

(** X23: the source of a merge must be a dictionary: with a list, a
    string, a number or [None] as the source the merge raises
    [AttributeError] before it reads the destination, and nothing is
    written. *)
Theorem source_must_be_a_dictionary fuel dct merge_dct st :
  is_dict merge_dct st = (Ok false, st) ->
  dict_merge env (S fuel) dct merge_dct st = (Raise AttributeError, st).
Proof.
  intros H. simpl. unfold for_each_item. apply bind_raise.
  unfold is_dict in H. unfold py_items.
  destruct merge_dct; try reflexivity.
  unfold bind, read_obj, bind, get_heap in *.
  destruct (heap st !! l) as [[items|items]|]; simpl in *;
    first [reflexivity | discriminate].
Qed.

Lemma merge_new_keys_from fuel st l ditems m mitems :
  heap st !! l = Some (ODict ditems) ->
  heap st !! m = Some (ODict mitems) ->
  l <> m ->
  List.NoDup (map fst mitems) ->
  (forall k, In k (map fst mitems) ->
             assoc_get k ditems = None /\ requirement_key k = false) ->
  forall rem i, i + rem = length mitems ->
    for_items rem (VRef m) (length mitems) i
      (fun k v _ => dict_merge_entry env (dict_merge env fuel) (VRef l) k v) tt
      (with_heap (<[l:=ODict (ditems ++ take i mitems)]> (heap st)) st)
    = (Ok tt, with_heap (<[l:=ODict (ditems ++ mitems)]> (heap st)) st).
Proof.
  intros Hl Hm Hne Hnd Hnew.
  assert (Hlen : l < length (heap st)) by (eapply lookup_lt_Some; eauto).
  assert (Hsrc : forall items',
            heap (with_heap (<[l:=ODict items']> (heap st)) st) !! m
            = Some (ODict mitems)).
  { intros items'. simpl. now rewrite list_lookup_insert_ne. }
  induction rem as [|rem IH]; intros i Hi.
  - assert (i = length mitems) as -> by lia.
    rewrite firstn_all.
    eapply for_items_done; [apply py_items_dict, Hsrc|reflexivity].
  - destruct (lookup_lt_is_Some_2 mitems i ltac:(lia)) as [[k v] Hkv].
    erewrite for_items_step; [|apply py_items_dict, Hsrc|reflexivity|exact Hkv].
    assert (Hin : In k (map fst mitems)).
    { apply (in_map fst _ (k, v)). eapply lookup_In; eauto. }
    destruct (Hnew k Hin) as [Habs Hreq].
    destruct (requirement_key_false _ Hreq) as [E1 E2].
    set (sti := with_heap (<[l:=ODict (ditems ++ take i mitems)]> (heap st)) st).
    assert (Hli : heap sti !! l = Some (ODict (ditems ++ take i mitems))).
    { unfold sti. simpl. now apply list_lookup_insert_eq. }
    assert (Hfresh : assoc_get k (ditems ++ take i mitems) = None).
    { rewrite assoc_get_app, Habs. apply assoc_get_absent.
      eapply keys_before_differ; eauto. }
    assert (Hbody : dict_merge_entry env (dict_merge env fuel) (VRef l) k v sti
                    = (Ok tt, with_heap (<[l:=ODict (ditems ++ take (S i) mitems)]>
                                           (heap st)) st)).
    { unfold dict_merge_entry. rewrite E1, E2. cbn [orb].
      rewrite (bind_ok _ _ _ _ _ (py_contains_dict env _ _ _ _ Hli)).
      rewrite Hfresh. rewrite bool_decide_eq_false_2 by (intros [? ?]; discriminate).
      cbn [negb]. rewrite (py_setitem_dict _ _ _ _ _ Hli).
      rewrite (assoc_set_fresh _ _ _ Hfresh).
      rewrite (take_S_r _ _ _ Hkv), app_assoc.
      unfold sti, with_heap. simpl. now rewrite list_insert_insert_eq. }
    rewrite (bind_ok _ _ _ _ _ Hbody).
    apply IH. lia.
Qed.

(** X24: merging a source whose keys are all new to the destination (and
    none of them [ReadRequirement] or [WriteRequirement]): the merge
    returns, the destination gets the items of the source behind its
    own, in the order of the source and with the source's values
    themselves (a nested object is shared by both afterwards), and no
    other object of the store changes. *)
Theorem new_keys_are_appended_in_order fuel st l ditems m mitems :
  heap st !! l = Some (ODict ditems) ->
  heap st !! m = Some (ODict mitems) ->
  l <> m ->
  List.NoDup (map fst mitems) ->
  (forall k, In k (map fst mitems) ->
             assoc_get k ditems = None /\ requirement_key k = false) ->
  dict_merge env (S fuel) (VRef l) (VRef m) st
  = (Ok tt, with_heap (<[l:=ODict (ditems ++ mitems)]> (heap st)) st).
Proof.
  intros Hl Hm Hne Hnd Hnew. simpl. unfold for_each_item.
  rewrite (bind_ok _ _ _ _ _ (py_items_dict _ _ _ Hm)).
  pose proof (merge_new_keys_from fuel st l ditems m mitems Hl Hm Hne Hnd Hnew
                (length mitems) 0 eq_refl) as Hloop.
  assert (E : with_heap (<[l:=ODict (ditems ++ take 0 mitems)]> (heap st)) st = st).
  { cbn [take]. rewrite app_nil_r. rewrite list_insert_id by exact Hl.
    apply with_heap_same. }
  rewrite E in Hloop. exact Hloop.
Qed.

End WholeMerges.

(** * The order of the keys of a dictionary *)

Lemma ltb_asym s t : String.ltb s t = true -> String.ltb t s = false.
Proof.
  intros H. destruct (String.ltb t s) eqn:E; [|reflexivity].
  pose proof (ltb_trans _ _ _ H E) as Hs. rewrite ltb_irrefl in Hs. discriminate.
Qed.

Lemma ltb_total s t : String.ltb s t = false -> String.ltb t s = false -> s = t.
Proof.
  unfold String.ltb. intros H1 H2.
  apply String.compare_eq_iff.
  pose proof (String.compare_antisym s t) as Ha.
  destruct (String.compare s t); [reflexivity|discriminate|].
  destruct (String.compare t s); simpl in Ha; discriminate.
Qed.

Lemma insert_sorted_comm a b items :
  fst a <> fst b ->
  insert_sorted a (insert_sorted b items) = insert_sorted b (insert_sorted a items).
Proof.
  intros Hne.
  assert (Hab : forall rest,
            (if String.ltb (fst a) (fst b) then a :: b :: rest else b :: a :: rest)
            = (if String.ltb (fst b) (fst a) then b :: a :: rest else a :: b :: rest)).
  { intros rest. destruct (String.ltb (fst a) (fst b)) eqn:Eab.
    - now rewrite (ltb_asym _ _ Eab).
    - destruct (String.ltb (fst b) (fst a)) eqn:Eba; [reflexivity|].
      exfalso. apply Hne. now apply ltb_total. }
  induction items as [|x rest IH]; simpl.
  - apply Hab.
  - destruct (String.ltb (fst b) (fst x)) eqn:Ebx;
      destruct (String.ltb (fst a) (fst x)) eqn:Eax; simpl;
      rewrite ?Ebx, ?Eax.
    + apply Hab.
    + destruct (String.ltb (fst a) (fst b)) eqn:Eab; [|reflexivity].
      rewrite (ltb_trans _ _ _ Eab Ebx) in Eax. discriminate.
    + destruct (String.ltb (fst b) (fst a)) eqn:Eba; [|reflexivity].
      rewrite (ltb_trans _ _ _ Eba Eax) in Ebx. discriminate.
    + now rewrite IH.
Qed.

Lemma sort_from_permutation items items' :
  Permutation items items' ->
  List.NoDup (map fst items) ->
  forall acc,
    fold_left (fun acc kv => insert_sorted kv acc) items acc
    = fold_left (fun acc kv => insert_sorted kv acc) items' acc.
Proof.
  induction 1 as [|x l l' Hp IH|x y l|l l' l'' Hp1 IH1 Hp2 IH2]; intros Hnd acc.
  - reflexivity.
  - simpl. apply IH. now inversion Hnd.
  - simpl. rewrite insert_sorted_comm; [reflexivity|].
    inversion Hnd as [|? ? Hnotin _]; subst. simpl in Hnotin. intros E.
    apply Hnotin. now left.
  - rewrite IH1 by exact Hnd. apply IH2.
    eapply Permutation_NoDup; [|exact Hnd]. now apply Permutation_map.
Qed.

Lemma sort_items_permutation items items' :
  Permutation items items' -> List.NoDup (map fst items) ->
  sort_items items = sort_items items'.
Proof. intros Hp Hnd. unfold sort_items. now apply sort_from_permutation. Qed.

Lemma insert_sorted_In kv a items :
  In kv (insert_sorted a items) -> kv = a \/ In kv items.
Proof.
  induction items as [|x rest IH]; simpl.
  - intros [<-|[]]. now left.
  - destruct (String.ltb (fst a) (fst x)); simpl.
    + intros [<-|H]; [now left|now right].
    + intros [<-|H]; [right; now left|].
      destruct (IH H) as [->|Hin]; [now left|right; now right].
Qed.

Lemma sort_from_In kv items :
  forall acc,
    In kv (fold_left (fun acc kv => insert_sorted kv acc) items acc) ->
    In kv items \/ In kv acc.
Proof.
  induction items as [|x rest IH]; intros acc; simpl; [now right|].
  intros H. destruct (IH _ H) as [Hin|Hin]; [left; now right|].
  destruct (insert_sorted_In _ _ _ Hin) as [->|Hacc]; [left; now left|now right].
Qed.

Lemma sort_items_In kv items : In kv (sort_items items) -> In kv items.
Proof.
  intros H. destruct (sort_from_In _ _ _ H) as [Hin|[]]. exact Hin.
Qed.

Lemma map_outcome_ext {A B} (f g : A -> outcome B) l :
  (forall x, In x l -> f x = g x) -> map_outcome f l = map_outcome g l.
Proof.
  induction l as [|x rest IH]; simpl; [reflexivity|].
  intros H. rewrite (H x) by now left.
  rewrite IH; [reflexivity|]. intros y Hy. apply H. now right.
Qed.

(** The encoding of a value does not change when the items of one
    dictionary of the store are put in another order. *)
Lemma dumps_reordered h (l : loc) items items' :
  h !! l = Some (ODict items) ->
  Permutation items items' ->
  List.NoDup (map fst items) ->
  forall fuel markers v,
    dumps fuel (<[l:=ODict items']> h) markers v = dumps fuel h markers v.
Proof.
  intros Hl Hp Hnd.
  assert (Hlen : l < length h) by (eapply lookup_lt_Some; eauto).
  induction fuel as [|fuel IH]; intros markers v.
  - destruct v; reflexivity.
  - destruct v; try reflexivity. cbn [dumps]. unfold loc in *.
    destruct (existsb (Nat.eqb l0) markers); [reflexivity|].
    destruct (decide (l = l0)) as [<-|Hne].
    + rewrite list_lookup_insert_eq by exact Hlen. rewrite Hl.
      rewrite <- (sort_items_permutation _ _ Hp Hnd).
      erewrite map_outcome_ext; [reflexivity|].
      intros kv _. simpl. now rewrite IH.
    + rewrite list_lookup_insert_ne by exact Hne.
      destruct (h !! l0) as [[ditems|litems]|]; [| |reflexivity].
      * erewrite map_outcome_ext; [reflexivity|].
        intros kv _. simpl. now rewrite IH.
      * erewrite map_outcome_ext; [reflexivity|].
        intros x _. apply IH.
Qed.

Section KeyOrder.

Variable md5_hexdigest : string -> string.

(** X25: the hash of a profile does not depend on the order of the
    keys: putting the items of any dictionary of the store in another
    order (the profile itself or a dictionary nested at any depth in it)
    gives the same hash, or the same exception. *)
Theorem hashProfile_ignores_key_order profile st (l : loc) items items' :
  heap st !! l = Some (ODict items) ->
  Permutation items items' ->
  List.NoDup (map fst items) ->
  fst (hashProfile md5_hexdigest profile (with_heap (<[l:=ODict items']> (heap st)) st))
  = fst (hashProfile md5_hexdigest profile st).
Proof.
  intros Hl Hp Hnd.
  unfold hashProfile, json_dumps, bind, get_heap, lift.
  cbn [heap with_heap].
  rewrite length_insert.
  rewrite (dumps_reordered _ _ _ _ Hl Hp Hnd).
  now destruct (dumps (S (length (heap st))) (heap st) [] profile).
Qed.

(** X26: two dictionaries with the same items in two orders, the
    values being strings, numbers, booleans or [None], get the same key
    in [merge_lists]: the second one is a duplicate of the first. *)
Theorem reordered_items_have_one_key st (l1 : loc) items1 (l2 : loc) items2 :
  heap st !! l1 = Some (ODict items1) ->
  heap st !! l2 = Some (ODict items2) ->
  Permutation items1 items2 ->
  List.NoDup (map fst items1) ->
  (forall kv, In kv items1 -> hashable (snd kv)) ->
  item_key (VRef l1) st = item_key (VRef l2) st.
Proof.
  intros H1 H2 Hp Hnd Hscalar.
  assert (D1 : is_dict (VRef l1) st = (Ok true, st)).
  { unfold is_dict. now rewrite (bind_ok _ _ _ _ _ (read_obj_ok _ _ _ H1)). }
  assert (D2 : is_dict (VRef l2) st = (Ok true, st)).
  { unfold is_dict. now rewrite (bind_ok _ _ _ _ _ (read_obj_ok _ _ _ H2)). }
  assert (E : json_dumps (VRef l1) st = json_dumps (VRef l2) st).
  { unfold json_dumps, bind, get_heap, lift. cbn [dumps existsb].
    unfold loc in *. rewrite H1, H2.
    rewrite <- (sort_items_permutation _ _ Hp Hnd).
    erewrite map_outcome_ext; [reflexivity|].
    intros kv Hkv. simpl.
    pose proof (Hscalar _ (sort_items_In _ _ Hkv)) as Hv.
    destruct (length (heap st)); destruct (snd kv);
      first [reflexivity | destruct Hv]. }
  unfold item_key.
  rewrite (bind_ok _ _ _ _ _ D1), (bind_ok _ _ _ _ _ D2).
  unfold bind. now rewrite E.
Qed.

End KeyOrder.

(** * A dictionary that grows while the resolver iterates over it *)

Section LiveIteration.

Variable env : environment.

Lemma for_items_size_changed {A} rem d n0 i (body : string -> value -> A -> M A)
  acc st items :
  py_items d st = (Ok items, st) ->
  length items <> n0 ->
  for_items rem d n0 i body acc st = (Raise RuntimeError, st).
Proof.
  intros Hitems Hlen.
  apply Nat.eqb_neq in Hlen.
  destruct rem; simpl; rewrite (bind_ok _ _ _ _ _ Hitems), Hlen; reflexivity.
Qed.

(** X27: a resource-scoped import of a block that has imports of its
    own.  The block found in the imported profile has a
    [RequiredResourceProfile] with names that the importing resource does
    not list yet; the merge adds them to the [RequiredResourceProfile] of
    the importing resource, which is the dictionary that the loop is
    iterating over, and the next step of the loop raises [RuntimeError]:
    the resolution is aborted, with the names already added. *)
Theorem import_of_a_block_with_imports_raises
  fuel directories online resource_name acc st st1
  (li lr lp lres lb lr' : loc) iitems target_name info rest pitems resitems more :
  heap st !! li = Some (ODict iitems) ->
  assoc_get "RequiredResourceProfile" iitems = Some (VRef lr) ->
  heap st !! lr = Some (ODict ((target_name, info) :: rest)) ->
  parseProfileInclude env target_name info directories online st = (Ok (VRef lp), st1) ->
  heap st1 !! lp = Some (ODict pitems) ->
  assoc_get "Resources" pitems = Some (VRef lres) ->
  heap st1 !! lres = Some (ODict resitems) ->
  assoc_get resource_name resitems = Some (VRef lb) ->
  heap st1 !! lb = Some (ODict [("RequiredResourceProfile", VRef lr')]) ->
  heap st1 !! lr' = Some (ODict more) ->
  lr <> lb -> lr <> lr' ->
  more <> [] ->
  List.NoDup (map fst more) ->
  (forall k, In k (map fst more) ->
             assoc_get k ((target_name, info) :: rest) = None
             /\ requirement_key k = false) ->
  for_each_item (VRef lr)
    (resource_profile_step env (dict_merge env (S (S fuel))) directories online
       resource_name (VRef li))
    acc st
  = (Raise RuntimeError,
     with_heap (<[lr:=ODict (((target_name, info) :: rest) ++ more)]> (heap st1)) st1).
Proof.
  intros Hi Hrrp Hr Hparse Hp Hres Hlres Hblock Hb Hr' Hlb Hll Hmore Hnd Hnew.
  set (ritems := (target_name, info) :: rest) in *.
  set (st2 := with_heap (<[lr:=ODict (ritems ++ more)]> (heap st1)) st1).
  assert (Hgrow : store_grows st st1).
  { apply (respects_run store_grows _ _ _ _
             (parseProfileInclude_store_grows env _ _ _ _) Hparse). }
  pose proof (store_grows_lookup _ _ _ _ Hgrow Hi) as Hi1.
  pose proof (store_grows_lookup _ _ _ _ Hgrow Hr) as Hr1.
  assert (Hlen : lr < length (heap st1)) by (eapply lookup_lt_Some; eauto).
  (* the merge of the two lists of imports *)
  assert (Hinner : dict_merge env (S fuel) (VRef lr) (VRef lr') st1 = (Ok tt, st2)).
  { simpl. unfold for_each_item.
    rewrite (bind_ok _ _ _ _ _ (py_items_dict _ _ _ Hr')).
    pose proof (merge_new_keys_from env fuel st1 lr ritems lr' more Hr1 Hr' Hll Hnd Hnew
                  (length more) 0 eq_refl) as Hloop.
    assert (E : with_heap (<[lr:=ODict (ritems ++ take 0 more)]> (heap st1)) st1 = st1).
    { cbn [take]. rewrite app_nil_r. rewrite list_insert_id by exact Hr1.
      apply with_heap_same. }
    rewrite E in Hloop. exact Hloop. }
  (* the merge of the block into the importing resource *)
  assert (Hmerge : dict_merge env (S (S fuel)) (VRef li) (VRef lb) st1 = (Ok tt, st2)).
  { eapply dict_merge_singleton; [exact Hb| |].
    - rewrite (dict_merge_entry_ordinary env _ _ _ _ "RequiredResourceProfile" _ _
                 Hi1 eq_refl Hrrp).
      assert (D1 : is_dict (VRef lr) st1 = (Ok true, st1)).
      { unfold is_dict. now rewrite (bind_ok _ _ _ _ _ (read_obj_ok _ _ _ Hr1)). }
      assert (D2 : is_dict (VRef lr') st1 = (Ok true, st1)).
      { unfold is_dict. now rewrite (bind_ok _ _ _ _ _ (read_obj_ok _ _ _ Hr')). }
      rewrite (bind_ok _ _ _ _ _ D1), (bind_ok _ _ _ _ _ D2).
      exact Hinner.
    - unfold st2. simpl. now rewrite list_lookup_insert_ne. }
  (* the body of the loop *)
  assert (Hbody : resource_profile_step env (dict_merge env (S (S fuel))) directories
                    online resource_name (VRef li) target_name info acc st
                  = (Ok (acc ++ [VRef lp]), st2)).
  { unfold resource_profile_step.
    rewrite (bind_ok _ _ _ _ _ Hparse).
    assert (Hne : pitems <> []) by (intros ->; discriminate).
    rewrite (bind_ok _ _ _ _ _ (truthy_nonempty_dict _ _ _ Hp Hne)).
    rewrite (bind_ok _ _ _ _ _ (py_get_dict _ _ _ _ _ Hp)).
    rewrite Hres. cbn [default].
    rewrite (bind_ok _ _ _ _ _ (py_contains_dict env _ _ _ _ Hlres)).
    rewrite Hblock. rewrite bool_decide_eq_true_2 by eauto.
    rewrite (bind_ok _ _ _ _ _ (py_getitem_dict _ _ _ _ _ Hlres Hblock)).
    now rewrite (bind_ok _ _ _ _ _ Hmerge). }
  unfold for_each_item.
  rewrite (bind_ok _ _ _ _ _ (py_items_dict _ _ _ Hr)).
  change (length ritems) with (S (length rest)).
  erewrite for_items_step; [|apply (py_items_dict _ _ _ Hr)|reflexivity|reflexivity].
  rewrite (bind_ok _ _ _ _ _ Hbody).
  eapply for_items_size_changed.
  - apply py_items_dict. unfold st2. simpl. now apply list_lookup_insert_eq.
  - destruct more; [congruence|]. unfold ritems. simpl.
    rewrite length_app. simpl. lia.
Qed.

End LiveIteration.

(** * Instances of the further properties *)

Lemma absent_key_witness :
  heap count_state !! 0 = Some (ODict [("MinCount", VInt 2); ("MaxCount", VInt 9)])
  /\ requirement_key "Purpose" = false
  /\ assoc_get "Purpose" [("MinCount", VInt 2); ("MaxCount", VInt 9)] = None
  /\ dict_merge_entry sample_env (dict_merge sample_env 0) (VRef 0)
       "Purpose" (VStr "p") count_state
     = (Ok tt,
        with_heap [ODict [("MinCount", VInt 2); ("MaxCount", VInt 9);
                          ("Purpose", VStr "p")]] count_state).
Proof.
  repeat (split; [reflexivity|]).
  apply (absent_key_is_copied sample_env (dict_merge sample_env 0) count_state 0
           [("MinCount", VInt 2); ("MaxCount", VInt 9)] "Purpose" (VStr "p")
           eq_refl eq_refl eq_refl).
Defined.

Lemma counts_witness :
  heap count_state !! 0 = Some (ODict [("MinCount", VInt 2); ("MaxCount", VInt 9)])
  /\ assoc_get "MinCount" [("MinCount", VInt 2); ("MaxCount", VInt 9)] = Some (VInt 2)
  /\ dict_merge_entry sample_env (dict_merge sample_env 0) (VRef 0)
       "MinCount" (VInt 5) count_state
     = (Ok tt,
        with_heap [ODict [("MinCount", VInt 5); ("MaxCount", VInt 9)]] count_state).
Proof.
  repeat (split; [reflexivity|]).
  apply (proj1 (counts_keep_most_restrictive sample_env (dict_merge sample_env 0)
                  count_state 0 [("MinCount", VInt 2); ("MaxCount", VInt 9)] 2 5
                  eq_refl)).
  reflexivity.
Defined.

Lemma null_count_witness :
  heap null_count_state !! 0 = Some (ODict [("MinCount", VNone)])
  /\ assoc_get "MinCount" [("MinCount", VNone)] = Some VNone
  /\ dict_merge_entry sample_env (dict_merge sample_env 0) (VRef 0)
       "MinCount" (VInt 1) null_count_state
     = (Raise TypeError, null_count_state).
Proof.
  repeat (split; [reflexivity|]).
  apply (null_count_raises sample_env (dict_merge sample_env 0) null_count_state 0
           [("MinCount", VNone)] "MinCount" VNone (VInt 1)
           eq_refl (or_introl eq_refl) eq_refl (or_introl eq_refl)).
Defined.

Lemma versions_witness :
  heap version_state !! 0
  = Some (ODict [("MinVersion", VStr "1.0.0"); ("MaxVersion", VStr "1.2.0")])
  /\ version_key sample_env (VStr "1.0.0") version_state = (Ok (1, 0, 0)%Z, version_state)
  /\ version_key sample_env (VStr "1.2.0") version_state = (Ok (1, 2, 0)%Z, version_state)
  /\ exists r kr,
       dict_merge_entry sample_env (dict_merge sample_env 0) (VRef 0)
         "MinVersion" (VStr "1.2.0") version_state
       = (Ok tt,
          with_heap (<[0:=ODict (assoc_set "MinVersion" r
                                   [("MinVersion", VStr "1.0.0");
                                    ("MaxVersion", VStr "1.2.0")])]>
                       (heap version_state)) version_state)
       /\ (r = VStr "1.0.0" \/ r = VStr "1.2.0")
       /\ version_key sample_env r version_state = (Ok kr, version_state)
       /\ version_lt kr (1, 0, 0)%Z = false /\ version_lt kr (1, 2, 0)%Z = false.
Proof.
  repeat (split; [reflexivity|]).
  apply (proj1 (versions_keep_most_restrictive sample_env (dict_merge sample_env 0)
                  version_state 0
                  [("MinVersion", VStr "1.0.0"); ("MaxVersion", VStr "1.2.0")]
                  (VStr "1.0.0") (VStr "1.2.0") (1, 0, 0)%Z (1, 2, 0)%Z
                  eq_refl ltac:(discriminate) ltac:(discriminate) eq_refl eq_refl)).
  reflexivity.
Defined.

Lemma null_version_witness :
  heap null_version_state !! 0 = Some (ODict [("MinVersion", VNone)])
  /\ assoc_get "MinVersion" [("MinVersion", VNone)] = Some VNone
  /\ dict_merge_entry sample_env (dict_merge sample_env 0) (VRef 0)
       "MinVersion" (VStr "1.0.0") null_version_state
     = (Ok tt, with_heap [ODict [("MinVersion", VStr "1.0.0")]] null_version_state).
Proof.
  repeat (split; [reflexivity|]).
  apply (proj1 (null_version_gives_way sample_env (dict_merge sample_env 0)
                  null_version_state 0 [("MinVersion", VNone)] "MinVersion" VNone
                  (VStr "1.0.0") eq_refl (or_introl eq_refl) eq_refl)).
  reflexivity.
Defined.

Lemma union_witness :
  heap lists_state !! 1 = Some (OList [VInt 1])
  /\ heap lists_state !! 3 = Some (OList [VInt 2])
  /\ Forall hashable ([VInt 1] ++ [VInt 2])
  /\ exists merged st',
       merge_lists (VRef 1) (VRef 3) lists_state = (Ok (VRef 4), st')
       /\ heap st' = heap lists_state ++ [OList merged]
       /\ pairwise_distinct merged = true
       /\ (forall x, In x merged -> In x ([VInt 1] ++ [VInt 2]))
       /\ (forall x, In x ([VInt 1] ++ [VInt 2]) -> existsb (scalar_eq x) merged = true).
Proof.
  repeat (split; [first [reflexivity | repeat constructor]|]).
  apply (merge_lists_is_a_union lists_state 1 3 [VInt 1] [VInt 2] eq_refl eq_refl).
  repeat constructor.
Defined.

Lemma first_list_witness :
  heap lists_state !! 1 = Some (OList [VInt 1])
  /\ heap lists_state !! 3 = Some (OList [VInt 2])
  /\ Forall hashable ([VInt 1] ++ [VInt 2])
  /\ pairwise_distinct [VInt 1] = true
  /\ exists added,
       merge_lists (VRef 1) (VRef 3) lists_state
       = (Ok (VRef 4), with_heap (heap lists_state ++ [OList ([VInt 1] ++ added)]) lists_state)
       /\ (forall x, In x added -> In x [VInt 2] /\ existsb (scalar_eq x) [VInt 1] = false)
       /\ ((forall y, In y [VInt 2] -> existsb (scalar_eq y) [VInt 1] = true) -> added = []).
Proof.
  repeat (split; [first [reflexivity | repeat constructor]|]).
  apply (merge_lists_keeps_first_list lists_state 1 3 [VInt 1] [VInt 2] eq_refl eq_refl).
  - repeat constructor.
  - reflexivity.
Defined.

Lemma max_filename_witness :
  max_filename ["B.v1_0_0.json"; "B.v1_2_0.json"] = Some "B.v1_2_0.jso"
  /\ In "B.v1_2_0.jso" (map drop_last ["B.v1_0_0.json"; "B.v1_2_0.json"])
  /\ forall f, In f ["B.v1_0_0.json"; "B.v1_2_0.json"] ->
       String.ltb "B.v1_2_0.jso" (drop_last f) = false.
Proof.
  split; [reflexivity|].
  apply (proj2 (max_filename_is_the_greatest_cut ["B.v1_0_0.json"; "B.v1_2_0.json"])).
  reflexivity.
Defined.

Lemma gives_up_witness :
  repository_url (VStr "http://nowhere") = Some "http://nowhere"
  /\ http_get sample_env (trace reference_state) "http://nowhere" = Raise LibraryError
  /\ getProfileFromRepo sample_env "B.json" (VStr "http://nowhere") reference_state
     = (Ok VNone,
        with_events [EvUrlopen "http://nowhere"; EvPrint LibraryError] reference_state).
Proof.
  repeat (split; [reflexivity|]).
  apply (proj1 (getProfileFromRepo_gives_up sample_env "B.json" (VStr "http://nowhere")
                  reference_state "http://nowhere" eq_refl)).
  reflexivity.
Defined.

Lemma lists_matches_witness :
  filepattern sample_env "B.json" = Ok (String.eqb "B.json")
  /\ exists files,
       getProfilesMatchingName sample_env "B.json" ["profiles"] reference_state
       = (Ok files, with_events (map EvGlob ["profiles"]) reference_state)
       /\ (forall f, In f files ->
             String.eqb "B.json" (basename f) = true
             /\ exists dirname tr, In dirname ["profiles"]
                                   /\ In f (glob_json sample_env tr dirname))
       /\ forall ls, (forall tr d, glob_json sample_env tr d = ls d) ->
            files = flat_map
                      (fun d => List.filter
                                  (fun file => String.eqb "B.json" (basename file)) (ls d))
                      ["profiles"].
Proof.
  split; [reflexivity|].
  apply (proj2 (getProfilesMatchingName_lists_matches sample_env "B.json" ["profiles"]
                  reference_state)).
  reflexivity.
Defined.

Lemma unresolved_witness :
  let st1 := with_events [EvGlob "profiles"] reference_state in
  let st' := with_cached "Z.json" VNone
               (with_logged ERROR (CouldNotAcquire "Z" VNone) st1) in
  heap reference_state !! 0 = Some (ODict [])
  /\ profile_cache reference_state !! "Z.json" = None
  /\ getProfilesMatchingName sample_env "Z.json" ["profiles"] reference_state = (Ok [], st1)
  /\ parseProfileInclude sample_env "Z" (VRef 0) ["profiles"] false reference_state
     = (Ok VNone, st')
  /\ log st' = log reference_state ++ [(ERROR, CouldNotAcquire "Z" VNone)]
  /\ forall directories' online',
       parseProfileInclude sample_env "Z" (VRef 0) directories' online' st'
       = (Ok VNone, st').
Proof.
  intros st1 st'.
  repeat (split; [reflexivity|]).
  apply (unresolved_profile_is_reported_once sample_env "Z" 0 [] ["profiles"] false
           reference_state (1, 0, 0)%Z reference_state st1
           eq_refl eq_refl eq_refl eq_refl eq_refl).
Defined.

Lemma never_warns_witness :
  heap reference_state !! 0 = Some (ODict [])
  /\ version_lt (1, 0, 0)%Z (1, 0, 0)%Z = false
  /\ same_warnings reference_state
       (snd (parseProfileInclude sample_env "B" (VRef 0) ["profiles"] false
               reference_state)).
Proof.
  repeat (split; [reflexivity|]).
  apply (default_min_version_never_warns sample_env "B" 0 [] ["profiles"] false
           reference_state (1, 0, 0)%Z eq_refl eq_refl eq_refl).
Defined.

Lemma single_candidate_witness :
  let st1 := with_events [EvGlob "profiles"] reference_state in
  let st2 := snd (json_build profile_B (with_event (EvOpen "profiles/B.json") st1)) in
  heap reference_state !! 0 = Some (ODict [])
  /\ getProfilesMatchingName sample_env "B.json" ["profiles"] reference_state
     = (Ok ["profiles/B.json"], st1)
  /\ load_json sample_env (trace st1) "profiles/B.json" = Ok profile_B
  /\ json_build profile_B (with_event (EvOpen "profiles/B.json") st1) = (Ok (VRef 3), st2)
  /\ py_get (VRef 3) "ProfileVersion" (VStr "1.0.0") st2 = (Ok (VStr "1.0.0"), st2)
  /\ parseProfileInclude sample_env "B" (VRef 0) ["profiles"] false reference_state
     = (Ok (VRef 3), with_cached "B.json" (VRef 3) st2).
Proof.
  intros st1 st2.
  repeat (split; [reflexivity|]).
  apply (single_candidate_is_returned sample_env "B" 0 [] ["profiles"] false
           reference_state (1, 0, 0)%Z reference_state st1
           "profiles/B.json" profile_B (VRef 3) st2 (VStr "1.0.0") (1, 0, 0)%Z
           eq_refl eq_refl eq_refl eq_refl eq_refl eq_refl eq_refl eq_refl eq_refl).
Defined.

Lemma keeps_keys_witness :
  heap lists_state !! 0 = Some (ODict [("Values", VRef 1)])
  /\ exists items',
       heap (snd (dict_merge sample_env 2 (VRef 0) (VRef 2) lists_state)) !! 0
       = Some (ODict items')
       /\ forall k, is_Some (assoc_get k [("Values", VRef 1)]) ->
                    is_Some (assoc_get k items').
Proof.
  split; [reflexivity|].
  apply (dict_merge_never_removes_a_key sample_env 2 (VRef 0) (VRef 2) lists_state 0
           [("Values", VRef 1)] eq_refl).
Defined.

Lemma lists_untouched_witness :
  heap lists_state !! 1 = Some (OList [VInt 1])
  /\ heap (snd (dict_merge sample_env 2 (VRef 0) (VRef 2) lists_state)) !! 1
     = Some (OList [VInt 1])
  /\ heap (snd (dict_merge sample_env 2 (VRef 0) (VRef 2) lists_state)) !! 0
     = Some (ODict [("Values", VRef 4); ("Extra", VInt 0)]).
Proof.
  split; [reflexivity|]. split; [|reflexivity].
  apply (dict_merge_leaves_lists_as_they_were sample_env 2 (VRef 0) (VRef 2)
           lists_state 1 [VInt 1] eq_refl).
Defined.

Lemma appends_witness :
  heap fresh_chain_state !! 1 = Some (OList [])
  /\ exists more,
       heap (snd (getProfiles sample_env 1 (VRef 0) [] (VRef 1) false fresh_chain_state))
         !! 1
       = Some (OList ([] ++ more)).
Proof.
  split; [reflexivity|].
  apply (resolution_only_appends_to_lists sample_env 1 (VRef 0) [] (VRef 1) false
           fresh_chain_state 1 [] eq_refl).
Defined.

Lemma resolution_keeps_keys_witness :
  heap fresh_chain_state !! 0 = Some (ODict [("ProfileName", VStr "A")])
  /\ exists items',
       heap (snd (getProfiles sample_env 1 (VRef 0) [] (VRef 1) false fresh_chain_state))
         !! 0
       = Some (ODict items')
       /\ forall k, is_Some (assoc_get k [("ProfileName", VStr "A")]) ->
                    is_Some (assoc_get k items').
Proof.
  split; [reflexivity|].
  apply (resolution_never_removes_a_key sample_env 1 (VRef 0) [] (VRef 1) false
           fresh_chain_state 0 [("ProfileName", VStr "A")] eq_refl).
Defined.

Lemma name_stays_witness :
  heap fresh_chain_state !! 0 = Some (ODict [("ProfileName", VStr "A")])
  /\ heap fresh_chain_state !! 1 = Some (OList [])
  /\ exists more,
       heap (snd (getProfiles sample_env 1 (VRef 0) [] (VRef 1) false fresh_chain_state))
         !! 1
       = Some (OList ([] ++ VStr "A" :: more)).
Proof.
  repeat (split; [reflexivity|]).
  apply (name_stays_in_the_chain sample_env 0 fresh_chain_state 0
           [("ProfileName", VStr "A")] 1 [] [] false eq_refl eq_refl eq_refl).
Defined.

Lemma second_visit_witness :
  let st' := snd (getProfiles sample_env 1 (VRef 0) [] (VRef 1) false fresh_chain_state) in
  heap fresh_chain_state !! 0 = Some (ODict [("ProfileName", VStr "A")])
  /\ heap fresh_chain_state !! 1 = Some (OList [])
  /\ heap st' !! 0 = Some (ODict [("ProfileName", VStr "A")])
  /\ getProfiles sample_env 1 (VRef 0) ["profiles"] (VRef 1) true st'
     = (Ok ([], []), with_logged ERROR (CyclicalImport (VRef 1) (VStr "A")) st').
Proof.
  intros st'.
  repeat (split; [reflexivity|]).
  apply (finished_profile_is_taken_for_a_cycle sample_env 0 0 fresh_chain_state 0
           [("ProfileName", VStr "A")] 1 [] "A" [] false 0
           [("ProfileName", VStr "A")] ["profiles"] true
           eq_refl eq_refl eq_refl eq_refl eq_refl).
Defined.

Lemma same_type_witness :
  heap conflict_state !! 0 = Some (ODict [("Version", VInt 1)])
  /\ special_key "Version" = false
  /\ type_name (VInt 1) conflict_state = (Ok "int", conflict_state)
  /\ type_name (VInt 2) conflict_state = (Ok "int", conflict_state)
  /\ dict_merge_entry sample_env (dict_merge sample_env 0) (VRef 0)
       "Version" (VInt 2) conflict_state
     = (Ok tt, conflict_state).
Proof.
  repeat (split; [reflexivity|]).
  apply (same_type_scalars_keep_destination sample_env (dict_merge sample_env 0)
           conflict_state 0 [("Version", VInt 1)] "Version" (VInt 1) (VInt 2) "int"
           eq_refl eq_refl eq_refl eq_refl eq_refl);
    discriminate.
Defined.

Lemma source_witness :
  is_dict (VStr "Chassis") conflict_state = (Ok false, conflict_state)
  /\ dict_merge sample_env 1 (VRef 0) (VStr "Chassis") conflict_state
     = (Raise AttributeError, conflict_state).
Proof.
  split; [reflexivity|].
  apply (source_must_be_a_dictionary sample_env 0 (VRef 0) (VStr "Chassis")
           conflict_state eq_refl).
Defined.

Lemma new_keys_witness :
  heap new_keys_state !! 0 = Some (ODict [("MinCount", VInt 1)])
  /\ heap new_keys_state !! 1 = Some (ODict [("Purpose", VStr "p"); ("Extra", VInt 0)])
  /\ dict_merge sample_env 1 (VRef 0) (VRef 1) new_keys_state
     = (Ok tt,
        with_heap [ODict [("MinCount", VInt 1); ("Purpose", VStr "p"); ("Extra", VInt 0)];
                   ODict [("Purpose", VStr "p"); ("Extra", VInt 0)]] new_keys_state).
Proof.
  repeat (split; [reflexivity|]).
  apply (new_keys_are_appended_in_order sample_env 0 new_keys_state 0
           [("MinCount", VInt 1)] 1 [("Purpose", VStr "p"); ("Extra", VInt 0)]
           eq_refl eq_refl).
  - discriminate.
  - repeat constructor; simpl; intuition discriminate.
  - intros k [<-|[<-|[]]]; split; reflexivity.
Defined.

Lemma key_order_witness :
  heap version_state !! 0
  = Some (ODict [("MinVersion", VStr "1.0.0"); ("MaxVersion", VStr "1.2.0")])
  /\ fst (hashProfile (fun s => s) (VRef 0)
            (with_heap [ODict [("MaxVersion", VStr "1.2.0"); ("MinVersion", VStr "1.0.0")]]
               version_state))
     = fst (hashProfile (fun s => s) (VRef 0) version_state).
Proof.
  split; [reflexivity|].
  apply (hashProfile_ignores_key_order (fun s => s) (VRef 0) version_state 0
           [("MinVersion", VStr "1.0.0"); ("MaxVersion", VStr "1.2.0")]
           [("MaxVersion", VStr "1.2.0"); ("MinVersion", VStr "1.0.0")]
           eq_refl).
  - apply perm_swap.
  - repeat constructor; simpl; intuition discriminate.
Defined.

Lemma one_key_witness :
  heap reordered_state !! 0 = Some (ODict [("a", VInt 1); ("b", VInt 2)])
  /\ heap reordered_state !! 1 = Some (ODict [("b", VInt 2); ("a", VInt 1)])
  /\ item_key (VRef 0) reordered_state = item_key (VRef 1) reordered_state.
Proof.
  repeat (split; [reflexivity|]).
  apply (reordered_items_have_one_key reordered_state 0
           [("a", VInt 1); ("b", VInt 2)] 1 [("b", VInt 2); ("a", VInt 1)]
           eq_refl eq_refl).
  - apply perm_swap.
  - repeat constructor; simpl; intuition discriminate.
  - intros kv [<-|[<-|[]]]; exact I.
Defined.

Lemma import_raises_witness :
  let st1 := snd (parseProfileInclude scoped_env "B" (VRef 0) ["profiles"] false
                    scoped_state) in
  parseProfileInclude scoped_env "B" (VRef 0) ["profiles"] false scoped_state
  = (Ok (VRef 7), st1)
  /\ heap st1 !! 5 = Some (ODict [("RequiredResourceProfile", VRef 4)])
  /\ heap st1 !! 4 = Some (ODict [("C", VRef 3)])
  /\ for_each_item (VRef 1)
       (resource_profile_step scoped_env (dict_merge scoped_env 2) ["profiles"] false
          "Fan" (VRef 2))
       [] scoped_state
     = (Raise RuntimeError,
        with_heap (<[1:=ODict ([("B", VRef 0)] ++ [("C", VRef 3)])]> (heap st1)) st1).
Proof.
  intros st1.
  repeat (split; [reflexivity|]).
  apply (import_of_a_block_with_imports_raises scoped_env 0 ["profiles"] false "Fan" []
           scoped_state st1 2 1 7 6 5 4
           [("RequiredResourceProfile", VRef 1)] "B" (VRef 0) []
           [("ProfileName", VStr "B"); ("Resources", VRef 6)]
           [("Fan", VRef 5)] [("C", VRef 3)]
           eq_refl eq_refl eq_refl eq_refl eq_refl eq_refl eq_refl eq_refl eq_refl eq_refl).
  - discriminate.
  - discriminate.
  - discriminate.
  - repeat constructor; simpl; intuition discriminate.
  - intros k [<-|[]]; split; reflexivity.
Defined.
